(** * Load tester of the ATOM intents demo: statistics and worker pool

    A shallow embedding of [demo/simulation/load_tester.py], and of
    [demo/simulation/intent_generator.py] in the module [IntentGenerator].

    Conventions of the embedding:
    - a Python [int] is a [Z]; a Python [float] is an exact rational [Q]
      (rounding of binary64 is left out of the main model; the module
      [Binary64] evaluates the arithmetic of the driver on IEEE doubles and
      the last part compares it with the rational one on ranges of inputs);
    - a Python [str] is a [string], a [list] is a [list], the [errors]
      dictionary is a [gmap string Z];
    - an operation that can raise returns a [result]; a coroutine returns an
      [awaited] result, which can also stay pending for ever. *)

From Stdlib Require Import ZArith QArith Qround List String Ascii Lia.
From Stdlib Require Import Sorting.Sorted Sorting.Permutation.
From Stdlib Require Import DecimalString SpecFloat.
From Stdlib Require DecimalPos DecimalZ.
From Stdlib Require Import Lqa.
From stdpp Require Import gmap strings fin_maps.

Import ListNotations.
Local Open Scope Z_scope.

(** ** Exceptions and results *)

(** The classes of exception that matter to [_make_request] and to the
    arithmetic of the driver.  [ServerTimeoutError] is aiohttp's timeout: it
    derives from both [asyncio.TimeoutError] and [aiohttp.ClientError].
    [CancelledError] derives from [BaseException] only. *)
Inductive exn_class : Type :=
  | TimeoutError
  | ServerTimeoutError
  | ClientError
  | OtherException
  | CancelledError
  | ZeroDivisionError
  | IndexError
  | ValueError
  | StatisticsError.

(** A raised exception: its class, the name of its type ([type(e).__name__])
    and its message ([str(e)]). *)
Record exn : Type := mkExn {
  exn_cls : exn_class;
  exn_type_name : string;
  exn_str : string
}.

Inductive result (A : Type) : Type :=
  | Ok (a : A)
  | Raise (e : exn).
Arguments Ok {A} a.
Arguments Raise {A} e.

(** Sequencing: the first exception raised ends the computation. *)
#[export] Instance result_bind : MBind result := fun A B k r =>
  match r with
  | Ok a => k a
  | Raise e => Raise e
  end.

Definition raise_cls {A : Type} (c : exn_class) (name msg : string) : result A :=
  Raise (mkExn c name msg).

(** [isinstance(e, asyncio.TimeoutError)]. *)
Definition is_timeout (e : exn) : bool :=
  match exn_cls e with
  | TimeoutError | ServerTimeoutError => true
  | _ => false
  end.

(** [isinstance(e, aiohttp.ClientError)]. *)
Definition is_client_error (e : exn) : bool :=
  match exn_cls e with
  | ServerTimeoutError | ClientError => true
  | _ => false
  end.

(** [isinstance(e, Exception)]: everything but the [BaseException]-only
    signals. *)
Definition is_exception (e : exn) : bool :=
  match exn_cls e with
  | CancelledError => false
  | _ => true
  end.

(** ** Python primitives *)

(** [a / b] on numbers (true division). *)
Definition py_truediv (a b : Q) : result Q :=
  if Qeq_bool b 0
  then raise_cls ZeroDivisionError "ZeroDivisionError" "division by zero"
  else Ok (a / b)%Q.

(** [int(x)] on a float: truncation toward zero. *)
Definition py_int (x : Q) : Z := Z.quot (Qnum x) (Zpos (Qden x)).

(** [float(n)] / the implicit conversion of an [int] operand, for an [int]
    in the range of a float ([float_of_int] below has the check of the
    range). *)
Definition py_float (n : Z) : Q := inject_Z n.

(** [len(l)]. *)
Definition len {A : Type} (l : list A) : Z := Z.of_nat (List.length l).

(** [l[i]]: a negative index counts from the end; out of range raises. *)
Definition py_getitem {A : Type} (l : list A) (i : Z) : result A :=
  let j := if i <? 0 then len l + i else i in
  if j <? 0 then raise_cls IndexError "IndexError" "list index out of range"
  else match nth_error l (Z.to_nat j) with
       | Some x => Ok x
       | None => raise_cls IndexError "IndexError" "list index out of range"
       end.

(** [str(n)] on an [int]: decimal digits, with a leading minus sign. *)
Definition py_str_int (n : Z) : string := NilZero.string_of_int (Z.to_int n).

(** [sorted(l)] on floats: ascending and stable. *)
Fixpoint insert_sorted (x : Q) (l : list Q) : list Q :=
  match l with
  | [] => [x]
  | y :: l' => if Qle_bool x y then x :: y :: l' else y :: insert_sorted x l'
  end.

Fixpoint sorted (l : list Q) : list Q :=
  match l with
  | [] => []
  | x :: l' => insert_sorted x (sorted l')
  end.

(** [sum(l)]. *)
Definition py_sum (l : list Q) : Q := fold_left Qplus l 0%Q.

(** [statistics.mean]. *)
Definition statistics_mean (data : list Q) : result Q :=
  match data with
  | [] => raise_cls StatisticsError "StatisticsError"
            "mean requires at least one data point"
  | _ => Ok (py_sum data / py_float (len data))%Q
  end.

(** [statistics.median]: the middle element of the sorted data, or the mean
    of the two middle elements when their number is even (on rationals: the
    sum of the two does not overflow). *)
Definition statistics_median (data : list Q) : result Q :=
  let data := sorted data in
  let n := len data in
  if n =? 0
  then raise_cls StatisticsError "StatisticsError" "no median for empty data"
  else if n mod 2 =? 1
  then py_getitem data (n / 2)
  else
    let i := n / 2 in
    a ← py_getitem data (i - 1);
    b ← py_getitem data i;
    Ok ((a + b) / 2)%Q.

(** ** Data model *)

(** [TestResult]: the result of a single request. *)
Record TestResult : Type := mkTestResult {
  success : bool;
  latency_ms : Q;
  status_code : Z;
  error : string;
  timestamp : Q
}.

(** [TestStats]: the aggregated statistics. *)
Record TestStats : Type := mkTestStats {
  total_requests : Z;
  successful_requests : Z;
  failed_requests : Z;
  latencies : list Q;
  errors : gmap string Z;
  start_time : Q;
  end_time : Q
}.

(** [TestStats()]: every field at its default. *)
Definition TestStats_new : TestStats :=
  mkTestStats 0 0 0 [] ∅ 0%Q 0%Q.

(** [not l] on a list. *)
Definition py_not {A : Type} (l : list A) : bool :=
  match l with
  | [] => true
  | _ => false
  end.

Definition success_rate (s : TestStats) : result Q :=
  if total_requests s =? 0 then Ok 0%Q
  else
    r ← py_truediv (py_float (successful_requests s))
                   (py_float (total_requests s));
    Ok (r * 100)%Q.

Definition avg_latency (s : TestStats) : result Q :=
  if py_not (latencies s) then Ok 0%Q
  else statistics_mean (latencies s).

Definition p50_latency (s : TestStats) : result Q :=
  if py_not (latencies s) then Ok 0%Q
  else statistics_median (latencies s).

Definition p95_latency (s : TestStats) : result Q :=
  if py_not (latencies s) then Ok 0%Q
  else
    let sorted_latencies := sorted (latencies s) in
    let idx := py_int (py_float (len sorted_latencies) * (95 # 100))%Q in
    py_getitem sorted_latencies idx.

Definition p99_latency (s : TestStats) : result Q :=
  if py_not (latencies s) then Ok 0%Q
  else
    let sorted_latencies := sorted (latencies s) in
    let idx := py_int (py_float (len sorted_latencies) * (99 # 100))%Q in
    py_getitem sorted_latencies (Z.min idx (len sorted_latencies - 1)).

Definition requests_per_second (s : TestStats) : result Q :=
  let duration := (end_time s - start_time s)%Q in
  if Qeq_bool duration 0 then Ok 0%Q
  else py_truediv (py_float (total_requests s)) duration.

(** ** The load tester *)

(** [s.rstrip(c)] for a single character [c]. *)
Fixpoint rstrip (c : ascii) (s : string) : string :=
  match s with
  | EmptyString => EmptyString
  | String a s' =>
      match rstrip c s' with
      | EmptyString => if Ascii.eqb a c then EmptyString else String a EmptyString
      | r => String a r
      end
  end.

(** [asyncio.Semaphore(value)]: the counter of the gate; a negative initial
    value is refused. *)
Definition Semaphore (value : Z) : result Z :=
  if value <? 0
  then raise_cls ValueError "ValueError" "Semaphore initial value must be >= 0"
  else Ok value.

Record LoadTester : Type := mkLoadTester {
  target_url : string;
  rps : Q;
  duration : Z;
  concurrent_limit : Z;
  stats : TestStats;
  _semaphore : Z
}.

(** [LoadTester.__init__]. *)
Definition LoadTester_init (url : string) (requests_per_second : Q)
    (duration_seconds : Z) (limit : Z) : result LoadTester :=
  sem ← Semaphore limit;
  Ok (mkLoadTester (rstrip "/" url) requests_per_second duration_seconds
                   limit TestStats_new sem).

(** What awaiting a coroutine comes to: it is done, with a value or with an
    exception, or it stays pending and its awaiter is never resumed. *)
Inductive awaited (A : Type) : Type :=
  | Done (r : result A)
  | Pending.
Arguments Done {A} r.
Arguments Pending {A}.

#[export] Instance awaited_bind : MBind awaited := fun A B k c =>
  match c with
  | Done (Ok a) => k a
  | Done (Raise e) => Done (Raise e)
  | Pending => Pending
  end.

(** [async with semaphore: body], for a semaphore made with the counter
    [value].  A request takes a place before its post and gives it back when
    the post ends, by a response, an exception or the total timeout of the
    post.  A request that finds no place thus waits for one of the requests in
    flight, and the wait shows in its clock readings; with a counter made at
    0 no request is ever in flight, nothing releases the semaphore, and the
    request stays pending. *)
Definition async_with_semaphore {A : Type} (value : Z) (body : awaited A)
    : awaited A :=
  if value =? 0 then Pending else body.

(** What the transport does with one request: a response arrives (and the
    reading of its body may still raise), or the post raises. *)
Inductive post_behaviour : Type :=
  | Responds (status : Z) (body : option exn)
  | PostRaises (e : exn).

(** The surroundings of one call of [_make_request]: the clock on entry, what
    the transport does, the clock when the response arrives, the clock when
    an exception is caught, and the clock read for the default [timestamp]. *)
Record request_env : Type := mkRequestEnv {
  clock_start : Q;
  behaviour : post_behaviour;
  clock_response : Q;
  clock_except : Q;
  clock_stamp : Q
}.

(** The post of [_make_request] and the reading of the response: the body of
    [async with self._semaphore]. *)
Definition post_and_read (env : request_env) : result TestResult :=
  let start := clock_start env in
  match behaviour env with
  | PostRaises e => Raise e
  | Responds status body =>
      let latency := ((clock_response env - start) * 1000)%Q in
      match body with
      | Some e => Raise e
      | None => Ok (mkTestResult (status =? 200) latency status ""
                                 (clock_stamp env))
      end
  end.

(** [LoadTester._make_request]: the post is made under the semaphore of the
    tester; the [except] clauses are tried in the order of the source; an
    exception none of them matches propagates. *)
Definition _make_request (t : LoadTester) (env : request_env)
    : awaited TestResult :=
  let start := clock_start env in
  match async_with_semaphore (_semaphore t) (Done (post_and_read env)) with
  | Pending => Pending
  | Done (Ok r) => Done (Ok r)
  | Done (Raise e) =>
      if is_timeout e then
        Done (Ok (mkTestResult false ((clock_except env - start) * 1000)%Q 0
                               "timeout" (clock_stamp env)))
      else if is_client_error e then
        Done (Ok (mkTestResult false ((clock_except env - start) * 1000)%Q 0
                               (exn_type_name e) (clock_stamp env)))
      else if is_exception e then
        Done (Ok (mkTestResult false ((clock_except env - start) * 1000)%Q 0
                               (exn_str e) (clock_stamp env)))
      else Done (Raise e)
  end.

(** One turn of the loop of [_worker]: the clock read by the [while] test and
    the surroundings of the request made when the test passes. *)
Record iteration : Type := mkIteration {
  clock_loop : Q;
  request : request_env
}.

(** The [while] loop of [_worker], over the clock readings of its tests: each
    turn makes one request and appends its result. *)
Fixpoint worker_loop (t : LoadTester) (end_time : Q) (turns : list iteration)
    (results : list TestResult) : awaited (list TestResult) :=
  match turns with
  | [] => Done (Ok results)
  | turn :: turns' =>
      if Qlt_le_dec (clock_loop turn) end_time then
        r ← _make_request t (request turn);
        worker_loop t end_time turns' (results ++ [r])
      else Done (Ok results)
  end.

(** [LoadTester._worker]: [now] is the clock at its start.  The payload of a
    request ([generate_intent()] less three of its keys) raises nothing and
    does not reach the outcome; the pacing sleep shows in the clock readings
    of the turns. *)
Definition _worker (t : LoadTester) (now : Q) (turns : list iteration)
    (results : list TestResult) : awaited (list TestResult) :=
  interval ← Done (py_truediv 1 (rps t));
  let end_time := (now + py_float (duration t))%Q in
  worker_loop t end_time turns results.

(** The head of [run]: the number of workers and the rate of each, stored in
    the [rps] field the workers read. *)
Definition plan_workers (t : LoadTester) : result (Z * LoadTester) :=
  tenth ← py_truediv (rps t) 10;
  let num_workers := Z.min (py_int tenth + 1) 50 in
  worker_rps ← py_truediv (rps t) (py_float num_workers);
  Ok (num_workers,
      mkLoadTester (target_url t) worker_rps (duration t)
                   (concurrent_limit t) (stats t) (_semaphore t)).

(** [range(n)]: empty when [n <= 0]. *)
Definition range (n : Z) : list nat := seq 0 (Z.to_nat n).

(** The rates the tasks of [run] work at: each reads the [rps] field. *)
Definition worker_rates (t : LoadTester) : result (list Q) :=
  '(num_workers, t') ← plan_workers t;
  Ok (map (fun _ => rps t') (range num_workers)).

(** [error_key = result.error or f"HTTP {result.status_code}"]. *)
Definition error_key (r : TestResult) : string :=
  if String.eqb (error r) "" then String.append "HTTP " (py_str_int (status_code r))
  else error r.

(** [d.get(k, 0)]. *)
Definition dict_get (d : gmap string Z) (k : string) : Z := default 0 (d !! k).

(** The body of the aggregation loop of [run]. *)
Definition aggregate_step (st : TestStats) (r : TestResult) : TestStats :=
  let total := total_requests st + 1 in
  let lats := latencies st ++ [latency_ms r] in
  if success r then
    mkTestStats total (successful_requests st + 1) (failed_requests st) lats
                (errors st) (start_time st) (end_time st)
  else
    let k := error_key r in
    mkTestStats total (successful_requests st) (failed_requests st + 1) lats
                (<[k := dict_get (errors st) k + 1]> (errors st))
                (start_time st) (end_time st).

(** The aggregation of [run]: [for result in results: ...] on a fresh
    [TestStats] that carries the two clock readings. *)
Definition aggregate (t0 t1 : Q) (results : list TestResult) : TestStats :=
  fold_left aggregate_step results (mkTestStats 0 0 0 [] ∅ t0 t1).

(** The outcomes appended to the shared list, in the order the event loop
    lets the workers append them: [order] names the worker of each append,
    the outcomes of one worker keep their order. *)
Fixpoint interleave (order : list nat) (queues : list (list TestResult))
    : list TestResult :=
  match order with
  | [] => concat queues
  | w :: order' =>
      match queues !! w with
      | Some (r :: q) => r :: interleave order' (<[w := q]> queues)
      | _ => interleave order' queues
      end
  end.

(** One task of the pool: the clock its worker reads on starting, and the
    turns of its loop. *)
Record task : Type := mkTask {
  task_clock : Q;
  task_turns : list iteration
}.

(** [asyncio.gather] of the workers: the exception of a worker is raised to
    the caller, also when another worker is pending; without an exception
    the caller waits for every worker. *)
Fixpoint gather (t : LoadTester) (tasks : list task)
    : awaited (list (list TestResult)) :=
  match tasks with
  | [] => Done (Ok [])
  | w :: tasks' =>
      match _worker t (task_clock w) (task_turns w) [], gather t tasks' with
      | Done (Raise e), _ => Done (Raise e)
      | _, Done (Raise e) => Done (Raise e)
      | Pending, _ => Pending
      | _, Pending => Pending
      | Done (Ok rs), Done (Ok rest) => Done (Ok (rs :: rest))
      end
  end.

(** [LoadTester.run]: [t0] and [t1] are the clock at its start and after the
    workers are joined, [tasks] gives the clock and the turns of each task.
    The progress task only prints. *)
Definition run (t : LoadTester) (t0 t1 : Q) (tasks : nat -> task)
    (order : list nat) : awaited TestStats :=
  '(num_workers, t') ← Done (plan_workers t);
  per_worker ← gather t' (map tasks (range num_workers));
  Done (Ok (aggregate t0 t1 (interleave order per_worker))).

(** ** Nearest rank, as the specification words it *)

(** Sort ascending, take [index = floor(len × p)], clamp it to [len − 1] when
    asked to, return the element at that index. *)
Definition nearest_rank (p : Q) (clamp : bool) (sample : list Q) : option Q :=
  let ascending := sorted sample in
  let index := Qfloor (inject_Z (len ascending) * p) in
  let index := if clamp then Z.min index (len ascending - 1) else index in
  if index <? 0 then None else nth_error ascending (Z.to_nat index).

(** A [TestStats] that holds the latencies [l] and nothing else. *)
Definition stats_of_latencies (l : list Q) : TestStats :=
  mkTestStats (len l) 0 0 l ∅ 0%Q 0%Q.

(** ** Definitions used by the statements *)

(** [sum(d.values())]. *)
Definition dict_values_sum (d : gmap string Z) : Z :=
  map_fold (fun _ v acc => v + acc) 0 d.

(** The failed outcomes of a list, and those of them counted under [k]. *)
Definition failures (results : list TestResult) : list TestResult :=
  List.filter (fun r => negb (success r)) results.

Definition failures_keyed (k : string) (results : list TestResult)
    : list TestResult :=
  List.filter (fun r => String.eqb (error_key r) k) (failures results).

(** The outcomes of a list that are counted under the key [k], in the words
    of the specification: the failed ones whose error kind is [k], when they
    have one, and whose ["HTTP {status_code}"] is [k], when they have none. *)
Definition counted_under (k : string) (results : list TestResult)
    : list TestResult :=
  List.filter
    (fun r => negb (success r)
              && (if String.eqb (error r) ""
                  then String.eqb
                         (String.append "HTTP " (py_str_int (status_code r))) k
                  else String.eqb (error r) k))
    results.



(** ** IEEE doubles

    The arithmetic of the driver on binary64 numbers, to compare with the
    rational model on ranges of inputs. *)
Module Binary64.

Definition prec : Z := 53.
Definition emax : Z := 1024.

(** [float(n)]. *)
Definition of_int (n : Z) : spec_float := binary_normalize prec emax n 0 false.

Definition add : spec_float -> spec_float -> spec_float := SFadd prec emax.
Definition sub : spec_float -> spec_float -> spec_float := SFsub prec emax.
Definition mul : spec_float -> spec_float -> spec_float := SFmul prec emax.
Definition div : spec_float -> spec_float -> spec_float := SFdiv prec emax.

(** The double a decimal literal [num/den] denotes: the one nearest to it. *)
Definition literal (num : Z) (den : positive) : spec_float :=
  div (of_int num) (of_int (Zpos den)).

(** [int(x)]: truncation toward zero. *)
Definition to_int (x : spec_float) : Z :=
  match x with
  | S754_finite s m e =>
      let a := if 0 <=? e then Z.shiftl (Zpos m) e
               else Z.shiftr (Zpos m) (- e) in
      if s then - a else a
  | _ => 0
  end.

(** [int(n * p)] for the literal [p], the index of [p95_latency] and
    [p99_latency]. *)
Definition index (n : Z) (p : Q) : Z :=
  to_int (mul (of_int n) (literal (Qnum p) (Qden p))).

(** [min(int(rps / 10) + 1, 50)] and [rps / num_workers] for a whole rate. *)
Definition num_workers (r : Z) : Z :=
  Z.min (to_int (div (of_int r) (of_int 10)) + 1) 50.

Definition worker_rps (r : Z) : spec_float :=
  div (of_int r) (of_int (num_workers r)).

(** The sum of the rates of the workers. *)
Definition rate_sum (r : Z) : spec_float :=
  fold_left add (repeat (worker_rps r) (Z.to_nat (num_workers r))) (of_int 0).

(** [|x - y| <= y * 2^-40]. *)
Definition close (x y : spec_float) : bool :=
  SFleb (SFabs (sub x y)) (mul y (literal 1 (2 ^ 40))).

(** [successful / total * 100]. *)
Definition success_rate (successful total : Z) : spec_float :=
  mul (div (of_int successful) (of_int total)) (of_int 100).

End Binary64.

(** ** The rest of the statistics *)

(** [min(l)]: the first least element; raises on the empty list. *)
Definition py_min (l : list Q) : result Q :=
  match l with
  | [] => raise_cls ValueError "ValueError" "min() arg is an empty sequence"
  | x :: l' => Ok (fold_left (fun m y => if Qlt_le_dec y m then y else m) l' x)
  end.

(** [max(l)]: the first greatest element; raises on the empty list. *)
Definition py_max (l : list Q) : result Q :=
  match l with
  | [] => raise_cls ValueError "ValueError" "max() arg is an empty sequence"
  | x :: l' => Ok (fold_left (fun m y => if Qlt_le_dec m y then y else m) l' x)
  end.

(** [min(self.latencies) if self.latencies else 0], the [Min] of [summary]. *)
Definition summary_min (s : TestStats) : result Q :=
  if py_not (latencies s) then Ok 0%Q else py_min (latencies s).

(** [max(self.latencies) if self.latencies else 0], the [Max] of [summary]. *)
Definition summary_max (s : TestStats) : result Q :=
  if py_not (latencies s) then Ok 0%Q else py_max (latencies s).

(** The numbers of a sample strictly below [v], and at most [v]. *)
Definition count_below (v : Q) (l : list Q) : Z :=
  len (List.filter (fun x => if Qlt_le_dec x v then true else false) l).

Definition count_upto (v : Q) (l : list Q) : Z :=
  len (List.filter (fun x => Qle_bool x v) l).


(** The range of binary64.  Two floats below [2^1023] in absolute value add
    to a finite float; beyond, the sum of the two middle values of
    [statistics.median] can be infinite.  An [int] below [2^1024 - 2^970] in
    absolute value converts to a float; beyond, the conversion raises
    [OverflowError]. *)
Definition adds_without_overflow (x : Q) : Prop :=
  (- inject_Z (2 ^ 1023) < x)%Q /\ (x < inject_Z (2 ^ 1023))%Q.

Definition converts_to_float (n : Z) : Prop :=
  Z.abs n < 2 ^ 1024 - 2 ^ 970.

(** [float(n)], and the conversion of an [int] operand of a float operation,
    with the check Python makes. *)
Definition float_of_int (n : Z) : result Q :=
  if Z.abs n <? 2 ^ 1024 - 2 ^ 970 then Ok (py_float n)
  else raise_cls OtherException "OverflowError"
                 "int too large to convert to float".

(** ** The address of a request *)

(** [f"{self.target_url}/api/v1/intents"], the address [_make_request]
    posts to. *)
Definition request_url (t : LoadTester) : string :=
  String.append (target_url t) "/api/v1/intents".

(** [c * k], the string of [k] characters [c]. *)
Fixpoint replicate_char (k : nat) (c : ascii) : string :=
  match k with
  | O => EmptyString
  | S k' => String c (replicate_char k' c)
  end.

(** The last character of a string, if it has one. *)
Fixpoint last_char (s : string) : option ascii :=
  match s with
  | EmptyString => None
  | String a EmptyString => Some a
  | String _ s' => last_char s'
  end.


(** * The intent generator

    An embedding of [demo/simulation/intent_generator.py].  The random
    source is explicit: a draw of [random.random()] is a rational the caller
    supplies, a draw of the integer generator under [randint] and [choice]
    is an integer the caller supplies.  A dictionary of an intent is an
    association list in insertion order. *)
Module IntentGenerator.

(** ** Values and dictionaries *)

#[local] Unset Elimination Schemes.
Inductive value : Type :=
  | VStr (s : string)
  | VInt (n : Z)
  | VFloat (x : Q)
  | VBool (b : bool)
  | VList (l : list value)
  | VDict (d : list (string * value)).
#[local] Set Elimination Schemes.

Definition KeyError {A : Type} (k : string) : result A :=
  raise_cls OtherException "KeyError" k.

Definition TypeError {A : Type} (msg : string) : result A :=
  raise_cls OtherException "TypeError" msg.

Fixpoint lookup (d : list (string * value)) (k : string) : option value :=
  match d with
  | [] => None
  | (k', v) :: d' => if String.eqb k' k then Some v else lookup d' k
  end.

(** [d[k] = v]: the value of a present key is replaced in place, a new key
    goes to the end. *)
Fixpoint store (d : list (string * value)) (k : string) (v : value)
    : list (string * value) :=
  match d with
  | [] => [(k, v)]
  | (k', v') :: d' =>
      if String.eqb k' k then (k, v) :: d' else (k', v') :: store d' k v
  end.

Fixpoint remove (d : list (string * value)) (k : string)
    : list (string * value) :=
  match d with
  | [] => []
  | (k', v') :: d' => if String.eqb k' k then d' else (k', v') :: remove d' k
  end.

(** [x[k]]. *)
Definition getitem (x : value) (k : string) : result value :=
  match x with
  | VDict d => match lookup d k with
               | Some v => Ok v
               | None => KeyError k
               end
  | _ => TypeError "object is not subscriptable"
  end.

(** [x[k] = v]. *)
Definition setitem (x : value) (k : string) (v : value) : result value :=
  match x with
  | VDict d => Ok (VDict (store d k v))
  | _ => TypeError "object does not support item assignment"
  end.

(** [del x[k]]. *)
Definition delitem (x : value) (k : string) : result value :=
  match x with
  | VDict d => match lookup d k with
               | Some _ => Ok (VDict (remove d k))
               | None => KeyError k
               end
  | _ => TypeError "object does not support item deletion"
  end.

(** [x[k1][k2]] and [x[k1][k2] = v] on a dictionary held in a dictionary. *)
Definition getitem2 (x : value) (k1 k2 : string) : result value :=
  inner ← getitem x k1;
  getitem inner k2.

Definition setitem2 (x : value) (k1 k2 : string) (v : value) : result value :=
  inner ← getitem x k1;
  inner' ← setitem inner k2 v;
  setitem x k1 inner'.

(** [list(x.keys())]. *)
Definition keys (x : value) : list string :=
  match x with
  | VDict d => map fst d
  | _ => []
  end.

(** The number a value holds, for arithmetic. *)
Definition number (x : value) : result Q :=
  match x with
  | VInt n => Ok (py_float n)
  | VFloat q => Ok q
  | VBool b => Ok (if b then 1 else 0)%Q
  | _ => TypeError "unsupported operand type"
  end.

(** ** The random library *)

(** [random.uniform(a, b)] on the draw [u] of [random()]. *)
Definition uniform (a b u : Q) : Q := (a + (b - a) * u)%Q.

(** [random.randint(a, b)] on the draw [r] of the integer generator below
    [b - a + 1]. *)
Definition randint (a b r : Z) : result Z :=
  if b + 1 - a <=? 0
  then raise_cls ValueError "ValueError" "empty range for randrange()"
  else Ok (a + r).

(** [random.choice(seq)] on the draw [r] of the integer generator below
    [len(seq)]. *)
Definition choice {A : Type} (seq : list A) (r : Z) : result A :=
  py_getitem seq r.

(** [itertools.accumulate(ws)]. *)
Fixpoint accumulate_from (acc : Q) (ws : list Q) : list Q :=
  match ws with
  | [] => []
  | w :: ws' => (acc + w)%Q :: accumulate_from (acc + w)%Q ws'
  end.

Definition accumulate (ws : list Q) : list Q :=
  match ws with
  | [] => []
  | w :: ws' => w :: accumulate_from w ws'
  end.

(** The loop of [bisect.bisect_right(a, x, lo, hi)]; [hi - lo] turns are
    enough, each halves the interval. *)
Fixpoint bisect_loop (fuel : nat) (a : list Q) (x : Q) (lo hi : Z)
    : result Z :=
  match fuel with
  | O => Ok lo
  | S fuel' =>
      if lo <? hi then
        let mid := (lo + hi) / 2 in
        a_mid ← py_getitem a mid;
        if Qlt_le_dec x a_mid then bisect_loop fuel' a x lo mid
        else bisect_loop fuel' a x (mid + 1) hi
      else Ok lo
  end.

Definition bisect (a : list Q) (x : Q) (lo hi : Z) : result Z :=
  bisect_loop (Z.to_nat (hi - lo)) a x lo hi.

(** [random.choices(population, weights=weights, k=1)[0]] on the draw [u] of
    [random()]. *)
Definition choices_weighted {A : Type} (population : list A)
    (weights : list Q) (u : Q) : result A :=
  let n := len population in
  let cum_weights := accumulate weights in
  if negb (len cum_weights =? n)
  then raise_cls ValueError "ValueError"
         "The number of weights does not match the population"
  else
    total ← py_getitem cum_weights (-1);
    if Qle_bool total 0
    then raise_cls ValueError "ValueError"
           "Total of weights must be greater than zero"
    else
      i ← bisect cum_weights (u * total)%Q 0 (n - 1);
      py_getitem population i.

(** [random.choices(population, k=k)] on [k] draws of [random()]. *)
Fixpoint choices_uniform {A : Type} (population : list A) (us : list Q)
    : result (list A) :=
  match us with
  | [] => Ok []
  | u :: us' =>
      x ← py_getitem population
            (Qfloor (u * py_float (len population))%Q);
      rest ← choices_uniform population us';
      Ok (x :: rest)
  end.

(** [round(x, 2)] on an exact value: the nearest hundredth, the even one of
    two nearest. *)
Definition py_round2 (x : Q) : Q :=
  let y := (x * 100)%Q in
  let f := Qfloor y in
  let r := (y - inject_Z f)%Q in
  let n := if Qlt_le_dec r (1 # 2) then f
           else if Qlt_le_dec (1 # 2) r then f + 1
           else if Z.even f then f else f + 1 in
  (inject_Z n / 100)%Q.

(** ** Dates

    A [datetime] is its number of seconds since the epoch and a [timedelta]
    a number of seconds; the rounding of a [timedelta] to microseconds is
    left out. *)

Definition OverflowError {A : Type} (msg : string) : result A :=
  raise_cls OtherException "OverflowError" msg.

(** [timedelta(seconds=s)]: at most 999999999 days either way. *)
Definition timedelta (seconds : Q) : result Q :=
  if Qle_bool (- (86399999913600)) seconds
     && negb (Qle_bool 86400000000000 seconds)
  then Ok seconds
  else OverflowError "days; must have magnitude <= 999999999".

(** The first second of the year 1, and the first second after the year
    9999. *)
Definition datetime_min : Q := - (62135596800).
Definition datetime_end : Q := 253402300800.

(** [d + delta] on a [datetime]: the sum is a date of the years 1 to 9999. *)
Definition datetime_add (d delta : Q) : result Q :=
  let r := (d + delta)%Q in
  if Qle_bool datetime_min r && negb (Qle_bool datetime_end r) then Ok r
  else OverflowError "date value out of range".

(** ** The tables *)

Record token : Type := mkToken {
  chain : string;
  price_usd : Q;
  volatility : Q
}.

Definition TOKENS : list (string * token) :=
  [("ATOM", mkToken "cosmoshub-4" (950 # 100) (3 # 100));
   ("OSMO", mkToken "osmosis-1" (65 # 100) (4 # 100));
   ("USDC", mkToken "noble-1" 1 (1 # 1000));
   ("NTRN", mkToken "neutron-1" (45 # 100) (5 # 100));
   ("STRD", mkToken "stride-1" (120 # 100) (4 # 100))].

(** [TOKENS[denom]]. *)
Fixpoint token_lookup (table : list (string * token)) (denom : string)
    : result token :=
  match table with
  | [] => KeyError denom
  | (k, tok) :: table' =>
      if String.eqb k denom then Ok tok else token_lookup table' denom
  end.

Definition TRADING_PAIRS : list (string * string * Q) :=
  [("ATOM", "OSMO", 25 # 100);
   ("OSMO", "ATOM", 20 # 100);
   ("ATOM", "USDC", 20 # 100);
   ("USDC", "ATOM", 15 # 100);
   ("NTRN", "ATOM", 10 # 100);
   ("ATOM", "NTRN", 5 # 100);
   ("OSMO", "USDC", 5 # 100)].

Record user_profile : Type := mkProfile {
  name : string;
  weight : Q;
  amount_range : Q * Q;
  slippage_tolerance : Q * Q;
  timeout : Z * Z
}.

Definition USER_PROFILES : list user_profile :=
  [mkProfile "retail" (70 # 100) (10, 500)%Q (5 # 10, 2)%Q (30, 120);
   mkProfile "trader" (20 # 100) (500, 10000)%Q (1 # 10, 5 # 10)%Q (15, 60);
   mkProfile "whale" (10 # 100) (10000, 1000000)%Q (2 # 10, 1)%Q (60, 300)].

(** ** The draws of one intent *)

Record draws : Type := mkDraws {
  utcnow : Q;
  uuid4 : string;
  address_draws : list Q;
  pair_draw : Q;
  profile_draw : Q;
  usd_draw : Q;
  input_deviation_draw : Q;
  output_deviation_draw : Q;
  slippage_draw : Q;
  timeout_draw : Z;
  allow_partial_draw : Q;
  min_fill_draw : Z;
  strategy_draw : Z;
  max_hops_draw : Z
}.

(** ** The generator *)

(** [''.join(chars)]. *)
Definition join_chars (chars : list ascii) : string :=
  fold_right String EmptyString chars.

Definition hex_digits : list ascii :=
  ["0"; "1"; "2"; "3"; "4"; "5"; "6"; "7"; "8"; "9";
   "a"; "b"; "c"; "d"; "e"; "f"]%char.

(** [generate_address] on the 38 draws of its [choices]. *)
Definition generate_address (us : list Q) : result string :=
  chars ← choices_uniform hex_digits (firstn 38 us);
  Ok (String.append "cosmos1" (join_chars chars)).

Definition select_trading_pair (u : Q) : result (string * string) :=
  let weights := map (fun p => snd p) TRADING_PAIRS in
  selected ← choices_weighted TRADING_PAIRS weights u;
  Ok (fst (fst selected), snd (fst selected)).

Definition select_user_profile (u : Q) : result user_profile :=
  let weights := map weight USER_PROFILES in
  choices_weighted USER_PROFILES weights u.

Section Generator.

(** [datetime.isoformat], of a time given in seconds. *)
Variable isoformat : Q -> string.

Definition generate_intent (timestamp : option Q) (price_deviation : Q)
    (d : draws) : result value :=
  let timestamp := match timestamp with
                   | Some ts => ts
                   | None => utcnow d
                   end in
  '(input_denom, output_denom) ← select_trading_pair (pair_draw d);
  profile ← select_user_profile (profile_draw d);
  input_token ← token_lookup TOKENS input_denom;
  output_token ← token_lookup TOKENS output_denom;
  let usd_amount :=
    uniform (fst (amount_range profile)) (snd (amount_range profile))
            (usd_draw d) in
  let input_price :=
    (price_usd input_token
     * (1 + price_deviation * uniform (- (1)) 1 (input_deviation_draw d)))%Q in
  let output_price :=
    (price_usd output_token
     * (1 + price_deviation * uniform (- (1)) 1 (output_deviation_draw d)))%Q in
  input_units ← py_truediv usd_amount input_price;
  let input_amount := py_int (input_units * 1000000)%Q in
  output_units ← py_truediv usd_amount output_price;
  let expected_output := py_int (output_units * 1000000)%Q in
  let slippage :=
    (uniform (fst (slippage_tolerance profile))
             (snd (slippage_tolerance profile)) (slippage_draw d) / 100)%Q in
  let min_output := py_int (py_float expected_output * (1 - slippage))%Q in
  timeout_seconds ←
    randint (fst (timeout profile)) (snd (timeout profile)) (timeout_draw d);
  user_address ← generate_address (address_draws d);
  min_fill_percent ← choice [50; 75; 80; 90; 100] (min_fill_draw d);
  strategy ← choice ["eager"; "all_or_nothing"; "price_based"]
                    (strategy_draw d);
  max_hops ← choice [2; 3; 4] (max_hops_draw d);
  Ok (VDict
    [("id", VStr (String.append "intent_" (uuid4 d)));
     ("user_address", VStr user_address);
     ("input", VDict [("chain_id", VStr (chain input_token));
                      ("denom", VStr input_denom);
                      ("amount", VInt input_amount)]);
     ("output", VDict [("chain_id", VStr (chain output_token));
                       ("denom", VStr output_denom);
                       ("min_amount", VInt min_output)]);
     ("fill_config",
      VDict [("allow_partial",
              VBool (if Qlt_le_dec (3 # 10) (allow_partial_draw d)
                     then true else false));
             ("min_fill_percent", VInt min_fill_percent);
             ("strategy", VStr strategy)]);
     ("constraints",
      VDict [("max_hops", VInt max_hops);
             ("allowed_venues", VList []);
             ("excluded_venues", VList []);
             ("max_slippage_bps", VInt (py_int (slippage * 10000)%Q))]);
     ("timeout_seconds", VInt timeout_seconds);
     ("created_at", VStr (String.append (isoformat timestamp) "Z"));
     ("metadata", VDict [("profile", VStr (name profile));
                         ("usd_value", VFloat (py_round2 usd_amount));
                         ("expected_output", VInt expected_output)])]).

(** The draws of [generate_matching_pair]: those of its two intents and of
    its two [uniform]s. *)
Record pair_draws : Type := mkPairDraws {
  pair_utcnow : Q;
  first_draws : draws;
  second_draws : draws;
  input_factor_draw : Q;
  output_factor_draw : Q
}.

Definition generate_matching_pair (p : pair_draws) : result (value * value) :=
  let timestamp := pair_utcnow p in
  intent1 ← generate_intent (Some timestamp) 0 (first_draws p);
  intent2 ← generate_intent (Some timestamp) 0 (second_draws p);
  v ← getitem2 intent1 "output" "denom";
  intent2 ← setitem2 intent2 "input" "denom" v;
  v ← getitem2 intent1 "output" "chain_id";
  intent2 ← setitem2 intent2 "input" "chain_id" v;
  v ← getitem2 intent1 "input" "denom";
  intent2 ← setitem2 intent2 "output" "denom" v;
  v ← getitem2 intent1 "input" "chain_id";
  intent2 ← setitem2 intent2 "output" "chain_id" v;
  v ← getitem2 intent1 "output" "min_amount";
  m ← number v;
  intent2 ← setitem2 intent2 "input" "amount"
              (VInt (py_int (m * uniform (9 # 10) (11 # 10)
                                         (input_factor_draw p))%Q));
  v ← getitem2 intent1 "input" "amount";
  a ← number v;
  intent2 ← setitem2 intent2 "output" "min_amount"
              (VInt (py_int (a * uniform (85 # 100) (95 # 100)
                                         (output_factor_draw p))%Q));
  Ok (intent1, intent2).

(** The draws of one turn of the first loop of [generate_batch], and of one
    turn of its second loop. *)
Record matched_turn : Type := mkMatchedTurn {
  matched_offset_draw : Q;
  matched_pair : pair_draws;
  matched_delay_draw : Q
}.

Record single_turn : Type := mkSingleTurn {
  single_offset_draw : Q;
  single_draws : draws
}.

(** The first loop of [generate_batch]. *)
Fixpoint matching_loop (start_time : Q) (time_span_seconds : Z)
    (turns : list matched_turn) (intents : list value)
    : result (list value) :=
  match turns with
  | [] => Ok intents
  | turn :: turns' =>
      span ← float_of_int time_span_seconds;
      let offset := uniform 0 span (matched_offset_draw turn) in
      delta ← timedelta offset;
      timestamp ← datetime_add start_time delta;
      '(intent1, intent2) ← generate_matching_pair (matched_pair turn);
      intent1 ← setitem intent1 "created_at"
                  (VStr (String.append (isoformat timestamp) "Z"));
      delay ← timedelta (uniform 0 5 (matched_delay_draw turn));
      later ← datetime_add timestamp delay;
      intent2 ← setitem intent2 "created_at"
                  (VStr (String.append (isoformat later) "Z"));
      matching_loop start_time time_span_seconds turns'
                    (intents ++ [intent1; intent2])
  end.

(** The second loop of [generate_batch]. *)
Fixpoint remaining_loop (start_time : Q) (time_span_seconds : Z)
    (turns : list single_turn) (intents : list value)
    : result (list value) :=
  match turns with
  | [] => Ok intents
  | turn :: turns' =>
      span ← float_of_int time_span_seconds;
      let offset := uniform 0 span (single_offset_draw turn) in
      delta ← timedelta offset;
      timestamp ← datetime_add start_time delta;
      intent ← generate_intent (Some timestamp) 0 (single_draws turn);
      remaining_loop start_time time_span_seconds turns' (intents ++ [intent])
  end.

(** The key of the sort of [generate_batch]: [x["created_at"]]. *)
Definition created_at (x : value) : result string :=
  v ← getitem x "created_at";
  match v with
  | VStr s => Ok s
  | _ => TypeError "'<' not supported"
  end.

Fixpoint keyed (xs : list value) : result (list (string * value)) :=
  match xs with
  | [] => Ok []
  | x :: xs' =>
      k ← created_at x;
      rest ← keyed xs';
      Ok ((k, x) :: rest)
  end.

(** [list.sort(key=...)]: stable, by [<] on the keys. *)
Fixpoint insert_keyed (kx : string * value) (l : list (string * value))
    : list (string * value) :=
  match l with
  | [] => [kx]
  | ky :: l' =>
      if String.ltb (fst ky) (fst kx) then ky :: insert_keyed kx l'
      else kx :: ky :: l'
  end.

Fixpoint sort_keyed (l : list (string * value)) : list (string * value) :=
  match l with
  | [] => []
  | kx :: l' => insert_keyed kx (sort_keyed l')
  end.

(** [generate_batch]: [start_time] is the clock at its start, [matched] and
    [singles] give the draws of the turns of its two loops, as many of them
    as the loops make turns. *)
Definition generate_batch (count : Z) (matching_ratio : Q)
    (time_span_seconds : Z) (start_time : Q)
    (matched : nat -> matched_turn) (singles : nat -> single_turn)
    : result (list value) :=
  count_float ← float_of_int count;
  let matching_count := py_int (count_float * matching_ratio / 2)%Q in
  intents ← matching_loop start_time time_span_seconds
              (map matched (range matching_count)) [];
  let remaining := count - len intents in
  intents ← remaining_loop start_time time_span_seconds
              (map singles (range remaining)) intents;
  ks ← keyed intents;
  Ok (map snd (sort_keyed ks)).

End Generator.

(** The payload [_worker] of the load tester posts: the intent less three of
    its keys. *)
Definition worker_payload (intent : value) : result value :=
  intent ← delitem intent "id";
  intent ← delitem intent "metadata";
  delitem intent "created_at".

(** The profile counts of [main]:
    [profile_counts[profile] = profile_counts.get(profile, 0) + 1] for the
    profile of each intent. *)
Fixpoint profile_counts_loop (intents : list value) (counts : gmap string Z)
    : result (gmap string Z) :=
  match intents with
  | [] => Ok counts
  | intent :: intents' =>
      v ← getitem2 intent "metadata" "profile";
      match v with
      | VStr profile =>
          profile_counts_loop intents'
            (<[profile := default 0 (counts !! profile) + 1]> counts)
      | _ => TypeError "unhashable"
      end
  end.

Definition profile_counts (intents : list value) : result (gmap string Z) :=
  profile_counts_loop intents ∅.

(** ** Definitions used by the statements *)

(** A draw of [random()]. *)
Definition unit_draw (u : Q) : Prop := (0 <= u)%Q /\ (u < 1)%Q.

(** The draws of one intent are draws the random library can make: those of
    [random()] are in [[0, 1)], there are 38 of them for the address, and
    those of the integer generator are below its bound. *)
Definition valid_draws (d : draws) : Prop :=
  unit_draw (pair_draw d) /\ unit_draw (profile_draw d)
  /\ unit_draw (usd_draw d) /\ unit_draw (input_deviation_draw d)
  /\ unit_draw (output_deviation_draw d) /\ unit_draw (slippage_draw d)
  /\ unit_draw (allow_partial_draw d)
  /\ length (address_draws d) = 38%nat
  /\ Forall unit_draw (address_draws d)
  /\ (forall p, select_user_profile (profile_draw d) = Ok p ->
                0 <= timeout_draw d < snd (timeout p) + 1 - fst (timeout p))
  /\ 0 <= min_fill_draw d < 5
  /\ 0 <= strategy_draw d < 3
  /\ 0 <= max_hops_draw d < 3.

(** The same for the draws of the turns of [generate_batch]. *)
Definition valid_matched_turn (turn : matched_turn) : Prop :=
  unit_draw (matched_offset_draw turn)
  /\ valid_draws (first_draws (matched_pair turn))
  /\ valid_draws (second_draws (matched_pair turn))
  /\ unit_draw (input_factor_draw (matched_pair turn))
  /\ unit_draw (output_factor_draw (matched_pair turn))
  /\ unit_draw (matched_delay_draw turn).

Definition valid_single_turn (turn : single_turn) : Prop :=
  unit_draw (single_offset_draw turn) /\ valid_draws (single_draws turn).

(** The timestamps of a batch stay in the years 1 to 9999: its start and its
    start moved by the time span are at least a second after the first date
    and at least six seconds before the last one, the second intent of a
    pair being up to five seconds later than the first. *)
Definition span_in_range (start_time : Q) (time_span_seconds : Z) : Prop :=
  (datetime_min + 1 <= start_time)%Q
  /\ (datetime_min + 1 <= start_time + inject_Z time_span_seconds)%Q
  /\ (start_time + 6 <= datetime_end)%Q
  /\ (start_time + inject_Z time_span_seconds + 6 <= datetime_end)%Q.

(** The intent has a [created_at] the sort can read. *)
Definition has_key (x : value) : Prop := exists s, created_at x = Ok s.

(** The keys of a batch, as its sort reads them. *)
Definition batch_keys (intents : list value) : result (list string) :=
  ks ← keyed intents;
  Ok (map fst ks).

(** The intents of a list whose profile is [k]. *)
Definition with_profile (k : string) (intents : list value) : list value :=
  List.filter (fun x => match getitem2 x "metadata" "profile" with
                        | Ok (VStr s) => String.eqb s k
                        | _ => false
                        end) intents.

(** Draws to run the generator on: every draw of [random()] is one half. *)
Definition sample_draws : draws :=
  mkDraws 1700000000 "3f2b8c1e-0000-4000-8000-000000000000"
          (repeat (1 # 2)%Q 38) (1 # 2) (1 # 2) (1 # 2) (1 # 2) (1 # 2)
          (1 # 2) 7 (1 # 2) 2 1 0.

Definition sample_isoformat (seconds : Q) : string :=
  String.append "t" (py_str_int (Qfloor seconds)).

Definition sample_matched (i : nat) : matched_turn :=
  mkMatchedTurn (1 # 2)
                (mkPairDraws 1700000000 sample_draws sample_draws
                             (1 # 2) (1 # 2))
                (1 # 2).

Definition sample_single (i : nat) : single_turn :=
  mkSingleTurn (1 # 4) sample_draws.

End IntentGenerator.


(** * Properties *)

(** ** Sorting *)

Lemma insert_sorted_perm (x : Q) (l : list Q) :
  Permutation (insert_sorted x l) (x :: l).
Proof.
  induction l as [|y l IH]; simpl.
  - apply Permutation_refl.
  - destruct (Qle_bool x y).
    + apply Permutation_refl.
    + eapply perm_trans; [apply perm_skip, IH | apply perm_swap].
Qed.

Lemma sorted_perm (l : list Q) : Permutation (sorted l) l.
Proof.
  induction l as [|x l IH]; simpl.
  - apply perm_nil.
  - eapply perm_trans; [apply insert_sorted_perm | apply perm_skip, IH].
Qed.

Lemma sorted_len (l : list Q) : len (sorted l) = len l.
Proof.
  unfold len. f_equal. apply Permutation_length, sorted_perm.
Qed.

Lemma sorted_In (l : list Q) (x : Q) : In x (sorted l) -> In x l.
Proof. apply Permutation_in, sorted_perm. Qed.

Lemma insert_sorted_ascending (x : Q) (l : list Q) :
  StronglySorted Qle l -> StronglySorted Qle (insert_sorted x l).
Proof.
  induction 1 as [|y l Hl IH Hy]; simpl.
  - repeat constructor.
  - destruct (Qle_bool x y) eqn:E.
    + apply Qle_bool_iff in E.
      constructor; [constructor; assumption|].
      constructor; [assumption|].
      eapply List.Forall_impl; [|exact Hy].
      intros z Hz. eapply Qle_trans; eassumption.
    + assert (y <= x)%Q as Hyx.
      { destruct (Qlt_le_dec y x) as [H|H]; [apply Qlt_le_weak, H|].
        apply Qle_bool_iff in H. congruence. }
      constructor; [exact IH|].
      eapply Permutation_Forall; [symmetry; apply insert_sorted_perm|].
      constructor; assumption.
Qed.

Lemma sorted_ascending (l : list Q) : StronglySorted Qle (sorted l).
Proof.
  induction l as [|x l IH]; simpl.
  - constructor.
  - apply insert_sorted_ascending, IH.
Qed.

(** ** Indexing and truncation *)

Lemma py_getitem_in_range {A : Type} (l : list A) (i : Z) :
  0 <= i < len l ->
  exists x, py_getitem l i = Ok x /\ nth_error l (Z.to_nat i) = Some x.
Proof.
  intros [H0 H1]. unfold py_getitem.
  destruct (i <? 0) eqn:E; [apply Z.ltb_lt in E; lia|]. rewrite E.
  destruct (nth_error l (Z.to_nat i)) as [x|] eqn:N.
  - exists x. split; reflexivity.
  - apply nth_error_None in N. unfold len in H1. lia.
Qed.

Lemma py_int_floor (x : Q) : (0 <= x)%Q -> py_int x = Qfloor x.
Proof.
  destruct x as [n d]. unfold Qle, py_int, Qfloor. simpl.
  intros H. apply Z.quot_div_nonneg; lia.
Qed.

Lemma py_int_scaled (n a : Z) (b : positive) :
  0 <= n -> 0 <= a ->
  py_int (py_float n * (a # b)) = n * a / Zpos b.
Proof.
  intros Hn Ha. unfold py_int, py_float. simpl.
  rewrite Z.quot_div_nonneg by lia. reflexivity.
Qed.

Lemma Qfloor_scaled (n a : Z) (b : positive) :
  Qfloor (inject_Z n * (a # b)) = n * a / Zpos b.
Proof. reflexivity. Qed.

Lemma py_not_false {A : Type} (l : list A) : l <> [] -> py_not l = false.
Proof. destruct l; [congruence | reflexivity]. Qed.

Lemma len_pos {A : Type} (l : list A) : l <> [] -> 0 < len l.
Proof. destruct l; [congruence|]. unfold len. simpl. lia. Qed.

(** ** Percentiles *)

Lemma p95_index_in_range (n : Z) : 0 < n -> 0 <= n * 95 / 100 < n.
Proof.
  intros Hn. split.
  - apply Z.div_pos; lia.
  - apply Z.div_lt_upper_bound; lia.
Qed.

Lemma p99_index_in_range (n : Z) :
  0 < n -> 0 <= Z.min (n * 99 / 100) (n - 1) < n.
Proof.
  intros Hn. assert (0 <= n * 99 / 100) by (apply Z.div_pos; lia). lia.
Qed.

Lemma p99_clamp_idle (n : Z) :
  0 < n -> Z.min (n * 99 / 100) (n - 1) = n * 99 / 100.
Proof.
  intros Hn. assert (n * 99 / 100 < n) by (apply Z.div_lt_upper_bound; lia).
  lia.
Qed.

Lemma p95_latency_nearest_rank (s : TestStats) :
  latencies s <> [] ->
  exists v, p95_latency s = Ok v
            /\ nearest_rank (95 # 100) false (latencies s) = Some v
            /\ In v (latencies s).
Proof.
  intros Hne. pose proof (len_pos _ Hne) as Hpos.
  unfold p95_latency, nearest_rank. rewrite (py_not_false _ Hne).
  cbv zeta. rewrite Qfloor_scaled, py_int_scaled by (unfold len; lia).
  rewrite sorted_len.
  destruct (py_getitem_in_range (sorted (latencies s)) (len (latencies s) * 95 / 100))
    as (v & Hv & Hn).
  { rewrite sorted_len. apply p95_index_in_range, Hpos. }
  exists v. split; [exact Hv|].
  destruct (p95_index_in_range _ Hpos) as [H0 _].
  destruct (_ <? 0) eqn:E; [apply Z.ltb_lt in E; lia|].
  split; [exact Hn|]. apply sorted_In. eapply nth_error_In, Hn.
Qed.

Lemma p99_latency_nearest_rank (s : TestStats) :
  latencies s <> [] ->
  exists v, p99_latency s = Ok v
            /\ nearest_rank (99 # 100) true (latencies s) = Some v
            /\ In v (latencies s).
Proof.
  intros Hne. pose proof (len_pos _ Hne) as Hpos.
  unfold p99_latency, nearest_rank. rewrite (py_not_false _ Hne).
  cbv zeta. rewrite Qfloor_scaled, py_int_scaled by (unfold len; lia).
  rewrite sorted_len.
  destruct (py_getitem_in_range (sorted (latencies s))
              (Z.min (len (latencies s) * 99 / 100) (len (latencies s) - 1)))
    as (v & Hv & Hn).
  { rewrite sorted_len. apply p99_index_in_range, Hpos. }
  exists v. split; [exact Hv|].
  destruct (p99_index_in_range _ Hpos) as [H0 _].
  destruct (_ <? 0) eqn:E; [apply Z.ltb_lt in E; lia|].
  split; [exact Hn|]. apply sorted_In. eapply nth_error_In, Hn.
Qed.

(** On a sample of odd size the median is the element of nearest rank
    [floor(len × 0.5)]. *)
Lemma p50_latency_odd (s : TestStats) :
  latencies s <> [] -> len (latencies s) mod 2 = 1 ->
  exists v, p50_latency s = Ok v
            /\ nearest_rank (1 # 2) false (latencies s) = Some v
            /\ In v (latencies s).
Proof.
  intros Hne Hodd. pose proof (len_pos _ Hne) as Hpos.
  unfold p50_latency, statistics_median, nearest_rank.
  rewrite (py_not_false _ Hne). cbv zeta. rewrite Qfloor_scaled, sorted_len.
  destruct (_ =? 0) eqn:E0; [apply Z.eqb_eq in E0; lia|].
  rewrite Hodd. simpl (1 =? 1). cbv iota.
  rewrite Z.mul_1_r.
  assert (0 <= len (latencies s) / 2 < len (latencies s)) as Hr.
  { split; [apply Z.div_pos; lia | apply Z.div_lt_upper_bound; lia]. }
  destruct (py_getitem_in_range (sorted (latencies s)) (len (latencies s) / 2))
    as (v & Hv & Hn).
  { rewrite sorted_len. exact Hr. }
  exists v. split; [exact Hv|].
  destruct (_ <? 0) eqn:E; [apply Z.ltb_lt in E; lia|].
  split; [exact Hn|]. apply sorted_In. eapply nth_error_In, Hn.
Qed.

(** On a sample of even size the median is the mean of the two middle
    elements of the sorted sample. *)
Lemma p50_latency_even (s : TestStats) :
  latencies s <> [] -> len (latencies s) mod 2 = 0 ->
  exists a b,
    nth_error (sorted (latencies s)) (Z.to_nat (len (latencies s) / 2 - 1)) = Some a
    /\ nth_error (sorted (latencies s)) (Z.to_nat (len (latencies s) / 2)) = Some b
    /\ p50_latency s = Ok ((a + b) / 2)%Q.
Proof.
  intros Hne Heven. pose proof (len_pos _ Hne) as Hpos.
  unfold p50_latency, statistics_median.
  rewrite (py_not_false _ Hne). cbv zeta. rewrite sorted_len.
  destruct (_ =? 0) eqn:E0; [apply Z.eqb_eq in E0; lia|].
  rewrite Heven. simpl (0 =? 1). cbv iota.
  assert (1 <= len (latencies s) / 2 < len (latencies s)) as Hr.
  { pose proof (Z_div_mod_eq_full (len (latencies s)) 2). lia. }
  destruct (py_getitem_in_range (sorted (latencies s)) (len (latencies s) / 2 - 1))
    as (a & Ha & Hna).
  { rewrite sorted_len. lia. }
  destruct (py_getitem_in_range (sorted (latencies s)) (len (latencies s) / 2))
    as (b & Hb & Hnb).
  { rewrite sorted_len. lia. }
  exists a, b. rewrite Ha, Hb. repeat split; assumption.
Qed.

(** ** Aggregation *)

Lemma dict_values_sum_empty : dict_values_sum ∅ = 0.
Proof. unfold dict_values_sum. apply map_fold_empty. Qed.

Lemma dict_values_sum_increment (d : gmap string Z) (k : string) :
  dict_values_sum (<[k := dict_get d k + 1]> d) = dict_values_sum d + 1.
Proof.
  unfold dict_values_sum, dict_get.
  destruct (d !! k) as [v|] eqn:Hk; simpl.
  - rewrite (map_fold_delete_L _ 0 k v d); [|intros; lia|exact Hk].
    rewrite <- (insert_delete_eq d).
    rewrite map_fold_insert_L; [lia|intros; lia|apply lookup_delete_eq].
  - rewrite map_fold_insert_L; [lia|intros; lia|exact Hk].
Qed.

Lemma dict_get_increment (d : gmap string Z) (k j : string) :
  dict_get (<[k := dict_get d k + 1]> d) j
  = dict_get d j + (if String.eqb k j then 1 else 0).
Proof.
  unfold dict_get at 1 3. destruct (String.eqb k j) eqn:E.
  - apply String.eqb_eq in E. subst j. rewrite lookup_insert_eq. reflexivity.
  - apply String.eqb_neq in E. rewrite lookup_insert_ne by exact E. lia.
Qed.

(** What one turn of the aggregation loop does to each field. *)
Lemma aggregate_step_total st r :
  total_requests (aggregate_step st r) = total_requests st + 1.
Proof. unfold aggregate_step. destruct (success r); reflexivity. Qed.

Lemma aggregate_step_latencies st r :
  latencies (aggregate_step st r) = latencies st ++ [latency_ms r].
Proof. unfold aggregate_step. destruct (success r); reflexivity. Qed.

Lemma aggregate_step_successful st r :
  successful_requests (aggregate_step st r)
  = successful_requests st + (if success r then 1 else 0).
Proof. unfold aggregate_step. destruct (success r); simpl; lia. Qed.

Lemma aggregate_step_failed st r :
  failed_requests (aggregate_step st r)
  = failed_requests st + (if success r then 0 else 1).
Proof. unfold aggregate_step. destruct (success r); simpl; lia. Qed.

Lemma aggregate_step_errors st r :
  errors (aggregate_step st r)
  = if success r then errors st
    else <[error_key r := dict_get (errors st) (error_key r) + 1]> (errors st).
Proof. unfold aggregate_step. destruct (success r); reflexivity. Qed.


(** The loop from any starting statistics. *)
Section AggregationLoop.
Variable st0 : TestStats.

Lemma loop_total results :
  total_requests (fold_left aggregate_step results st0)
  = total_requests st0 + len results.
Proof.
  revert st0. induction results as [|r rs IH]; intros st; simpl.
  - unfold len. simpl. lia.
  - rewrite IH, aggregate_step_total. unfold len. simpl length. lia.
Qed.

Lemma loop_latencies results :
  latencies (fold_left aggregate_step results st0)
  = latencies st0 ++ map latency_ms results.
Proof.
  revert st0. induction results as [|r rs IH]; intros st; simpl.
  - symmetry. apply app_nil_r.
  - rewrite IH, aggregate_step_latencies, <- app_assoc. reflexivity.
Qed.

Lemma loop_successful results :
  successful_requests (fold_left aggregate_step results st0)
  = successful_requests st0 + len (List.filter success results).
Proof.
  revert st0. induction results as [|r rs IH]; intros st; simpl.
  - unfold len. simpl. lia.
  - rewrite IH, aggregate_step_successful.
    destruct (success r); unfold len; simpl length; lia.
Qed.

Lemma loop_failed results :
  failed_requests (fold_left aggregate_step results st0)
  = failed_requests st0 + len (failures results).
Proof.
  unfold failures.
  revert st0. induction results as [|r rs IH]; intros st; simpl.
  - unfold len. simpl. lia.
  - rewrite IH, aggregate_step_failed.
    destruct (success r); unfold len; simpl length; lia.
Qed.

Lemma loop_errors_sum results :
  dict_values_sum (errors (fold_left aggregate_step results st0))
  = dict_values_sum (errors st0) + len (failures results).
Proof.
  unfold failures.
  revert st0. induction results as [|r rs IH]; intros st; simpl.
  - unfold len. simpl. lia.
  - rewrite IH, aggregate_step_errors.
    destruct (success r); simpl.
    + reflexivity.
    + rewrite dict_values_sum_increment. unfold len. simpl length. lia.
Qed.

Lemma loop_errors_key results k :
  dict_get (errors (fold_left aggregate_step results st0)) k
  = dict_get (errors st0) k + len (failures_keyed k results).
Proof.
  unfold failures_keyed, failures.
  revert st0. induction results as [|r rs IH]; intros st; simpl.
  - unfold len. simpl. lia.
  - rewrite IH, aggregate_step_errors.
    destruct (success r); simpl.
    + reflexivity.
    + rewrite dict_get_increment.
      destruct (String.eqb (error_key r) k); unfold len; simpl length; lia.
Qed.

End AggregationLoop.

Lemma len_filter_split {A : Type} (f : A -> bool) (l : list A) :
  len l = len (List.filter f l) + len (List.filter (fun x => negb (f x)) l).
Proof.
  unfold len. induction l as [|x l IH]; simpl.
  - reflexivity.
  - destruct (f x); simpl length; lia.
Qed.

Lemma len_nonneg {A : Type} (l : list A) : 0 <= len l.
Proof. unfold len. lia. Qed.

Lemma aggregate_snoc (t0 t1 : Q) (results : list TestResult) (r : TestResult) :
  aggregate t0 t1 (results ++ [r])
  = aggregate_step (aggregate t0 t1 results) r.
Proof. unfold aggregate. rewrite fold_left_app. reflexivity. Qed.

Lemma failures_keyed_snoc (k : string) (results : list TestResult)
    (r : TestResult) :
  failures_keyed k (results ++ [r])
  = failures_keyed k results
    ++ (if negb (success r) && String.eqb (error_key r) k then [r] else []).
Proof.
  unfold failures_keyed, failures. rewrite !List.filter_app. simpl.
  destruct (success r); simpl; [reflexivity|].
  destruct (String.eqb (error_key r) k); reflexivity.
Qed.

Lemma len_app {A : Type} (l l' : list A) : len (l ++ l') = len l + len l'.
Proof. unfold len. rewrite length_app. lia. Qed.

(** The entry of a key in the aggregated [errors]: absent when no failed
    outcome has the key, their number otherwise. *)
Lemma aggregate_errors_lookup (t0 t1 : Q) (results : list TestResult)
    (k : string) :
  errors (aggregate t0 t1 results) !! k
  = if len (failures_keyed k results) =? 0 then None
    else Some (len (failures_keyed k results)).
Proof.
  induction results as [|r results IH] using rev_ind.
  - reflexivity.
  - rewrite aggregate_snoc, aggregate_step_errors, failures_keyed_snoc, len_app.
    pose proof (len_nonneg (failures_keyed k results)) as Hn.
    destruct (success r); simpl.
    + rewrite Z.add_0_r. exact IH.
    + destruct (String.eqb (error_key r) k) eqn:E.
      * apply String.eqb_eq in E. subst k. rewrite lookup_insert_eq.
        unfold dict_get. rewrite IH.
        destruct (_ + _ =? 0) eqn:E0; [apply Z.eqb_eq in E0; unfold len in *;
                                        simpl length in *; lia|].
        f_equal. destruct (len (failures_keyed (error_key r) results) =? 0) eqn:E1.
        -- apply Z.eqb_eq in E1. rewrite E1. reflexivity.
        -- reflexivity.
      * apply String.eqb_neq in E. rewrite lookup_insert_ne by exact E.
        simpl. rewrite Z.add_0_r. exact IH.
Qed.

(** The counters of aggregated statistics are ordered as [success_rate]
    expects. *)
Lemma aggregate_counts_ordered t0 t1 results :
  0 <= successful_requests (aggregate t0 t1 results)
    <= total_requests (aggregate t0 t1 results).
Proof.
  unfold aggregate. rewrite loop_successful, loop_total. simpl.
  rewrite (len_filter_split success results).
  pose proof (len_nonneg (List.filter success results)).
  pose proof (len_nonneg (List.filter (fun x => negb (success x)) results)).
  lia.
Qed.

(** * The claims *)

(** C1, as stated, fails for p50: on the two-element sample [10, 20] the code
    returns the mean 15 of the two middle elements, which is not in the
    sample, while nearest rank at [floor(2 × 0.5) = 1] gives 20. *)
Lemma p50_interpolates_on_even_sample :
  p50_latency (stats_of_latencies [10; 20]%Q) = Ok (30 # 2)
  /\ nearest_rank (1 # 2) false [10; 20]%Q = Some 20%Q
  /\ ~ (30 # 2 == 20)%Q
  /\ ~ In (30 # 2) [10; 20]%Q.
Proof.
  split; [reflexivity|]. split; [reflexivity|]. split.
  - intros H. discriminate H.
  - simpl. intros [H|[H|[]]]; discriminate H.
Qed.

(** C1 (amended): on every non-empty latency sample the latencies are sorted
    ascending, p95 and p99 are computed by nearest-rank truncation (index
    [floor(len × p)], clamped to [len − 1] for p99, the element at that index)
    and return an element of the sample; p50 is the
    median: the element of nearest rank [floor(len × 0.5)] when the sample has
    odd size, the mean of the two middle elements of the sorted sample when it
    has even size. *)
Theorem percentiles_of_nonempty_sample (s : TestStats) :
  latencies s <> [] ->
  (StronglySorted Qle (sorted (latencies s))
   /\ Permutation (sorted (latencies s)) (latencies s))
  /\ (exists v, p95_latency s = Ok v
             /\ nearest_rank (95 # 100) false (latencies s) = Some v
             /\ In v (latencies s))
  /\ (exists v, p99_latency s = Ok v
                /\ nearest_rank (99 # 100) true (latencies s) = Some v
                /\ In v (latencies s))
  /\ (len (latencies s) mod 2 = 1 ->
      exists v, p50_latency s = Ok v
                /\ nearest_rank (1 # 2) false (latencies s) = Some v
                /\ In v (latencies s))
  /\ (len (latencies s) mod 2 = 0 ->
      exists a b,
        nth_error (sorted (latencies s))
                  (Z.to_nat (len (latencies s) / 2 - 1)) = Some a
        /\ nth_error (sorted (latencies s))
                     (Z.to_nat (len (latencies s) / 2)) = Some b
        /\ p50_latency s = Ok ((a + b) / 2)%Q).
Proof.
  intros Hne. repeat split.
  - apply sorted_ascending.
  - apply sorted_perm.
  - apply p95_latency_nearest_rank, Hne.
  - apply p99_latency_nearest_rank, Hne.
  - intros Hodd. apply p50_latency_odd; assumption.
  - intros Heven. apply p50_latency_even; assumption.
Qed.

Lemma percentiles_of_nonempty_sample_witness :
  let s := stats_of_latencies [10; 20; 30; 40; 50]%Q in
  latencies s <> []
  /\ (exists v, p95_latency s = Ok v
                /\ nearest_rank (95 # 100) false (latencies s) = Some v
                /\ In v (latencies s)).
Proof.
  intros s. assert (latencies s <> []) as Hne by discriminate.
  split; [exact Hne|].
  exact (proj1 (proj2 (percentiles_of_nonempty_sample s Hne))).
Defined.

(** The two samples of the specification. *)
Example percentiles_of_five :
  let s := stats_of_latencies [10; 20; 30; 40; 50]%Q in
  p50_latency s = Ok 30%Q /\ p95_latency s = Ok 50%Q /\ p99_latency s = Ok 50%Q.
Proof. repeat split; reflexivity. Qed.

Example percentiles_of_five_unsorted :
  let s := stats_of_latencies [40; 10; 50; 30; 20]%Q in
  p50_latency s = Ok 30%Q /\ p95_latency s = Ok 50%Q /\ p99_latency s = Ok 50%Q.
Proof. repeat split; reflexivity. Qed.

Example percentiles_of_one :
  let s := stats_of_latencies [42]%Q in
  p50_latency s = Ok 42%Q /\ p95_latency s = Ok 42%Q /\ p99_latency s = Ok 42%Q.
Proof. repeat split; reflexivity. Qed.

(** A sample of one element returns it for every percentile. *)
Lemma percentiles_of_singleton (x : Q) :
  let s := stats_of_latencies [x] in
  p50_latency s = Ok x /\ p95_latency s = Ok x /\ p99_latency s = Ok x.
Proof. repeat split; reflexivity. Qed.

(** C9: when the latency sample is empty, the average and the three
    percentiles return 0 and raise nothing. *)
Theorem latency_metrics_of_empty_sample (s : TestStats) :
  latencies s = [] ->
  avg_latency s = Ok 0%Q /\ p50_latency s = Ok 0%Q
  /\ p95_latency s = Ok 0%Q /\ p99_latency s = Ok 0%Q.
Proof.
  intros H.
  unfold avg_latency, p50_latency, p95_latency, p99_latency.
  rewrite H. repeat split; reflexivity.
Qed.

Lemma latency_metrics_of_empty_sample_witness :
  let s := aggregate 0 1 [] in
  latencies s = []
  /\ avg_latency s = Ok 0%Q /\ p50_latency s = Ok 0%Q
  /\ p95_latency s = Ok 0%Q /\ p99_latency s = Ok 0%Q.
Proof.
  intros s. split; [reflexivity|].
  apply (latency_metrics_of_empty_sample s). reflexivity.
Defined.

(** Without their guard the library functions raise on the empty sample. *)
Lemma statistics_raise_on_empty :
  (exists e, statistics_mean [] = Raise e)
  /\ (exists e, statistics_median [] = Raise e).
Proof. split; eexists; reflexivity. Qed.

(** ** Rates *)

Lemma py_truediv_nonzero (a b : Q) :
  ~ (b == 0)%Q -> py_truediv a b = Ok (a / b)%Q.
Proof.
  intros Hb. unfold py_truediv.
  destruct (Qeq_bool b 0) eqn:E; [|reflexivity].
  apply Qeq_bool_iff in E. contradiction.
Qed.

Lemma py_float_nonzero (n : Z) : n <> 0 -> ~ (py_float n == 0)%Q.
Proof.
  unfold py_float, Qeq, inject_Z. simpl. lia.
Qed.

Lemma ratio_bounds (a b : Z) :
  0 <= a <= b -> 0 < b ->
  (0 <= inject_Z a / inject_Z b * 100 <= 100)%Q.
Proof.
  intros [Ha Hab] Hb.
  assert (0 < inject_Z b)%Q as Hb' by (unfold Qlt, inject_Z; simpl; lia).
  assert (0 <= inject_Z a)%Q as Ha' by (unfold Qle, inject_Z; simpl; lia).
  assert (inject_Z a <= inject_Z b)%Q as Hab'
    by (unfold Qle, inject_Z; simpl; lia).
  assert (0 <= inject_Z a / inject_Z b)%Q as H0.
  { apply Qle_shift_div_l; [exact Hb'|]. rewrite Qmult_0_l. exact Ha'. }
  assert (inject_Z a / inject_Z b <= 1)%Q as H1.
  { apply Qle_shift_div_r; [exact Hb'|]. rewrite Qmult_1_l. exact Hab'. }
  split.
  - apply Qmult_le_0_compat; [exact H0 | discriminate].
  - apply Qle_trans with (1 * 100)%Q; [|discriminate].
    apply Qmult_le_compat_r; [exact H1 | discriminate].
Qed.

(** C4: [success_rate] is [successful / total × 100], is 0 when there is no
    request, raises nothing, and lies in [[0, 100]] when
    [0 <= successful <= total]. *)
Theorem success_rate_value_and_bounds (s : TestStats) :
  0 <= successful_requests s <= total_requests s ->
  (total_requests s = 0 -> success_rate s = Ok 0%Q)
  /\ (total_requests s <> 0 ->
      success_rate s
      = Ok (inject_Z (successful_requests s) / inject_Z (total_requests s)
            * 100)%Q)
  /\ exists v, success_rate s = Ok v /\ (0 <= v <= 100)%Q.
Proof.
  intros Hc. unfold success_rate.
  destruct (total_requests s =? 0) eqn:E.
  - apply Z.eqb_eq in E. split; [reflexivity|]. split; [congruence|].
    exists 0%Q. split; [reflexivity|]. split; discriminate.
  - apply Z.eqb_neq in E. split; [congruence|].
    rewrite (py_truediv_nonzero _ _ (py_float_nonzero _ E)). simpl.
    split; [reflexivity|].
    eexists. split; [reflexivity|]. apply ratio_bounds; lia.
Qed.

Lemma success_rate_value_and_bounds_witness :
  let s := aggregate 0 1
             [mkTestResult true 12 200 "" 0; mkTestResult false 7 404 "" 0;
              mkTestResult true 9 200 "" 0; mkTestResult false 30000 0 "timeout" 0] in
  0 <= successful_requests s <= total_requests s
  /\ success_rate s = Ok (inject_Z 2 / inject_Z 4 * 100)%Q
  /\ exists v, success_rate s = Ok v /\ (0 <= v <= 100)%Q.
Proof.
  intros s.
  assert (0 <= successful_requests s <= total_requests s) as Hc
    by (vm_compute; split; discriminate).
  split; [exact Hc|].
  destruct (success_rate_value_and_bounds s Hc) as (_ & Hv & Hb).
  split; [apply Hv; discriminate | exact Hb].
Defined.

Lemma duration_zero_iff (s : TestStats) :
  Qeq_bool (end_time s - start_time s) 0 = true
  <-> (end_time s == start_time s)%Q.
Proof.
  rewrite Qeq_bool_iff. split; intros H.
  - apply Qplus_inj_r with (z := (- start_time s)%Q).
    rewrite Qplus_opp_r. exact H.
  - rewrite H. apply Qplus_opp_r.
Qed.

(** C5: [requests_per_second] is [total / (end_time − start_time)], is 0 when
    [end_time] equals [start_time], and raises nothing. *)
Theorem requests_per_second_value (s : TestStats) :
  ((end_time s == start_time s)%Q -> requests_per_second s = Ok 0%Q)
  /\ (~ (end_time s == start_time s)%Q ->
      requests_per_second s
      = Ok (inject_Z (total_requests s) / (end_time s - start_time s))%Q).
Proof.
  unfold requests_per_second. cbv zeta.
  destruct (Qeq_bool (end_time s - start_time s) 0) eqn:E.
  - apply duration_zero_iff in E. split; [reflexivity | contradiction].
  - assert (~ (end_time s == start_time s)%Q) as Hne.
    { intros H. apply duration_zero_iff in H. congruence. }
    split; [contradiction|]. intros _.
    apply py_truediv_nonzero. intros H. apply Qeq_bool_iff in H. congruence.
Qed.

Lemma requests_per_second_value_witness :
  requests_per_second (aggregate 5 5 [mkTestResult true 12 200 "" 0]) = Ok 0%Q
  /\ requests_per_second (aggregate 5 7 [mkTestResult true 12 200 "" 0])
     = Ok (inject_Z 1 / (7 - 5))%Q.
Proof.
  split.
  - apply (proj1 (requests_per_second_value
                    (aggregate 5 5 [mkTestResult true 12 200 "" 0]))).
    reflexivity.
  - apply (proj2 (requests_per_second_value
                    (aggregate 5 7 [mkTestResult true 12 200 "" 0]))).
    discriminate.
Defined.

(** ** Error counts and counters *)

(** The key of a failed outcome: its error kind when there is one, the HTTP
    status otherwise. *)
Lemma error_key_cases (r : TestResult) :
  (error r <> "" -> error_key r = error r)
  /\ (error r = "" ->
      error_key r = String.append "HTTP " (py_str_int (status_code r))).
Proof.
  unfold error_key. destruct (String.eqb (error r) "") eqn:E.
  - apply String.eqb_eq in E. split; [contradiction | reflexivity].
  - apply String.eqb_neq in E. split; [reflexivity | contradiction].
Qed.

(** The outcomes the loop counts under a key are those the specification
    names. *)
Lemma failures_keyed_counted (k : string) (results : list TestResult) :
  failures_keyed k results = counted_under k results.
Proof.
  unfold failures_keyed, failures, counted_under, error_key.
  induction results as [|r results IH]; simpl; [reflexivity|].
  destruct (success r); simpl; [exact IH|].
  destruct (String.eqb (error r) ""); simpl;
    rewrite IH; reflexivity.
Qed.

Lemma aggregate_errors_entry (t0 t1 : Q) (results : list TestResult)
    (k : string) :
  default 0 (errors (aggregate t0 t1 results) !! k)
  = len (failures_keyed k results).
Proof.
  rewrite aggregate_errors_lookup.
  destruct (len (failures_keyed k results) =? 0) eqn:E; [|reflexivity].
  apply Z.eqb_eq in E. rewrite E. reflexivity.
Qed.

(** What a failed outcome does to [errors]: one is added under its key. *)
Lemma aggregate_step_failure (st : TestStats) (r : TestResult) :
  success r = false ->
  (error r <> "" ->
   errors (aggregate_step st r)
   = <[error r := default 0 (errors st !! error r) + 1]> (errors st))
  /\ (error r = "" ->
      errors (aggregate_step st r)
      = <[String.append "HTTP " (py_str_int (status_code r))
          := default 0 (errors st
                        !! String.append "HTTP " (py_str_int (status_code r)))
             + 1]> (errors st)).
Proof.
  intros Hs. rewrite aggregate_step_errors, Hs. unfold dict_get.
  destruct (error_key_cases r) as [H1 H2].
  split; intros H; [rewrite (H1 H) | rewrite (H2 H)]; reflexivity.
Qed.

(** C7: after the aggregation of any sequence of outcomes the counts of
    [errors] sum to [failed_requests], which is the number of failed
    outcomes.  The count under a key is the number of failed outcomes whose
    error kind is that key, when they have one, and whose
    ["HTTP {status_code}"] is that key, when they have none.  In one turn of
    the loop a successful outcome leaves [errors] as it is, and a failed one
    adds one under one key: its error kind when it is not empty,
    ["HTTP {status_code}"] otherwise. *)
Theorem error_counts_sum_to_failed (t0 t1 : Q) (results : list TestResult) :
  dict_values_sum (errors (aggregate t0 t1 results))
  = failed_requests (aggregate t0 t1 results)
  /\ failed_requests (aggregate t0 t1 results) = len (failures results)
  /\ (forall k, default 0 (errors (aggregate t0 t1 results) !! k)
                = len (counted_under k results))
  /\ (forall st r, success r = true ->
        errors (aggregate_step st r) = errors st)
  /\ (forall st r, success r = false -> error r <> "" ->
        errors (aggregate_step st r)
        = <[error r := default 0 (errors st !! error r) + 1]> (errors st))
  /\ (forall st r, success r = false -> error r = "" ->
        errors (aggregate_step st r)
        = <[String.append "HTTP " (py_str_int (status_code r))
            := default 0 (errors st
                          !! String.append "HTTP "
                                           (py_str_int (status_code r)))
               + 1]> (errors st)).
Proof.
  split; [|split; [|split; [|split; [|split]]]].
  - unfold aggregate. rewrite loop_errors_sum, loop_failed. simpl.
    rewrite dict_values_sum_empty. reflexivity.
  - unfold aggregate. rewrite loop_failed. reflexivity.
  - intros k. rewrite aggregate_errors_entry. f_equal.
    apply failures_keyed_counted.
  - intros st r Hs. rewrite aggregate_step_errors, Hs. reflexivity.
  - intros st r Hs He. apply (proj1 (aggregate_step_failure st r Hs) He).
  - intros st r Hs He. apply (proj2 (aggregate_step_failure st r Hs) He).
Qed.

Example error_counts_of_mixed_run :
  let st := aggregate 0 1
              [mkTestResult true 12 200 "" 0; mkTestResult false 7 404 "" 0;
               mkTestResult false 30000 0 "timeout" 0;
               mkTestResult false 8 404 "" 0] in
  errors st !! "HTTP 404" = Some 2 /\ errors st !! "timeout" = Some 1
  /\ errors st !! "HTTP 200" = None /\ failed_requests st = 3.
Proof. vm_compute. repeat split; reflexivity. Qed.

(** C10: after the aggregation of any sequence of outcomes,
    [total_requests = successful_requests + failed_requests] and
    [total_requests] is the length of [latencies], which holds the latency of
    each outcome in order. *)
Theorem counters_partition_outcomes (t0 t1 : Q) (results : list TestResult) :
  total_requests (aggregate t0 t1 results)
  = successful_requests (aggregate t0 t1 results)
    + failed_requests (aggregate t0 t1 results)
  /\ total_requests (aggregate t0 t1 results)
     = len (latencies (aggregate t0 t1 results))
  /\ total_requests (aggregate t0 t1 results) = len results
  /\ latencies (aggregate t0 t1 results) = map latency_ms results.
Proof.
  unfold aggregate.
  rewrite loop_total, loop_successful, loop_failed, loop_latencies. simpl.
  unfold failures. repeat split.
  - apply len_filter_split.
  - unfold len. rewrite length_map. reflexivity.
Qed.

(** ** Classification of a request *)

(** A request that the semaphore lets in. *)
Lemma make_request_let_in (t : LoadTester) (env : request_env) :
  0 < _semaphore t ->
  _make_request t env
  = match post_and_read env with
    | Ok r => Done (Ok r)
    | Raise e =>
        if is_timeout e then
          Done (Ok (mkTestResult false
                      ((clock_except env - clock_start env) * 1000)%Q 0
                      "timeout" (clock_stamp env)))
        else if is_client_error e then
          Done (Ok (mkTestResult false
                      ((clock_except env - clock_start env) * 1000)%Q 0
                      (exn_type_name e) (clock_stamp env)))
        else if is_exception e then
          Done (Ok (mkTestResult false
                      ((clock_except env - clock_start env) * 1000)%Q 0
                      (exn_str e) (clock_stamp env)))
        else Done (Raise e)
    end.
Proof.
  intros Hsem. unfold _make_request, async_with_semaphore.
  destruct (_semaphore t =? 0) eqn:E; [apply Z.eqb_eq in E; lia|].
  reflexivity.
Qed.

(** A request that finds the semaphore made at 0 stays pending. *)
Lemma make_request_pending (t : LoadTester) (env : request_env) :
  _semaphore t = 0 -> _make_request t env = Pending.
Proof.
  intros Hsem. unfold _make_request, async_with_semaphore. rewrite Hsem.
  reflexivity.
Qed.






(** A 404 alone in a run is counted under ["HTTP 404"]. *)
Example http_404_aggregates :
  let t := mkLoadTester "http://localhost:8080" 5 60 100 TestStats_new 100 in
  let env := mkRequestEnv 100 (Responds 404 None) (100 + (7 # 1000)) 101 101 in
  exists r, _make_request t env = Done (Ok r)
    /\ errors (aggregate 0 1 [r]) = {["HTTP 404" := 1]}
    /\ failed_requests (aggregate 0 1 [r]) = 1.
Proof. eexists. split; [reflexivity|]. split; reflexivity. Qed.

(** ** Failures of a request *)






(** A worker whose first request finds the semaphore made at 0 stays
    pending, and so does the run that waits for it. *)
Lemma worker_pending (t : LoadTester) (now : Q) (turn : iteration)
    (turns : list iteration) (results : list TestResult) :
  _semaphore t = 0 -> ~ (rps t == 0)%Q ->
  (clock_loop turn < now + py_float (duration t))%Q ->
  _worker t now (turn :: turns) results = Pending.
Proof.
  intros Hsem Hr Hlt. unfold _worker. rewrite (py_truediv_nonzero _ _ Hr).
  simpl. destruct (Qlt_le_dec (clock_loop turn) (now + py_float (duration t)))
    as [_|Hge].
  - rewrite (make_request_pending t _ Hsem). reflexivity.
  - exfalso. apply (Qlt_not_le _ _ Hlt Hge).
Qed.



(** A signal that derives from [BaseException] only, such as the
    cancellation of the task, is not a failure of the request: no clause
    catches it. *)
Lemma cancellation_is_not_caught (t : LoadTester) (env : request_env)
    (e : exn) :
  0 < _semaphore t ->
  post_and_read env = Raise e -> exn_cls e = CancelledError ->
  _make_request t env = Done (Raise e).
Proof.
  intros Hsem E Hc. rewrite (make_request_let_in t env Hsem), E.
  unfold is_timeout, is_client_error, is_exception. rewrite Hc. reflexivity.
Qed.

(** A response whose body cannot be read is classified by the exception. *)
Lemma unread_body_is_a_failure (env : request_env) (status : Z) (e : exn) :
  behaviour env = Responds status (Some e) -> post_and_read env = Raise e.
Proof. intros Hb. unfold post_and_read. rewrite Hb. reflexivity. Qed.


(** The order of the clauses: aiohttp's timeout is a transport error too, and
    is reported as a timeout. *)
Example server_timeout_is_a_timeout :
  let e := mkExn ServerTimeoutError "ServerTimeoutError" "Connection timeout" in
  let t := mkLoadTester "http://localhost:8080" 5 60 100 TestStats_new 100 in
  exists r, _make_request t (mkRequestEnv 0 (PostRaises e) 30 30 30)
            = Done (Ok r)
    /\ is_client_error e = true /\ error r = "timeout".
Proof. eexists. repeat split; reflexivity. Qed.

Example refused_connection_is_named :
  let e := mkExn ClientError "ClientConnectorError" "Cannot connect to host" in
  let t := mkLoadTester "http://localhost:8080" 5 60 100 TestStats_new 100 in
  exists r, _make_request t (mkRequestEnv 0 (PostRaises e) 1 1 1)
            = Done (Ok r)
    /\ success r = false /\ error r = "ClientConnectorError"
    /\ error_key r = "ClientConnectorError".
Proof. eexists. repeat split; reflexivity. Qed.

(** ** The worker pool *)

Lemma py_sum_constant (w : Q) (k : nat) (acc : Q) :
  (fold_left Qplus (map (fun _ : nat => w) (seq 0 k)) acc
   == acc + inject_Z (Z.of_nat k) * w)%Q.
Proof.
  generalize 0%nat as start. revert acc.
  induction k as [|k IH]; intros acc start.
  - simpl. unfold inject_Z. ring.
  - change (seq start (S k)) with (start :: seq (S start) k).
    simpl map. simpl fold_left. rewrite IH.
    rewrite Nat2Z.inj_succ. unfold Z.succ. rewrite inject_Z_plus. ring.
Qed.

Lemma tenth_floor (r : Q) : (0 < r)%Q -> 0 <= Qfloor (r / 10).
Proof.
  intros Hr. change 0 with (Qfloor 0). apply Qfloor_resp_le.
  apply Qle_shift_div_l; [reflexivity|]. rewrite Qmult_0_l.
  apply Qlt_le_weak, Hr.
Qed.

Lemma tenth_nonneg (r : Q) : (0 < r)%Q -> (0 <= r / 10)%Q.
Proof.
  intros Hr. apply Qle_shift_div_l; [reflexivity|]. rewrite Qmult_0_l.
  apply Qlt_le_weak, Hr.
Qed.

(** The head of [run] on a positive rate. *)
Lemma plan_workers_positive (t : LoadTester) :
  (0 < rps t)%Q ->
  let n := Z.min (Qfloor (rps t / 10) + 1) 50 in
  1 <= n <= 50
  /\ plan_workers t
     = Ok (n, mkLoadTester (target_url t) (rps t / inject_Z n) (duration t)
                           (concurrent_limit t) (stats t) (_semaphore t)).
Proof.
  intros Hr n. pose proof (tenth_floor _ Hr) as Hf.
  assert (1 <= n <= 50) as Hn by (unfold n; lia).
  split; [exact Hn|].
  unfold plan_workers. rewrite py_truediv_nonzero by discriminate. simpl.
  rewrite (py_int_floor _ (tenth_nonneg _ Hr)). fold n.
  rewrite (py_truediv_nonzero _ (py_float n)) by (apply py_float_nonzero; lia).
  reflexivity.
Qed.

(** C3: for a rate [R > 0] the pool has [min(floor(R/10) + 1, 50)] workers,
    each works at [R / worker_count], and these rates sum to [R]. *)
Theorem worker_rates_sum_to_target (t : LoadTester) :
  (0 < rps t)%Q ->
  exists (n : Z) (t' : LoadTester) (rates : list Q),
    plan_workers t = Ok (n, t')
    /\ n = Z.min (Qfloor (rps t / 10) + 1) 50
    /\ rps t' = (rps t / inject_Z n)%Q
    /\ worker_rates t = Ok rates
    /\ len rates = n
    /\ Forall (fun w => w = (rps t / inject_Z n)%Q) rates
    /\ (py_sum rates == rps t)%Q.
Proof.
  intros Hr. destruct (plan_workers_positive t Hr) as [Hn Hp].
  set (n := Z.min (Qfloor (rps t / 10) + 1) 50) in *.
  eexists n, _, _. split; [exact Hp|]. split; [reflexivity|].
  split; [reflexivity|].
  unfold worker_rates. rewrite Hp. simpl.
  split; [reflexivity|]. split; [|split].
  - unfold len, range. rewrite length_map, length_seq. lia.
  - apply List.Forall_forall. intros w Hw. apply in_map_iff in Hw.
    destruct Hw as (_ & <- & _). reflexivity.
  - unfold py_sum, range. rewrite py_sum_constant.
    rewrite Z2Nat.id by lia. rewrite Qplus_0_l.
    rewrite Qmult_div_r; [reflexivity|].
    unfold Qeq, inject_Z. simpl. lia.
Qed.

Lemma worker_rates_sum_to_target_witness :
  let t := mkLoadTester "http://localhost:8080" 25 60 100 TestStats_new 100 in
  (0 < rps t)%Q
  /\ exists (n : Z) (t' : LoadTester) (rates : list Q),
       plan_workers t = Ok (n, t')
       /\ n = 3
       /\ worker_rates t = Ok rates
       /\ len rates = n
       /\ (py_sum rates == 25)%Q.
Proof.
  intros t. assert (0 < rps t)%Q as Hr by reflexivity.
  split; [exact Hr|].
  destruct (worker_rates_sum_to_target t Hr)
    as (n & t' & rates & Hp & Hn & _ & Hw & Hl & _ & Hs).
  exists n, t', rates. repeat split; assumption.
Defined.

(** The pool sizes of a few rates: one worker below 10, the cap from 490. *)
Example worker_counts :
  map (fun r => match plan_workers
                        (mkLoadTester "" r 60 100 TestStats_new 100) with
                | Ok (n, _) => Some n
                | Raise _ => None
                end)
      [1 # 2; 10; 20; 25; 489; 490; 10000]%Q
  = [Some 1; Some 2; Some 3; Some 3; Some 49; Some 50; Some 50].
Proof. reflexivity. Qed.

(** ** Checks on the configuration *)







(** * Doubles against rationals

    The rounding of binary64 does not change the indices of the percentiles,
    the number of workers, or the bounds of the success rate on the ranges
    below; the sum of the rates of the workers is then close to the target,
    not always equal to it. *)

Lemma forallb_seq (f : nat -> bool) (start count n : nat) :
  forallb f (seq start count) = true ->
  (start <= n < start + count)%nat -> f n = true.
Proof.
  intros H Hn. rewrite forallb_forall in H. apply H, in_seq. exact Hn.
Qed.

Example binary64_literal_095 :
  Binary64.literal 95 100 = S754_finite false 8556839292003942 (-53).
Proof. reflexivity. Qed.

(** Rounding is visible on other literals: [int(100 * 0.57)] is 56. *)
Example binary64_rounding_is_modelled :
  Binary64.index 100 (57 # 100) = 56 /\ py_int (py_float 100 * (57 # 100)) = 57.
Proof. split; reflexivity. Qed.

Lemma binary64_indices_agree (n : nat) :
  (1 <= n <= 2000)%nat ->
  Binary64.index (Z.of_nat n) (95 # 100)
  = py_int (py_float (Z.of_nat n) * (95 # 100))
  /\ Binary64.index (Z.of_nat n) (99 # 100)
     = py_int (py_float (Z.of_nat n) * (99 # 100)).
Proof.
  intros Hn.
  assert (forallb (fun k =>
            (Binary64.index (Z.of_nat k) (95 # 100)
             =? py_int (py_float (Z.of_nat k) * (95 # 100)))
            && (Binary64.index (Z.of_nat k) (99 # 100)
                =? py_int (py_float (Z.of_nat k) * (99 # 100))))
          (seq 1 2000) = true) as H by (vm_compute; reflexivity).
  apply (forallb_seq _ 1 2000 n) in H; [|lia].
  apply andb_prop in H. destruct H as [H1 H2].
  split; apply Z.eqb_eq; assumption.
Qed.

Lemma binary64_workers_agree (r : nat) :
  (1 <= r <= 600)%nat ->
  Binary64.num_workers (Z.of_nat r)
  = Z.min (Qfloor (inject_Z (Z.of_nat r) / 10) + 1) 50
  /\ Binary64.close (Binary64.rate_sum (Z.of_nat r))
                    (Binary64.of_int (Z.of_nat r)) = true.
Proof.
  intros Hr.
  assert (forallb (fun k =>
            (Binary64.num_workers (Z.of_nat k)
             =? Z.min (Qfloor (inject_Z (Z.of_nat k) / 10) + 1) 50)
            && Binary64.close (Binary64.rate_sum (Z.of_nat k))
                              (Binary64.of_int (Z.of_nat k)))
          (seq 1 600) = true) as H by (vm_compute; reflexivity).
  apply (forallb_seq _ 1 600 r) in H; [|lia].
  apply andb_prop in H. destruct H as [H1 H2].
  split; [apply Z.eqb_eq|]; assumption.
Qed.

(** On doubles the rates of the six workers of a target of 50 do not sum to
    50 exactly. *)
Example binary64_rate_sum_inexact :
  SFeqb (Binary64.rate_sum 50) (Binary64.of_int 50) = false
  /\ Binary64.close (Binary64.rate_sum 50) (Binary64.of_int 50) = true.
Proof. split; vm_compute; reflexivity. Qed.

(** The sum of two latencies of [2^1023] is not a finite double: the median
    of such a sample is infinite, above every latency. *)
Example binary64_sum_overflows :
  Binary64.add (Binary64.of_int (2 ^ 1023)) (Binary64.of_int (2 ^ 1023))
  = S754_infinity false.
Proof. vm_compute. reflexivity. Qed.

Lemma binary64_success_rate_in_range (s t : nat) :
  (s <= t)%nat -> (1 <= t <= 60)%nat ->
  SFleb (Binary64.of_int 0) (Binary64.success_rate (Z.of_nat s) (Z.of_nat t))
  = true
  /\ SFleb (Binary64.success_rate (Z.of_nat s) (Z.of_nat t))
           (Binary64.of_int 100) = true.
Proof.
  intros Hs Ht.
  assert (forallb (fun b => forallb (fun a =>
            SFleb (Binary64.of_int 0)
                  (Binary64.success_rate (Z.of_nat a) (Z.of_nat b))
            && SFleb (Binary64.success_rate (Z.of_nat a) (Z.of_nat b))
                     (Binary64.of_int 100))
            (seq 0 (S b))) (seq 1 60) = true) as H
    by (vm_compute; reflexivity).
  apply (forallb_seq _ 1 60 t) in H; [|lia].
  apply (forallb_seq _ 0 (S t) s) in H; [|lia].
  apply andb_prop in H. exact H.
Qed.

(** * Further properties of the statistics *)

Lemma sorted_nth_mono (l : list Q) :
  StronglySorted Qle l ->
  forall (i j : nat) (a b : Q),
    (i <= j)%nat -> nth_error l i = Some a -> nth_error l j = Some b ->
    (a <= b)%Q.
Proof.
  induction 1 as [|x l Hl IH Hx]; intros i j a b Hij Ha Hb.
  - destruct i; discriminate Ha.
  - destruct i as [|i], j as [|j]; simpl in Ha, Hb.
    + injection Ha as <-. injection Hb as <-. apply Qle_refl.
    + injection Ha as <-. rewrite List.Forall_forall in Hx.
      apply Hx. eapply nth_error_In, Hb.
    + lia.
    + apply (IH i j); [lia | assumption | assumption].
Qed.

Lemma fold_min_spec (l : list Q) (x : Q) :
  let m := fold_left (fun m y => if Qlt_le_dec y m then y else m) l x in
  (m <= x)%Q /\ Forall (fun y => (m <= y)%Q) l /\ In m (x :: l).
Proof.
  revert x. induction l as [|y l IH]; intros x; simpl.
  - split; [apply Qle_refl|]. split; [constructor | left; reflexivity].
  - destruct (Qlt_le_dec y x) as [Hlt|Hle].
    + destruct (IH y) as (H1 & H2 & H3). split; [|split].
      * eapply Qle_trans; [exact H1 | apply Qlt_le_weak, Hlt].
      * constructor; assumption.
      * right. exact H3.
    + destruct (IH x) as (H1 & H2 & H3). split; [exact H1|]. split.
      * constructor; [eapply Qle_trans; eassumption | exact H2].
      * destruct H3 as [H3|H3]; [left; exact H3 | right; right; exact H3].
Qed.

Lemma fold_max_spec (l : list Q) (x : Q) :
  let m := fold_left (fun m y => if Qlt_le_dec m y then y else m) l x in
  (x <= m)%Q /\ Forall (fun y => (y <= m)%Q) l /\ In m (x :: l).
Proof.
  revert x. induction l as [|y l IH]; intros x; simpl.
  - split; [apply Qle_refl|]. split; [constructor | left; reflexivity].
  - destruct (Qlt_le_dec x y) as [Hlt|Hle].
    + destruct (IH y) as (H1 & H2 & H3). split; [|split].
      * eapply Qle_trans; [apply Qlt_le_weak, Hlt | exact H1].
      * constructor; assumption.
      * right. exact H3.
    + destruct (IH x) as (H1 & H2 & H3). split; [exact H1|]. split.
      * constructor; [eapply Qle_trans; eassumption | exact H2].
      * destruct H3 as [H3|H3]; [left; exact H3 | right; right; exact H3].
Qed.

Lemma py_min_spec (l : list Q) :
  l <> [] ->
  exists m, py_min l = Ok m /\ In m l /\ forall y, In y l -> (m <= y)%Q.
Proof.
  destruct l as [|x l]; [congruence|]. intros _.
  destruct (fold_min_spec l x) as (H1 & H2 & H3).
  eexists. split; [reflexivity|]. split; [exact H3|].
  intros y [<-|Hy]; [exact H1|].
  rewrite List.Forall_forall in H2. apply H2, Hy.
Qed.

Lemma py_max_spec (l : list Q) :
  l <> [] ->
  exists m, py_max l = Ok m /\ In m l /\ forall y, In y l -> (y <= m)%Q.
Proof.
  destruct l as [|x l]; [congruence|]. intros _.
  destruct (fold_max_spec l x) as (H1 & H2 & H3).
  eexists. split; [reflexivity|]. split; [exact H3|].
  intros y [<-|Hy]; [exact H1|].
  rewrite List.Forall_forall in H2. apply H2, Hy.
Qed.

Lemma half_le_p95_index (n : Z) : 0 < n -> n / 2 <= n * 95 / 100.
Proof.
  intros Hn.
  pose proof (Z_div_mod_eq_full n 2). pose proof (Z.mod_pos_bound n 2).
  apply Z.div_le_lower_bound; lia.
Qed.

Lemma p95_le_p99_index (n : Z) :
  0 < n -> n * 95 / 100 <= Z.min (n * 99 / 100) (n - 1).
Proof.
  intros Hn.
  assert (n * 95 / 100 <= n * 99 / 100) by (apply Z.div_le_mono; lia).
  destruct (p95_index_in_range n Hn). lia.
Qed.

Lemma mean_of_two_between (a b : Q) :
  (a <= b)%Q -> (a <= (a + b) / 2 <= b)%Q.
Proof.
  intros H. split.
  - apply Qle_shift_div_l; [reflexivity|].
    assert (a * 2 == a + a)%Q as -> by ring.
    apply Qplus_le_r. exact H.
  - apply Qle_shift_div_r; [reflexivity|].
    assert (b * 2 == b + b)%Q as -> by ring.
    apply Qplus_le_l. exact H.
Qed.

Lemma p95_latency_index (s : TestStats) :
  latencies s <> [] ->
  exists v, p95_latency s = Ok v
    /\ nth_error (sorted (latencies s))
                 (Z.to_nat (len (latencies s) * 95 / 100)) = Some v.
Proof.
  intros Hne. pose proof (len_pos _ Hne) as Hpos.
  unfold p95_latency. rewrite (py_not_false _ Hne). cbv zeta.
  rewrite py_int_scaled by (unfold len; lia). rewrite sorted_len.
  apply py_getitem_in_range. rewrite sorted_len.
  apply p95_index_in_range, Hpos.
Qed.

Lemma p99_latency_index (s : TestStats) :
  latencies s <> [] ->
  exists v, p99_latency s = Ok v
    /\ nth_error (sorted (latencies s))
                 (Z.to_nat (Z.min (len (latencies s) * 99 / 100)
                                  (len (latencies s) - 1))) = Some v.
Proof.
  intros Hne. pose proof (len_pos _ Hne) as Hpos.
  unfold p99_latency. rewrite (py_not_false _ Hne). cbv zeta.
  rewrite py_int_scaled by (unfold len; lia). rewrite sorted_len.
  apply py_getitem_in_range. rewrite sorted_len.
  apply p99_index_in_range, Hpos.
Qed.

Lemma p50_latency_odd_index (s : TestStats) :
  latencies s <> [] -> len (latencies s) mod 2 = 1 ->
  exists v, p50_latency s = Ok v
    /\ nth_error (sorted (latencies s))
                 (Z.to_nat (len (latencies s) / 2)) = Some v.
Proof.
  intros Hne Hodd. pose proof (len_pos _ Hne) as Hpos.
  unfold p50_latency, statistics_median.
  rewrite (py_not_false _ Hne). cbv zeta. rewrite sorted_len.
  destruct (_ =? 0) eqn:E0; [apply Z.eqb_eq in E0; lia|].
  rewrite Hodd. simpl (1 =? 1). cbv iota.
  apply py_getitem_in_range. rewrite sorted_len.
  split; [apply Z.div_pos; lia | apply Z.div_lt_upper_bound; lia].
Qed.

Lemma mod2_cases (n : Z) : n mod 2 = 0 \/ n mod 2 = 1.
Proof. pose proof (Z.mod_pos_bound n 2). lia. Qed.

Lemma nonempty_sample_metrics (s : TestStats) :
  latencies s <> [] ->
  exists lo p50 p95 p99 hi,
    summary_min s = Ok lo /\ p50_latency s = Ok p50
    /\ p95_latency s = Ok p95 /\ p99_latency s = Ok p99
    /\ summary_max s = Ok hi.
Proof.
  intros Hne.
  destruct (py_min_spec _ Hne) as (lo & Hlo & _).
  destruct (py_max_spec _ Hne) as (hi & Hhi & _).
  destruct (p95_latency_index s Hne) as (p95 & H95 & _).
  destruct (p99_latency_index s Hne) as (p99 & H99 & _).
  unfold summary_min, summary_max. rewrite (py_not_false _ Hne).
  destruct (mod2_cases (len (latencies s))) as [Heven|Hodd].
  - destruct (p50_latency_even s Hne Heven) as (a & b & _ & _ & H50).
    exists lo, ((a + b) / 2)%Q, p95, p99, hi. repeat split; assumption.
  - destruct (p50_latency_odd_index s Hne Hodd) as (p50 & H50 & _).
    exists lo, p50, p95, p99, hi. repeat split; assumption.
Qed.

(** X1: the least latency, the three percentiles and the greatest latency of a
    non-empty sample are in ascending order, when the latencies are below
    [2^1023] in absolute value: the two middle values then add without
    overflow, and the median is in that range as well. *)
Theorem percentiles_are_ordered (s : TestStats) :
  latencies s <> [] ->
  Forall adds_without_overflow (latencies s) ->
  exists lo p50 p95 p99 hi,
    summary_min s = Ok lo /\ p50_latency s = Ok p50
    /\ p95_latency s = Ok p95 /\ p99_latency s = Ok p99
    /\ summary_max s = Ok hi
    /\ (lo <= p50)%Q /\ (p50 <= p95)%Q /\ (p95 <= p99)%Q /\ (p99 <= hi)%Q
    /\ adds_without_overflow p50.
Proof.
  intros Hne Hrange. pose proof (len_pos _ Hne) as Hpos.
  pose proof (sorted_ascending (latencies s)) as Hs.
  destruct (py_min_spec _ Hne) as (lo & Hlo & Hlo_in & Hlo').
  destruct (py_max_spec _ Hne) as (hi & Hhi & Hhi_in & Hhi').
  assert (forall v, (lo <= v)%Q -> (v <= hi)%Q -> adds_without_overflow v)
    as Hfinite.
  { rewrite List.Forall_forall in Hrange.
    destruct (Hrange lo Hlo_in) as [Hlo_range _].
    destruct (Hrange hi Hhi_in) as [_ Hhi_range].
    intros v H1 H2. split.
    - eapply Qlt_le_trans; eassumption.
    - eapply Qle_lt_trans; eassumption. }
  destruct (p95_latency_index s Hne) as (p95 & H95 & N95).
  destruct (p99_latency_index s Hne) as (p99 & H99 & N99).
  pose proof (half_le_p95_index _ Hpos) as Hhalf.
  pose proof (p95_le_p99_index _ Hpos) as H9599.
  destruct (p95_index_in_range _ Hpos) as [H950 _].
  assert (0 <= len (latencies s) / 2) as Hh0 by (apply Z.div_pos; lia).
  assert (p95 <= p99)%Q as Hle2.
  { eapply (sorted_nth_mono _ Hs); [|exact N95|exact N99]. lia. }
  assert (p99 <= hi)%Q as Hle3.
  { apply Hhi', sorted_In. eapply nth_error_In, N99. }
  unfold summary_min, summary_max. rewrite (py_not_false _ Hne).
  destruct (mod2_cases (len (latencies s))) as [Heven|Hodd].
  - destruct (p50_latency_even s Hne Heven) as (a & b & Na & Nb & H50).
    pose proof (Z_div_mod_eq_full (len (latencies s)) 2) as Hd.
    assert (a <= b)%Q as Hab.
    { eapply (sorted_nth_mono _ Hs); [|exact Na|exact Nb]. lia. }
    destruct (mean_of_two_between a b Hab) as [Hm1 Hm2].
    assert (lo <= (a + b) / 2)%Q as Hle0.
    { eapply Qle_trans; [|exact Hm1].
      apply Hlo', sorted_In. eapply nth_error_In, Na. }
    assert ((a + b) / 2 <= p95)%Q as Hle1.
    { eapply Qle_trans; [exact Hm2|].
      eapply (sorted_nth_mono _ Hs); [|exact Nb|exact N95]. lia. }
    exists lo, ((a + b) / 2)%Q, p95, p99, hi.
    repeat (split; [assumption|]).
    apply Hfinite; [exact Hle0|].
    eapply Qle_trans; [exact Hle1|]. eapply Qle_trans; eassumption.
  - destruct (p50_latency_odd_index s Hne Hodd) as (p50 & H50 & N50).
    assert (lo <= p50)%Q as Hle0
      by (apply Hlo', sorted_In; eapply nth_error_In, N50).
    assert (p50 <= p95)%Q as Hle1
      by (eapply (sorted_nth_mono _ Hs); [|exact N50|exact N95]; lia).
    exists lo, p50, p95, p99, hi.
    repeat (split; [assumption|]).
    apply Hfinite; [exact Hle0|].
    eapply Qle_trans; [exact Hle1|]. eapply Qle_trans; eassumption.
Qed.

Lemma percentiles_are_ordered_witness :
  let s := stats_of_latencies [40; 10; 50; 30; 20; 60]%Q in
  (latencies s <> [] /\ Forall adds_without_overflow (latencies s))
  /\ exists lo p50 p95 p99 hi,
       summary_min s = Ok lo /\ p50_latency s = Ok p50
       /\ p95_latency s = Ok p95 /\ p99_latency s = Ok p99
       /\ summary_max s = Ok hi
       /\ (lo <= p50)%Q /\ (p50 <= p95)%Q /\ (p95 <= p99)%Q /\ (p99 <= hi)%Q.
Proof.
  intros s. assert (latencies s <> []) as Hne by discriminate.
  assert (Forall adds_without_overflow (latencies s)) as Hrange
    by (repeat constructor).
  split; [split; assumption|].
  destruct (percentiles_are_ordered s Hne Hrange)
    as (lo & p50 & p95 & p99 & hi & H).
  exists lo, p50, p95, p99, hi. repeat (split; [apply H|]). apply H.
Defined.

Lemma py_sum_bounds (lo hi : Q) (l : list Q) :
  (forall y, In y l -> (lo <= y <= hi)%Q) ->
  forall acc,
    (acc + py_float (len l) * lo <= fold_left Qplus l acc)%Q
    /\ (fold_left Qplus l acc <= acc + py_float (len l) * hi)%Q.
Proof.
  unfold py_float, len.
  induction l as [|x l IH]; intros Hb acc.
  - simpl. unfold inject_Z. split; ring_simplify; apply Qle_refl.
  - destruct (Hb x (or_introl eq_refl)) as [Hx1 Hx2].
    destruct (IH (fun y Hy => Hb y (or_intror Hy)) (acc + x)%Q) as [H1 H2].
    simpl fold_left. simpl length.
    rewrite Nat2Z.inj_succ. unfold Z.succ. rewrite inject_Z_plus.
    split.
    + eapply Qle_trans; [|exact H1].
      assert (acc + (inject_Z (Z.of_nat (length l)) + inject_Z 1) * lo
              == acc + lo + inject_Z (Z.of_nat (length l)) * lo)%Q as ->
        by (unfold inject_Z at 2; ring).
      apply Qplus_le_l, Qplus_le_r, Hx1.
    + eapply Qle_trans; [exact H2|].
      assert (acc + (inject_Z (Z.of_nat (length l)) + inject_Z 1) * hi
              == acc + hi + inject_Z (Z.of_nat (length l)) * hi)%Q as ->
        by (unfold inject_Z at 2; ring).
      apply Qplus_le_l, Qplus_le_r, Hx2.
Qed.

(** X2: the average latency of a non-empty sample lies between its least and
    its greatest latency. *)
Theorem average_between_extremes (s : TestStats) :
  latencies s <> [] ->
  exists lo avg hi,
    summary_min s = Ok lo /\ avg_latency s = Ok avg /\ summary_max s = Ok hi
    /\ (lo <= avg <= hi)%Q.
Proof.
  intros Hne. pose proof (len_pos _ Hne) as Hpos.
  destruct (py_min_spec _ Hne) as (lo & Hlo & _ & Hlo').
  destruct (py_max_spec _ Hne) as (hi & Hhi & _ & Hhi').
  unfold summary_min, summary_max, avg_latency, statistics_mean.
  rewrite (py_not_false _ Hne).
  destruct (latencies s) as [|x l] eqn:El; [congruence|]. rewrite <- El in *.
  exists lo, (py_sum (latencies s) / py_float (len (latencies s)))%Q, hi.
  repeat (split; [assumption || reflexivity|]).
  assert (0 < py_float (len (latencies s)))%Q as Hn
    by (unfold py_float, Qlt, inject_Z; simpl; lia).
  destruct (py_sum_bounds lo hi (latencies s)
              (fun y Hy => conj (Hlo' y Hy) (Hhi' y Hy)) 0%Q) as [H1 H2].
  rewrite Qplus_0_l in H1, H2. unfold py_sum. split.
  - apply Qle_shift_div_l; [exact Hn|]. rewrite Qmult_comm. exact H1.
  - apply Qle_shift_div_r; [exact Hn|]. rewrite Qmult_comm. exact H2.
Qed.

Lemma average_between_extremes_witness :
  let s := stats_of_latencies [40; 10; 50]%Q in
  latencies s <> []
  /\ exists lo avg hi,
       summary_min s = Ok lo /\ avg_latency s = Ok avg /\ summary_max s = Ok hi
       /\ (lo <= avg <= hi)%Q.
Proof.
  intros s. assert (latencies s <> []) as Hne by discriminate.
  split; [exact Hne | exact (average_between_extremes s Hne)].
Defined.

(** ** Ranks *)

Lemma len_filter_perm {A : Type} (f : A -> bool) (l l' : list A) :
  Permutation l l' -> len (List.filter f l) = len (List.filter f l').
Proof.
  unfold len. induction 1 as [|x l l' _ IH|x y l|l l' l'' _ IH1 _ IH2]; simpl.
  - reflexivity.
  - destruct (f x); simpl length; lia.
  - destruct (f x), (f y); reflexivity.
  - lia.
Qed.

Lemma len_filter_le {A : Type} (f g : A -> bool) (l : list A) :
  (forall x, f x = true -> g x = true) ->
  len (List.filter f l) <= len (List.filter g l).
Proof.
  intros Hfg. unfold len. induction l as [|x l IH]; simpl; [lia|].
  destruct (f x) eqn:Ef.
  - rewrite (Hfg x Ef). simpl length. lia.
  - destruct (g x); simpl length; lia.
Qed.

Lemma len_filter_bound {A : Type} (f : A -> bool) (l : list A) :
  0 <= len (List.filter f l) <= len l.
Proof.
  unfold len. induction l as [|x l IH]; simpl; [lia|].
  destruct (f x); simpl length; lia.
Qed.

Lemma count_below_none (v : Q) (l : list Q) :
  Forall (Qle v) l -> count_below v l = 0.
Proof.
  unfold count_below, len. induction 1 as [|x l Hx _ IH]; simpl; [reflexivity|].
  destruct (Qlt_le_dec x v) as [Hlt|_]; [|exact IH].
  exfalso. apply (Qlt_not_le _ _ Hlt), Hx.
Qed.

(** In an ascending list the element at index [i] has at most [i] elements
    strictly below it and more than [i] elements at most equal to it. *)
Lemma ascending_rank (l : list Q) :
  StronglySorted Qle l ->
  forall (i : nat) (v : Q),
    nth_error l i = Some v ->
    count_below v l <= Z.of_nat i < count_upto v l.
Proof.
  induction 1 as [|x l Hl IH Hx]; intros i v Hv.
  - destruct i; discriminate Hv.
  - destruct i as [|i]; simpl in Hv.
    + injection Hv as <-.
      assert (count_below x (x :: l) = 0) as ->.
      { apply count_below_none. constructor; [apply Qle_refl | exact Hx]. }
      unfold count_upto. simpl.
      assert (Qle_bool x x = true) as -> by (apply Qle_bool_iff, Qle_refl).
      pose proof (len_filter_bound (fun y => Qle_bool y x) l).
      unfold len in *. simpl length. lia.
    + destruct (IH i v Hv) as [H1 H2].
      assert (x <= v)%Q as Hxv.
      { rewrite List.Forall_forall in Hx. apply Hx. eapply nth_error_In, Hv. }
      unfold count_below, count_upto in *. simpl.
      apply Qle_bool_iff in Hxv. rewrite Hxv.
      destruct (Qlt_le_dec x v); unfold len in *; simpl length; lia.
Qed.

(** Two values of the same rank in a sample are equal. *)
Lemma rank_unique (l : list Q) (i : Z) (v w : Q) :
  count_below v l <= i < count_upto v l ->
  count_below w l <= i < count_upto w l ->
  (v == w)%Q.
Proof.
  assert (forall a b, (a < b)%Q -> count_upto a l <= count_below b l) as Hm.
  { intros a b Hab. apply len_filter_le. intros x Hx.
    apply Qle_bool_iff in Hx.
    destruct (Qlt_le_dec x b) as [_|Hbx]; [reflexivity|].
    exfalso. apply (Qlt_not_le _ _ Hab). eapply Qle_trans; eassumption. }
  intros Hv Hw.
  destruct (Q_dec v w) as [[Hlt|Hgt]|Heq]; [| |exact Heq].
  - specialize (Hm v w Hlt). lia.
  - specialize (Hm w v Hgt). lia.
Qed.

Lemma count_sorted (v : Q) (l : list Q) :
  count_below v (sorted l) = count_below v l
  /\ count_upto v (sorted l) = count_upto v l.
Proof.
  split; apply len_filter_perm, sorted_perm.
Qed.

Lemma count_perm (v : Q) (l l' : list Q) :
  Permutation l l' ->
  count_below v l = count_below v l' /\ count_upto v l = count_upto v l'.
Proof. intros H. split; apply len_filter_perm, H. Qed.

(** The element at an index of the sorted sample has the rank of the index
    in the sample. *)
Lemma sorted_rank (l : list Q) (i : nat) (v : Q) :
  nth_error (sorted l) i = Some v ->
  count_below v l <= Z.of_nat i < count_upto v l.
Proof.
  intros Hv. destruct (count_sorted v l) as [<- <-].
  apply ascending_rank; [apply sorted_ascending | exact Hv].
Qed.

(** Sorting two arrangements of a sample gives the same value at each
    index. *)
Lemma sorted_perm_nth (l l' : list Q) (i : nat) (v : Q) :
  Permutation l l' -> nth_error (sorted l) i = Some v ->
  exists w, nth_error (sorted l') i = Some w /\ (v == w)%Q.
Proof.
  intros Hp Hv.
  destruct (nth_error (sorted l') i) as [w|] eqn:Hw.
  - exists w. split; [reflexivity|].
    apply (rank_unique l (Z.of_nat i)).
    + apply sorted_rank, Hv.
    + destruct (count_perm w l l' Hp) as [-> ->]. apply sorted_rank, Hw.
  - exfalso. apply nth_error_None in Hw.
    assert (i < length (sorted l))%nat as Hi
      by (apply nth_error_Some; congruence).
    pose proof (Permutation_length (sorted_perm l)).
    pose proof (Permutation_length (sorted_perm l')).
    pose proof (Permutation_length Hp). lia.
Qed.

(** X3: p95 and p99 have the rank of their index: at most [floor(len × p)]
    latencies are strictly below the percentile, and more than that many are
    at most equal to it. *)
Theorem percentile_ranks (s : TestStats) :
  latencies s <> [] ->
  exists p95 p99,
    p95_latency s = Ok p95 /\ p99_latency s = Ok p99
    /\ count_below p95 (latencies s)
       <= Qfloor (inject_Z (len (latencies s)) * (95 # 100))
       < count_upto p95 (latencies s)
    /\ count_below p99 (latencies s)
       <= Qfloor (inject_Z (len (latencies s)) * (99 # 100))
       < count_upto p99 (latencies s).
Proof.
  intros Hne. pose proof (len_pos _ Hne) as Hpos.
  destruct (p95_latency_index s Hne) as (p95 & H95 & N95).
  destruct (p99_latency_index s Hne) as (p99 & H99 & N99).
  rewrite (p99_clamp_idle _ Hpos) in N99.
  exists p95, p99. split; [exact H95|]. split; [exact H99|].
  rewrite !Qfloor_scaled.
  apply sorted_rank in N95. apply sorted_rank in N99.
  rewrite Z2Nat.id in N95 by (apply Z.div_pos; lia).
  rewrite Z2Nat.id in N99 by (apply Z.div_pos; lia).
  split; assumption.
Qed.

Lemma percentile_ranks_witness :
  let s := stats_of_latencies [40; 10; 50; 30; 20; 60]%Q in
  latencies s <> []
  /\ exists p95 p99,
       p95_latency s = Ok p95 /\ p99_latency s = Ok p99
       /\ count_below p95 (latencies s)
          <= Qfloor (inject_Z (len (latencies s)) * (95 # 100))
          < count_upto p95 (latencies s)
       /\ count_below p99 (latencies s)
          <= Qfloor (inject_Z (len (latencies s)) * (99 # 100))
          < count_upto p99 (latencies s).
Proof.
  intros s. assert (latencies s <> []) as Hne by discriminate.
  split; [exact Hne | exact (percentile_ranks s Hne)].
Defined.

Lemma fold_Qplus_compat (l : list Q) (acc acc' : Q) :
  (acc == acc')%Q -> (fold_left Qplus l acc == fold_left Qplus l acc')%Q.
Proof.
  revert acc acc'. induction l as [|x l IH]; intros acc acc' H; simpl.
  - exact H.
  - apply IH. rewrite H. reflexivity.
Qed.

Lemma py_sum_perm (l l' : list Q) :
  Permutation l l' ->
  forall acc, (fold_left Qplus l acc == fold_left Qplus l' acc)%Q.
Proof.
  induction 1 as [|x l l' _ IH|x y l|l l' l'' _ IH1 _ IH2]; intros acc; simpl.
  - reflexivity.
  - apply IH.
  - apply fold_Qplus_compat. ring.
  - rewrite IH1. apply IH2.
Qed.

Lemma perm_nil_iff {A : Type} (l l' : list A) :
  Permutation l l' -> (l = [] <-> l' = []).
Proof.
  intros H. split; intros ->.
  - apply Permutation_nil, H.
  - apply Permutation_nil. symmetry. exact H.
Qed.

Lemma perm_len {A : Type} (l l' : list A) :
  Permutation l l' -> len l = len l'.
Proof. intros H. unfold len. f_equal. apply Permutation_length, H. Qed.

Lemma avg_latency_nonempty (s : TestStats) :
  latencies s <> [] ->
  avg_latency s
  = Ok (py_sum (latencies s) / py_float (len (latencies s)))%Q.
Proof.
  intros Hne. unfold avg_latency, statistics_mean.
  rewrite (py_not_false _ Hne).
  destruct (latencies s); [congruence | reflexivity].
Qed.

Lemma empty_sample_metrics (s : TestStats) :
  latencies s = [] ->
  avg_latency s = Ok 0%Q /\ p50_latency s = Ok 0%Q
  /\ p95_latency s = Ok 0%Q /\ p99_latency s = Ok 0%Q.
Proof.
  intros H. unfold avg_latency, p50_latency, p95_latency, p99_latency.
  rewrite H. repeat split; reflexivity.
Qed.

(** X4: the average and the percentiles depend on the sample, not on the order
    of its latencies: two arrangements of the same latencies give equal
    values. *)
Theorem latency_metrics_ignore_order (s s' : TestStats) :
  Permutation (latencies s) (latencies s') ->
  (exists v w, avg_latency s = Ok v /\ avg_latency s' = Ok w /\ (v == w)%Q)
  /\ (exists v w, p50_latency s = Ok v /\ p50_latency s' = Ok w /\ (v == w)%Q)
  /\ (exists v w, p95_latency s = Ok v /\ p95_latency s' = Ok w /\ (v == w)%Q)
  /\ (exists v w, p99_latency s = Ok v /\ p99_latency s' = Ok w /\ (v == w)%Q).
Proof.
  intros Hp. pose proof (perm_len _ _ Hp) as Hlen.
  destruct (latencies s) as [|x0 l0] eqn:El.
  - assert (latencies s' = []) as El' by (apply Permutation_nil, Hp).
    assert (latencies s = []) as El0 by exact El.
    destruct (empty_sample_metrics s El0) as (A1 & A2 & A3 & A4).
    destruct (empty_sample_metrics s' El') as (B1 & B2 & B3 & B4).
    repeat split; eexists _, _; (split; [eassumption|split; [eassumption|]]);
      reflexivity.
  - rewrite <- El in *.
    assert (latencies s <> []) as Hne by (rewrite El; discriminate).
    assert (latencies s' <> []) as Hne'.
    { intros H. apply Hne. apply (perm_nil_iff _ _ Hp). exact H. }
    pose proof (len_pos _ Hne) as Hpos.
    split; [|split; [|split]].
    + eexists _, _. split; [apply avg_latency_nonempty, Hne|].
      split; [apply avg_latency_nonempty, Hne'|].
      unfold py_sum. rewrite (py_sum_perm _ _ Hp), Hlen. reflexivity.
    + destruct (mod2_cases (len (latencies s))) as [Heven|Hodd].
      * destruct (p50_latency_even s Hne Heven) as (a & b & Na & Nb & H50).
        assert (len (latencies s') mod 2 = 0) as Heven' by congruence.
        destruct (p50_latency_even s' Hne' Heven')
          as (a' & b' & Na' & Nb' & H50').
        rewrite <- Hlen in Na', Nb'.
        destruct (sorted_perm_nth _ _ _ _ Hp Na) as (a2 & Ea & Haa).
        destruct (sorted_perm_nth _ _ _ _ Hp Nb) as (b2 & Eb & Hbb).
        assert (a2 = a') as -> by congruence.
        assert (b2 = b') as -> by congruence.
        eexists _, _. split; [exact H50|]. split; [exact H50'|].
        rewrite Haa, Hbb. reflexivity.
      * destruct (p50_latency_odd_index s Hne Hodd) as (v & H50 & N50).
        assert (len (latencies s') mod 2 = 1) as Hodd' by congruence.
        destruct (p50_latency_odd_index s' Hne' Hodd') as (w & H50' & N50').
        rewrite <- Hlen in N50'.
        destruct (sorted_perm_nth _ _ _ _ Hp N50) as (w2 & Ew & Hvw).
        assert (w2 = w) as -> by congruence.
        exists v, w. repeat split; assumption.
    + destruct (p95_latency_index s Hne) as (v & H95 & N95).
      destruct (p95_latency_index s' Hne') as (w & H95' & N95').
      rewrite <- Hlen in N95'.
      destruct (sorted_perm_nth _ _ _ _ Hp N95) as (w2 & Ew & Hvw).
      assert (w2 = w) as -> by congruence.
      exists v, w. repeat split; assumption.
    + destruct (p99_latency_index s Hne) as (v & H99 & N99).
      destruct (p99_latency_index s' Hne') as (w & H99' & N99').
      rewrite <- Hlen in N99'.
      destruct (sorted_perm_nth _ _ _ _ Hp N99) as (w2 & Ew & Hvw).
      assert (w2 = w) as -> by congruence.
      exists v, w. repeat split; assumption.
Qed.

Lemma latency_metrics_ignore_order_witness :
  let s := stats_of_latencies [40; 10; 50; 20]%Q in
  let s' := stats_of_latencies [10; 40; 50; 20]%Q in
  Permutation (latencies s) (latencies s')
  /\ (exists v w, p50_latency s = Ok v /\ p50_latency s' = Ok w /\ (v == w)%Q)
  /\ (exists v w, p95_latency s = Ok v /\ p95_latency s' = Ok w /\ (v == w)%Q).
Proof.
  intros s s'.
  assert (Permutation (latencies s) (latencies s')) as Hp by apply perm_swap.
  split; [exact Hp|].
  destruct (latency_metrics_ignore_order s s' Hp) as (_ & H50 & H95 & _).
  split; assumption.
Defined.

(** * Further properties of the aggregation *)

Lemma error_key_nonempty (r : TestResult) : error_key r <> "".
Proof.
  unfold error_key. destruct (String.eqb (error r) "") eqn:E.
  - discriminate.
  - apply String.eqb_neq, E.
Qed.

Lemma filter_nil_iff {A : Type} (f : A -> bool) (l : list A) :
  List.filter f l = [] <-> forall x, In x l -> f x = false.
Proof.
  induction l as [|x l IH]; simpl.
  - split; [intros _ y [] | reflexivity].
  - destruct (f x) eqn:E.
    + split; [discriminate|]. intros H. specialize (H x (or_introl eq_refl)).
      congruence.
    + rewrite IH. split.
      * intros H y [<-|Hy]; [exact E | apply H, Hy].
      * intros H y Hy. apply H. right. exact Hy.
Qed.

Lemma len_zero_nil {A : Type} (l : list A) : len l = 0 <-> l = [].
Proof.
  unfold len. destruct l; simpl; split; intros H; try reflexivity;
    try discriminate; lia.
Qed.

(** X6: the keys and the counts of the aggregated [errors]: a key is present
    exactly when a failed outcome has it, its count is the number of these
    outcomes and is at least 1; the empty string is never a key; the
    dictionary is empty exactly when every outcome is successful. *)
Theorem error_counts_keys (t0 t1 : Q) (results : list TestResult) :
  (forall k v,
      errors (aggregate t0 t1 results) !! k = Some v
      <-> v = len (failures_keyed k results) /\ 1 <= v)
  /\ (forall k,
        errors (aggregate t0 t1 results) !! k = None
        <-> forall r, In r results -> success r = false -> error_key r <> k)
  /\ errors (aggregate t0 t1 results) !! "" = None
  /\ (errors (aggregate t0 t1 results) = ∅
      <-> forall r, In r results -> success r = true).
Proof.
  assert (forall k,
            errors (aggregate t0 t1 results) !! k = None
            <-> forall r, In r results -> success r = false -> error_key r <> k)
    as Hnone.
  { intros k. rewrite aggregate_errors_lookup.
    pose proof (len_zero_nil (failures_keyed k results)) as Hz.
    unfold failures_keyed, failures in *.
    destruct (_ =? 0) eqn:E.
    - apply Z.eqb_eq in E. apply Hz in E. split; [intros _|reflexivity].
      intros r Hr Hs Hk. rewrite filter_nil_iff in E.
      assert (In r (List.filter (fun r => negb (success r)) results)) as Hin.
      { apply filter_In. split; [exact Hr|]. rewrite Hs. reflexivity. }
      specialize (E r Hin). apply String.eqb_neq in E. contradiction.
    - apply Z.eqb_neq in E. split; [discriminate|]. intros H. exfalso.
      apply E, Hz, filter_nil_iff. intros r Hr. apply filter_In in Hr.
      destruct Hr as [Hr Hs]. apply String.eqb_neq. apply H; [exact Hr|].
      destruct (success r); [discriminate | reflexivity]. }
  split; [|split; [exact Hnone|split]].
  - intros k v. rewrite aggregate_errors_lookup.
    pose proof (len_nonneg (failures_keyed k results)) as Hn.
    destruct (_ =? 0) eqn:E.
    + apply Z.eqb_eq in E. split; [discriminate|]. intros [-> H]. lia.
    + apply Z.eqb_neq in E. split.
      * intros [= <-]. split; [reflexivity | lia].
      * intros [-> _]. reflexivity.
  - apply Hnone. intros r _ _. apply error_key_nonempty.
  - split.
    + intros He r Hr. destruct (success r) eqn:Hs; [reflexivity|]. exfalso.
      assert (errors (aggregate t0 t1 results) !! error_key r = None) as Hk
        by (rewrite He; apply lookup_empty).
      apply (proj1 (Hnone _) Hk r Hr Hs). reflexivity.
    + intros Hall. apply map_eq. intros k. rewrite lookup_empty.
      apply Hnone. intros r Hr Hs. rewrite (Hall r Hr) in Hs. discriminate.
Qed.

Lemma failures_keyed_perm (k : string) (results results' : list TestResult) :
  Permutation results results' ->
  len (failures_keyed k results) = len (failures_keyed k results').
Proof.
  intros Hp. unfold failures_keyed, failures.
  assert (forall l, List.filter (fun r => String.eqb (error_key r) k)
                      (List.filter (fun r => negb (success r)) l)
                    = List.filter (fun r => negb (success r)
                                            && String.eqb (error_key r) k) l)
    as Hf.
  { induction l as [|r l IH]; simpl; [reflexivity|].
    destruct (success r); simpl; [exact IH|].
    destruct (String.eqb (error_key r) k); rewrite IH; reflexivity. }
  rewrite !Hf. apply len_filter_perm, Hp.
Qed.

(** X7: the aggregated counters and the [errors] dictionary do not depend on the
    order in which the workers appended their outcomes; the latencies are
    the same up to their order. *)
Theorem aggregate_ignores_order (t0 t1 : Q) (results results' : list TestResult) :
  Permutation results results' ->
  total_requests (aggregate t0 t1 results)
  = total_requests (aggregate t0 t1 results')
  /\ successful_requests (aggregate t0 t1 results)
     = successful_requests (aggregate t0 t1 results')
  /\ failed_requests (aggregate t0 t1 results)
     = failed_requests (aggregate t0 t1 results')
  /\ errors (aggregate t0 t1 results) = errors (aggregate t0 t1 results')
  /\ Permutation (latencies (aggregate t0 t1 results))
                 (latencies (aggregate t0 t1 results')).
Proof.
  intros Hp. unfold aggregate at 1 2 3 4 5 6.
  rewrite !loop_total, !loop_successful, !loop_failed. simpl.
  unfold failures.
  rewrite (perm_len _ _ Hp), (len_filter_perm success _ _ Hp),
    (len_filter_perm (fun r => negb (success r)) _ _ Hp).
  repeat (split; [reflexivity|]). split.
  - apply map_eq. intros k. rewrite !aggregate_errors_lookup.
    rewrite (failures_keyed_perm k _ _ Hp). reflexivity.
  - unfold aggregate. rewrite !loop_latencies. simpl.
    apply Permutation_map, Hp.
Qed.

Lemma aggregate_ignores_order_witness :
  let a := mkTestResult true 12 200 "" 0 in
  let b := mkTestResult false 30000 0 "timeout" 0 in
  let c := mkTestResult false 7 404 "" 0 in
  Permutation [a; b; c] [b; a; c]
  /\ errors (aggregate 0 1 [a; b; c]) = errors (aggregate 0 1 [b; a; c])
  /\ failed_requests (aggregate 0 1 [a; b; c])
     = failed_requests (aggregate 0 1 [b; a; c]).
Proof.
  intros a b c.
  assert (Permutation [a; b; c] [b; a; c]) as Hp by apply perm_swap.
  split; [exact Hp|].
  destruct (aggregate_ignores_order 0 1 _ _ Hp) as (_ & _ & Hf & He & _).
  split; assumption.
Defined.

(** ** The run as a whole *)



Lemma Forall2_len {A B : Type} (R : A -> B -> Prop) (l : list A) (l' : list B) :
  List.Forall2 R l l' -> len l = len l'.
Proof.
  intros H. unfold len. f_equal. induction H; simpl; congruence.
Qed.





(** ** Outcomes and their keys *)

(** [str] of an [int] reads back as the same number. *)
Lemma py_str_int_inj (n m : Z) : py_str_int n = py_str_int m -> n = m.
Proof.
  assert (forall z, NilZero.int_of_string (py_str_int z) = Some (Z.to_int z))
    as Hback.
  { intros z. unfold py_str_int. apply NilZero.isi.
    - destruct z; simpl; [discriminate| |discriminate].
      intros [= H]. apply (DecimalPos.Unsigned.to_uint_nonnil _ H).
    - destruct z; simpl; [discriminate|discriminate|].
      intros [= H]. apply (DecimalPos.Unsigned.to_uint_nonnil _ H). }
  intros H. pose proof (Hback n) as Hn. rewrite H, Hback in Hn.
  injection Hn as Hn. rewrite <- (DecimalZ.of_to n), <- (DecimalZ.of_to m).
  f_equal. symmetry. exact Hn.
Qed.

Lemma make_request_cases (t : LoadTester) (env : request_env)
    (r : TestResult) :
  _make_request t env = Done (Ok r) ->
  (exists status, behaviour env = Responds status None
                  /\ success r = (status =? 200) /\ status_code r = status
                  /\ error r = "")
  \/ (exists e, post_and_read env = Raise e
                /\ success r = false /\ status_code r = 0
                /\ error r = (if is_timeout e then "timeout"
                              else if is_client_error e then exn_type_name e
                              else exn_str e)).
Proof.
  unfold _make_request, async_with_semaphore.
  destruct (_semaphore t =? 0); [discriminate|].
  destruct (post_and_read env) as [r'|e] eqn:E.
  - intros [= <-]. left. unfold post_and_read in E.
    destruct (behaviour env) as [status [e|]|e]; try discriminate E.
    injection E as <-. exists status. repeat split; reflexivity.
  - intros H. right. exists e. split; [reflexivity|].
    destruct (is_timeout e); [injection H as <-; repeat split; reflexivity|].
    destruct (is_client_error e);
      [injection H as <-; repeat split; reflexivity|].
    destruct (is_exception e); [|discriminate H].
    injection H as <-. repeat split; reflexivity.
Qed.

(** X11: every outcome of [_make_request] is successful exactly when its status
    code is 200; a successful outcome has no error kind, and an outcome with
    an error kind has the status code 0. *)
Theorem outcome_success_is_status_200 (t : LoadTester) (env : request_env)
    (r : TestResult) :
  _make_request t env = Done (Ok r) ->
  success r = (status_code r =? 200)
  /\ (success r = true -> error r = "")
  /\ (error r <> "" -> status_code r = 0 /\ success r = false).
Proof.
  intros H. destruct (make_request_cases t env r H)
    as [(status & _ & Hs & Hc & He)|(e & _ & Hs & Hc & He)].
  - rewrite Hs, Hc, He. split; [reflexivity|]. split; [reflexivity|].
    intros Hne. contradiction.
  - rewrite Hs, Hc. split; [reflexivity|]. split; [discriminate|].
    intros _. split; reflexivity.
Qed.

Lemma outcome_success_is_status_200_witness :
  let t := mkLoadTester "http://localhost:8080" 5 60 100 TestStats_new 100 in
  let env := mkRequestEnv 1 (Responds 503 None) 2 2 2 in
  let r := mkTestResult false ((2 - 1) * 1000) 503 "" 2 in
  _make_request t env = Done (Ok r) /\ success r = (status_code r =? 200).
Proof.
  intros t env r. assert (_make_request t env = Done (Ok r)) as H by reflexivity.
  split; [exact H | exact (proj1 (outcome_success_is_status_200 t env r H))].
Defined.

(** X12: two responses that failed are counted under the same key exactly when
    they have the same status code. *)
Theorem http_keys_tell_statuses_apart (t : LoadTester)
    (env1 env2 : request_env) (s1 s2 : Z) (r1 r2 : TestResult) :
  behaviour env1 = Responds s1 None -> behaviour env2 = Responds s2 None ->
  _make_request t env1 = Done (Ok r1) -> _make_request t env2 = Done (Ok r2) ->
  (error_key r1 = error_key r2 <-> s1 = s2).
Proof.
  intros Hb1 Hb2 H1 H2.
  unfold _make_request, async_with_semaphore, post_and_read in H1, H2.
  destruct (_semaphore t =? 0); [discriminate H1|].
  rewrite Hb1 in H1.
  rewrite Hb2 in H2. injection H1 as <-. injection H2 as <-.
  unfold error_key. simpl. split.
  - intros H. apply py_str_int_inj. injection H as H. exact H.
  - intros ->. reflexivity.
Qed.

Lemma http_keys_tell_statuses_apart_witness :
  let t := mkLoadTester "http://localhost:8080" 5 60 100 TestStats_new 100 in
  let env1 := mkRequestEnv 1 (Responds 404 None) 2 2 2 in
  let env2 := mkRequestEnv 3 (Responds 500 None) 4 4 4 in
  exists r1 r2,
    _make_request t env1 = Done (Ok r1) /\ _make_request t env2 = Done (Ok r2)
    /\ (error_key r1 = error_key r2 <-> 404 = 500).
Proof.
  intros t env1 env2. eexists _, _.
  split; [reflexivity|]. split; [reflexivity|].
  apply (http_keys_tell_statuses_apart t env1 env2 404 500); reflexivity.
Defined.

(** X13: an exception caught by the last clause whose message is empty leaves the
    error kind empty, and is counted under ["HTTP 0"] (the request is one
    the semaphore lets in: the concurrency limit is above 0). *)
Theorem empty_message_is_counted_as_http_0 (t : LoadTester)
    (env : request_env) (e : exn) :
  0 < _semaphore t ->
  post_and_read env = Raise e ->
  is_timeout e = false -> is_client_error e = false ->
  is_exception e = true -> exn_str e = "" ->
  exists r, _make_request t env = Done (Ok r)
    /\ success r = false /\ error r = "" /\ error_key r = "HTTP 0"
    /\ forall t0 t1, errors (aggregate t0 t1 [r]) = {["HTTP 0" := 1]}.
Proof.
  intros Hsem E Ht Hc He Hs.
  rewrite (make_request_let_in t env Hsem), E, Ht, Hc, He, Hs.
  eexists. split; [reflexivity|]. repeat split.
Qed.

Lemma empty_message_is_counted_as_http_0_witness :
  let t := mkLoadTester "http://localhost:8080" 5 60 100 TestStats_new 100 in
  let e := mkExn OtherException "RuntimeError" "" in
  let env := mkRequestEnv 1 (PostRaises e) 2 2 2 in
  (0 < _semaphore t /\ post_and_read env = Raise e)
  /\ exists r, _make_request t env = Done (Ok r) /\ error_key r = "HTTP 0".
Proof.
  intros t e env. split; [split; reflexivity|].
  destruct (empty_message_is_counted_as_http_0 t env e eq_refl eq_refl eq_refl
              eq_refl eq_refl eq_refl) as (r & Hr & _ & _ & Hk & _).
  exists r. split; assumption.
Defined.

(** ** Runs of one kind of outcome *)

Lemma filter_all {A : Type} (f : A -> bool) (l : list A) :
  Forall (fun x => f x = true) l -> List.filter f l = l.
Proof.
  induction 1 as [|x l Hx _ IH]; simpl; [reflexivity|].
  rewrite Hx, IH. reflexivity.
Qed.

Lemma filter_none {A : Type} (f : A -> bool) (l : list A) :
  Forall (fun x => f x = false) l -> List.filter f l = [].
Proof.
  induction 1 as [|x l Hx _ IH]; simpl; [reflexivity|].
  rewrite Hx, IH. reflexivity.
Qed.

Lemma outcomes_of_ok_responses (t : LoadTester) (envs : list request_env)
    (rs : list TestResult) :
  List.Forall2 (fun env r => _make_request t env = Done (Ok r)) envs rs ->
  Forall (fun env => behaviour env = Responds 200 None) envs ->
  Forall (fun r => success r = true) rs.
Proof.
  induction 1 as [|env r envs rs H _ IH]; intros Hall; [constructor|].
  inversion Hall as [|? ? Hb Hrest]; subst.
  constructor; [|apply IH, Hrest].
  unfold _make_request, async_with_semaphore, post_and_read in H.
  destruct (_semaphore t =? 0); [discriminate H|]. rewrite Hb in H.
  injection H as <-. reflexivity.
Qed.

Lemma outcomes_of_timeouts (t : LoadTester) (envs : list request_env)
    (rs : list TestResult) :
  List.Forall2 (fun env r => _make_request t env = Done (Ok r)) envs rs ->
  Forall (fun env => exists e, post_and_read env = Raise e
                               /\ is_timeout e = true) envs ->
  Forall (fun r => success r = false /\ error_key r = "timeout") rs.
Proof.
  induction 1 as [|env r envs rs H _ IH]; intros Hall; [constructor|].
  inversion Hall as [|? ? (e & He & Ht) Hrest]; subst.
  constructor; [|apply IH, Hrest].
  unfold _make_request, async_with_semaphore in H.
  destruct (_semaphore t =? 0); [discriminate H|]. rewrite He, Ht in H.
  injection H as <-. split; reflexivity.
Qed.

(** X9: when every request of a run is answered with the status 200, every
    outcome is successful: no request is failed, [errors] is empty, and the
    success rate of a run with at least one request is 100. *)
Theorem run_of_ok_responses (t : LoadTester) (t0 t1 : Q)
    (envs : list request_env) (rs : list TestResult) :
  List.Forall2 (fun env r => _make_request t env = Done (Ok r)) envs rs ->
  Forall (fun env => behaviour env = Responds 200 None) envs ->
  successful_requests (aggregate t0 t1 rs) = len envs
  /\ total_requests (aggregate t0 t1 rs) = len envs
  /\ failed_requests (aggregate t0 t1 rs) = 0
  /\ errors (aggregate t0 t1 rs) = ∅
  /\ (envs <> [] ->
      exists v, success_rate (aggregate t0 t1 rs) = Ok v /\ (v == 100)%Q).
Proof.
  intros H2 Hall. pose proof (outcomes_of_ok_responses _ _ _ H2 Hall) as Hs.
  pose proof (Forall2_len _ _ _ H2) as Hlen.
  assert (failures rs = []) as Hf.
  { unfold failures. apply filter_none. eapply List.Forall_impl; [|exact Hs].
    simpl. intros r ->. reflexivity. }
  assert (successful_requests (aggregate t0 t1 rs) = len envs) as Hsucc.
  { unfold aggregate. rewrite loop_successful, (filter_all _ _ Hs). simpl. lia. }
  assert (total_requests (aggregate t0 t1 rs) = len envs) as Htot.
  { unfold aggregate. rewrite loop_total. simpl. lia. }
  split; [exact Hsucc|]. split; [exact Htot|]. split; [|split].
  - unfold aggregate. rewrite loop_failed, Hf. reflexivity.
  - apply map_eq. intros k. rewrite aggregate_errors_lookup, lookup_empty.
    unfold failures_keyed. rewrite Hf. reflexivity.
  - intros Hne. pose proof (len_pos _ Hne) as Hpos.
    unfold success_rate. rewrite Hsucc, Htot.
    destruct (len envs =? 0) eqn:E; [apply Z.eqb_eq in E; lia|].
    rewrite py_truediv_nonzero by (apply py_float_nonzero; lia). simpl.
    eexists. split; [reflexivity|].
    assert (py_float (len envs) / py_float (len envs) == 1)%Q as ->
      by (field; apply py_float_nonzero; lia).
    reflexivity.
Qed.

(** X10: when every request of a run times out, every outcome is failed and all
    of them are counted under ["timeout"]. *)
Theorem run_of_timeouts (t : LoadTester) (t0 t1 : Q)
    (envs : list request_env) (rs : list TestResult) :
  List.Forall2 (fun env r => _make_request t env = Done (Ok r)) envs rs ->
  Forall (fun env => exists e, post_and_read env = Raise e
                               /\ is_timeout e = true) envs ->
  failed_requests (aggregate t0 t1 rs) = len envs
  /\ total_requests (aggregate t0 t1 rs) = len envs
  /\ successful_requests (aggregate t0 t1 rs) = 0
  /\ errors (aggregate t0 t1 rs)
     = (if len envs =? 0 then ∅ else {["timeout" := len envs]}).
Proof.
  intros H2 Hall. pose proof (outcomes_of_timeouts _ _ _ H2 Hall) as Hs.
  pose proof (Forall2_len _ _ _ H2) as Hlen.
  assert (failures rs = rs) as Hf.
  { unfold failures. apply filter_all. eapply List.Forall_impl; [|exact Hs].
    simpl. intros r [-> _]. reflexivity. }
  split; [|split; [|split]].
  - unfold aggregate. rewrite loop_failed, Hf. simpl. lia.
  - unfold aggregate. rewrite loop_total. simpl. lia.
  - unfold aggregate. rewrite loop_successful. simpl.
    rewrite filter_none; [reflexivity|].
    eapply List.Forall_impl; [|exact Hs]. simpl. intros r [-> _]. reflexivity.
  - apply map_eq. intros k. rewrite aggregate_errors_lookup.
    unfold failures_keyed. rewrite Hf.
    destruct (String.eqb "timeout" k) eqn:Ek.
    + apply String.eqb_eq in Ek. subst k. rewrite filter_all.
      * rewrite <- Hlen. destruct (len envs =? 0); [reflexivity|].
        rewrite lookup_singleton_eq. reflexivity.
      * eapply List.Forall_impl; [|exact Hs]. simpl. intros r [_ ->].
        reflexivity.
    + apply String.eqb_neq in Ek. rewrite filter_none.
      * simpl. destruct (len envs =? 0); [reflexivity|].
        rewrite lookup_singleton_ne by exact Ek. reflexivity.
      * eapply List.Forall_impl; [|exact Hs]. simpl. intros r [_ ->].
        apply String.eqb_neq. exact Ek.
Qed.

Lemma run_of_ok_responses_witness :
  let t := mkLoadTester "http://localhost:8080" 5 60 100 TestStats_new 100 in
  let env := mkRequestEnv 1 (Responds 200 None) 2 2 2 in
  let r := mkTestResult true ((2 - 1) * 1000) 200 "" 2 in
  List.Forall2 (fun env r => _make_request t env = Done (Ok r))
               [env; env] [r; r]
  /\ Forall (fun env => behaviour env = Responds 200 None) [env; env]
  /\ errors (aggregate 0 5 [r; r]) = ∅
  /\ successful_requests (aggregate 0 5 [r; r]) = 2.
Proof.
  intros t env r.
  assert (List.Forall2 (fun env r => _make_request t env = Done (Ok r))
                       [env; env] [r; r]) as H2
    by (repeat constructor).
  assert (Forall (fun env => behaviour env = Responds 200 None) [env; env])
    as Hall by (repeat constructor).
  split; [exact H2|]. split; [exact Hall|].
  destruct (run_of_ok_responses t 0 5 _ _ H2 Hall) as (Hs & _ & _ & He & _).
  split; [exact He | exact Hs].
Defined.

Lemma run_of_timeouts_witness :
  let t := mkLoadTester "http://localhost:8080" 5 60 100 TestStats_new 100 in
  let e := mkExn TimeoutError "TimeoutError" "" in
  let env := mkRequestEnv 1 (PostRaises e) 31 31 31 in
  let r := mkTestResult false ((31 - 1) * 1000) 0 "timeout" 31 in
  List.Forall2 (fun env r => _make_request t env = Done (Ok r))
               [env; env] [r; r]
  /\ Forall (fun env => exists e, post_and_read env = Raise e
                                  /\ is_timeout e = true) [env; env]
  /\ errors (aggregate 0 5 [r; r]) = {["timeout" := 2]}
  /\ failed_requests (aggregate 0 5 [r; r]) = 2.
Proof.
  intros t e env r.
  assert (List.Forall2 (fun env r => _make_request t env = Done (Ok r))
                       [env; env] [r; r]) as H2
    by (repeat constructor).
  assert (Forall (fun env => exists e, post_and_read env = Raise e
                                       /\ is_timeout e = true) [env; env])
    as Hall by (repeat constructor; exists e; split; reflexivity).
  split; [exact H2|]. split; [exact Hall|].
  destruct (run_of_timeouts t 0 5 _ _ H2 Hall) as (Hf & _ & _ & He).
  split; [exact He | exact Hf].
Defined.

(** ** No metric raises *)

Lemma float_of_int_converts (n : Z) :
  converts_to_float n -> float_of_int n = Ok (py_float n).
Proof.
  unfold converts_to_float, float_of_int. intros H.
  destruct (Z.abs n <? 2 ^ 1024 - 2 ^ 970) eqn:E; [reflexivity|].
  apply Z.ltb_ge in E. exfalso. apply (Z.lt_irrefl (Z.abs n)).
  eapply Z.lt_le_trans; eassumption.
Qed.

(** X5: on statistics whose counters are in the range of a float, the
    conversions of the counters succeed and the derived metrics and the least
    and greatest latency of the summary return a value: the guards on the
    empty sample and on the zero total and duration leave no way to an
    exception, and the indices of the percentiles are in range. *)
Theorem derived_metrics_never_raise (s : TestStats) :
  converts_to_float (total_requests s) ->
  converts_to_float (successful_requests s) ->
  exists rate avg p50 p95 p99 rps lo hi,
    success_rate s = Ok rate /\ avg_latency s = Ok avg
    /\ p50_latency s = Ok p50 /\ p95_latency s = Ok p95
    /\ p99_latency s = Ok p99 /\ requests_per_second s = Ok rps
    /\ summary_min s = Ok lo /\ summary_max s = Ok hi
    /\ float_of_int (total_requests s) = Ok (py_float (total_requests s))
    /\ float_of_int (successful_requests s)
       = Ok (py_float (successful_requests s)).
Proof.
  intros Htotal Hsuccessful.
  pose proof (float_of_int_converts _ Htotal) as Hf1.
  pose proof (float_of_int_converts _ Hsuccessful) as Hf2.
  assert (exists rate, success_rate s = Ok rate) as [rate Hrate].
  { unfold success_rate. destruct (total_requests s =? 0) eqn:E.
    - eexists. reflexivity.
    - apply Z.eqb_neq in E.
      rewrite py_truediv_nonzero by (apply py_float_nonzero, E).
      eexists. reflexivity. }
  assert (exists rps, requests_per_second s = Ok rps) as [rps Hrps].
  { unfold requests_per_second. cbv zeta.
    destruct (Qeq_bool (end_time s - start_time s) 0) eqn:E.
    - eexists. reflexivity.
    - rewrite py_truediv_nonzero; [eexists; reflexivity|].
      intros H. apply Qeq_bool_iff in H. congruence. }
  destruct (latencies s) as [|x l] eqn:El.
  - destruct (empty_sample_metrics s El) as (A1 & A2 & A3 & A4).
    exists rate, 0%Q, 0%Q, 0%Q, 0%Q, rps, 0%Q, 0%Q.
    unfold summary_min, summary_max. rewrite El.
    repeat (split; [assumption || reflexivity|]). assumption.
  - assert (latencies s <> []) as Hne by (rewrite El; discriminate).
    destruct (nonempty_sample_metrics s Hne)
      as (lo & p50 & p95 & p99 & hi & H1 & H2 & H3 & H4 & H5).
    exists rate, (py_sum (latencies s) / py_float (len (latencies s)))%Q,
      p50, p95, p99, rps, lo, hi.
    rewrite (avg_latency_nonempty s Hne).
    repeat (split; [assumption || reflexivity|]). assumption.
Qed.

Lemma derived_metrics_never_raise_witness :
  let s := mkTestStats 3 2 1 [12; 7; 30]%Q {["timeout" := 1]} 100 160 in
  (converts_to_float (total_requests s)
   /\ converts_to_float (successful_requests s))
  /\ exists rate avg p50 p95 p99 rps,
       success_rate s = Ok rate /\ avg_latency s = Ok avg
       /\ p50_latency s = Ok p50 /\ p95_latency s = Ok p95
       /\ p99_latency s = Ok p99 /\ requests_per_second s = Ok rps.
Proof.
  intros s.
  assert (converts_to_float (total_requests s)) as H1 by reflexivity.
  assert (converts_to_float (successful_requests s)) as H2 by reflexivity.
  split; [split; assumption|].
  destruct (derived_metrics_never_raise s H1 H2)
    as (rate & avg & p50 & p95 & p99 & rps & lo & hi & H).
  exists rate, avg, p50, p95, p99, rps.
  repeat (split; [apply H|]). apply H.
Defined.

(** * Further properties of the load tester *)

Lemma append_nil_l (s : string) : String.append "" s = s.
Proof. reflexivity. Qed.

Lemma append_cons (a : ascii) (s s' : string) :
  String.append (String a s) s' = String a (String.append s s').
Proof. reflexivity. Qed.

Lemma rstrip_split (c : ascii) (s : string) :
  exists k, s = String.append (rstrip c s) (replicate_char k c).
Proof.
  induction s as [|a s [k IH]]; simpl.
  - exists 0%nat. reflexivity.
  - destruct (rstrip c s) as [|b r] eqn:E.
    + rewrite append_nil_l in IH. destruct (Ascii.eqb a c) eqn:Ea.
      * apply Ascii.eqb_eq in Ea. subst a. exists (S k).
        rewrite append_nil_l. simpl. congruence.
      * exists k. rewrite append_cons, append_nil_l. congruence.
    + exists k. rewrite append_cons. congruence.
Qed.

Lemma rstrip_last (c : ascii) (s : string) : last_char (rstrip c s) <> Some c.
Proof.
  induction s as [|a s IH]; simpl.
  - discriminate.
  - destruct (rstrip c s) as [|b r] eqn:E.
    + destruct (Ascii.eqb a c) eqn:Ea; simpl; [discriminate|].
      apply Ascii.eqb_neq in Ea. congruence.
    + exact IH.
Qed.

Lemma rstrip_fixed (c : ascii) (s : string) :
  last_char s <> Some c -> rstrip c s = s.
Proof.
  induction s as [|a s IH]; simpl; [reflexivity|].
  destruct s as [|b s'].
  - simpl. intros H. destruct (Ascii.eqb a c) eqn:Ea; [|reflexivity].
    apply Ascii.eqb_eq in Ea. congruence.
  - intros H. rewrite (IH H). reflexivity.
Qed.

(** X14: the constructor stores the address without its trailing slashes: what
    it stores does not end with a slash, the address given is what it stores
    followed by slashes only, and an address without a trailing slash is
    stored as it is; the address of a request is the stored one followed by
    the path of the API. *)
Theorem target_url_has_no_trailing_slash (url : string) (r : Q) (d l : Z)
    (t : LoadTester) :
  LoadTester_init url r d l = Ok t ->
  last_char (target_url t) <> Some "/"%char
  /\ (exists k, url = String.append (target_url t) (replicate_char k "/"))
  /\ (last_char url <> Some "/"%char -> target_url t = url)
  /\ request_url t = String.append (target_url t) "/api/v1/intents".
Proof.
  unfold LoadTester_init, Semaphore. destruct (l <? 0); [discriminate|].
  simpl. intros [= <-]. simpl. split; [apply rstrip_last|].
  split; [apply rstrip_split|]. split; [apply rstrip_fixed | reflexivity].
Qed.

Lemma target_url_has_no_trailing_slash_witness :
  exists t,
    LoadTester_init "http://localhost:8080//" 10 60 100 = Ok t
    /\ target_url t = "http://localhost:8080"
    /\ last_char (target_url t) <> Some "/"%char
    /\ request_url t = "http://localhost:8080/api/v1/intents".
Proof.
  eexists. split; [reflexivity|]. split; [reflexivity|].
  split; [|reflexivity].
  exact (proj1 (target_url_has_no_trailing_slash
                  "http://localhost:8080//" 10 60 100 _ eq_refl)).
Defined.

(** ** Rates at the edges *)

Lemma py_int_tenth (r : Q) :
  py_int (r / 10) = Z.quot (Qnum r) (Zpos (Qden r) * 10).
Proof.
  unfold py_int, Qdiv, Qmult, Qinv. simpl.
  rewrite Z.mul_1_r, Pos2Z.inj_mul. reflexivity.
Qed.

Lemma quot_is_minus_one (p q : Z) :
  0 < q -> (Z.quot p q = -1 <-> - 2 * q < p <= - q).
Proof.
  intros Hq. destruct (Z.lt_ge_cases p 0) as [Hp|Hp].
  - replace p with (- (- p)) by lia. rewrite Z.quot_opp_l by lia.
    rewrite Z.quot_div_nonneg by lia.
    assert ((- p) / q = 1 <-> q <= - p < 2 * q) as Hd.
    { split.
      - intros H. pose proof (Z_div_mod_eq_full (- p) q).
        pose proof (Z.mod_pos_bound (- p) q Hq). nia.
      - intros H. symmetry. apply (Z.div_unique (- p) q 1 (- p - q)); lia. }
    lia.
  - pose proof (Z.quot_pos p q Hp Hq). lia.
Qed.

Lemma quot_le_minus_two (p q : Z) :
  0 < q -> p <= - 2 * q -> Z.quot p q <= -2.
Proof.
  intros Hq Hp. replace p with (- (- p)) by lia.
  rewrite Z.quot_opp_l by lia. rewrite Z.quot_div_nonneg by lia.
  assert (2 <= (- p) / q) by (apply Z.div_le_lower_bound; lia). lia.
Qed.

Lemma interleave_nothing (order : list nat) : interleave order [] = [].
Proof. induction order as [|w order IH]; simpl; [reflexivity | exact IH]. Qed.

(** X15: the head of [run] divides by zero exactly when the rate is above -20 and
    at most -10, where it plans zero workers; at a rate of -20 or less it
    plans a negative number of workers, no task is created and the run
    returns statistics without any request. *)
Theorem negative_rates (t : LoadTester) :
  ((exists e, plan_workers t = Raise e)
   <-> (- (20) < rps t)%Q /\ (rps t <= - (10))%Q)
  /\ (forall e, plan_workers t = Raise e -> exn_cls e = ZeroDivisionError)
  /\ ((rps t <= - (20))%Q ->
      forall t0 t1 tasks order,
        run t t0 t1 tasks order = Done (Ok (mkTestStats 0 0 0 [] ∅ t0 t1))).
Proof.
  assert (0 < Zpos (Qden (rps t)) * 10) as Hq by lia.
  assert (plan_workers t
          = let n := Z.min (py_int (rps t / 10) + 1) 50 in
            if n =? 0
            then raise_cls ZeroDivisionError "ZeroDivisionError"
                           "division by zero"
            else Ok (n, mkLoadTester (target_url t) (rps t / py_float n)
                                     (duration t) (concurrent_limit t)
                                     (stats t) (_semaphore t))) as Hplan.
  { unfold plan_workers. rewrite py_truediv_nonzero by discriminate. simpl.
    set (n := Z.min (py_int (rps t / 10) + 1) 50).
    unfold py_truediv. destruct (n =? 0) eqn:E.
    - apply Z.eqb_eq in E. rewrite E. reflexivity.
    - apply Z.eqb_neq in E.
      destruct (Qeq_bool (py_float n) 0) eqn:E'; [|reflexivity].
      apply Qeq_bool_iff in E'. exfalso. apply (py_float_nonzero n E E'). }
  cbv zeta in Hplan. rewrite py_int_tenth in Hplan. rewrite Hplan.
  pose proof (quot_is_minus_one (Qnum (rps t)) _ Hq) as Hm.
  split; [|split].
  - destruct (_ =? 0) eqn:E.
    + apply Z.eqb_eq in E. split; [intros _|intros _; eexists; reflexivity].
      unfold Qlt, Qle. simpl. lia.
    + apply Z.eqb_neq in E. split; [intros [e He]; discriminate He|].
      unfold Qlt, Qle. simpl. intros H. exfalso. apply E. lia.
  - intros e. destruct (_ =? 0); [|discriminate]. intros [= <-]. reflexivity.
  - intros Hr t0 t1 tasks order.
    assert (Z.quot (Qnum (rps t)) (Zpos (Qden (rps t)) * 10) <= -2) as Hle.
    { apply quot_le_minus_two; [lia|]. unfold Qle in Hr. simpl in Hr. lia. }
    unfold run. rewrite Hplan.
    set (n := Z.min _ 50) in *. assert (n <= -1) as Hn by (unfold n; lia).
    destruct (n =? 0) eqn:E; [apply Z.eqb_eq in E; lia|]. simpl.
    unfold range. destruct n; try lia. simpl.
    rewrite interleave_nothing. reflexivity.
Qed.

Lemma negative_rates_witness :
  let t15 := mkLoadTester "" (- (15)) 60 100 TestStats_new 100 in
  let t30 := mkLoadTester "" (- (30)) 60 100 TestStats_new 100 in
  ((- (20) < rps t15)%Q /\ (rps t15 <= - (10))%Q /\ (rps t30 <= - (20))%Q)
  /\ (exists e, plan_workers t15 = Raise e)
  /\ run t30 0 1 (fun _ => mkTask 0 []) []
     = Done (Ok (mkTestStats 0 0 0 [] ∅ 0 1)).
Proof.
  intros t15 t30.
  assert (- (20) < rps t15)%Q as H1 by reflexivity.
  assert (rps t15 <= - (10))%Q as H2 by discriminate.
  assert (rps t30 <= - (20))%Q as H3 by discriminate.
  split; [repeat split; assumption|]. split.
  - apply (proj1 (negative_rates t15)). split; assumption.
  - apply (proj2 (proj2 (negative_rates t30))). exact H3.
Defined.

Lemma Qfloor_tenth_bounds (r : Q) :
  (inject_Z (Qfloor (r / 10)) * 10 <= r)%Q
  /\ (r < inject_Z (Qfloor (r / 10) + 1) * 10)%Q.
Proof.
  assert (r / 10 * 10 == r)%Q as Hr by (field; discriminate).
  split.
  - rewrite <- Hr at 2. apply Qmult_le_compat_r; [apply Qfloor_le | discriminate].
  - rewrite <- Hr at 1. apply Qmult_lt_compat_r; [reflexivity | apply Qlt_floor].
Qed.

Lemma inject_Z_le_iff (a b : Z) : (inject_Z a <= inject_Z b)%Q <-> a <= b.
Proof. unfold Qle, inject_Z. simpl. lia. Qed.

Lemma inject_Z_lt_iff (a b : Z) : (inject_Z a < inject_Z b)%Q <-> a < b.
Proof. unfold Qlt, inject_Z. simpl. lia. Qed.

(** X16: for a rate above 0 the pool reaches its cap of 50 workers exactly from
    490 requests per second on; below the cap each worker works at less than
    10 requests per second, and from a rate of 10 on each worker works at 5
    requests per second or more. *)
Theorem worker_pool_bounds (t : LoadTester) :
  (0 < rps t)%Q ->
  exists n t',
    plan_workers t = Ok (n, t')
    /\ 1 <= n <= 50
    /\ (n = 50 <-> (490 <= rps t)%Q)
    /\ ((rps t < 490)%Q -> (rps t' < 10)%Q)
    /\ ((10 <= rps t)%Q -> (5 <= rps t')%Q).
Proof.
  intros Hr. destruct (plan_workers_positive t Hr) as [Hn Hp].
  set (f := Qfloor (rps t / 10)) in *.
  set (n := Z.min (f + 1) 50) in *.
  destruct (Qfloor_tenth_bounds (rps t)) as [Hlo Hhi]. fold f in Hlo, Hhi.
  pose proof (tenth_floor _ Hr) as Hf. fold f in Hf.
  assert (0 < inject_Z n)%Q as Hnq
    by (change 0%Q with (inject_Z 0); apply inject_Z_lt_iff; lia).
  assert (n = Z.min (f + 1) 50) as Hndef by reflexivity.
  clearbody n f.
  assert ((490 <= rps t)%Q <-> 49 <= f) as H490.
  { split.
    - intros H. assert (490 < inject_Z (f + 1) * 10)%Q as H1
        by (eapply Qle_lt_trans; eassumption).
      assert (inject_Z 49 < inject_Z (f + 1))%Q as H2.
      { apply Qmult_lt_r with (z := 10%Q); [reflexivity|]. exact H1. }
      pose proof (proj1 (inject_Z_lt_iff _ _) H2). lia.
    - intros H. eapply Qle_trans; [|exact Hlo].
      change 490%Q with (inject_Z 49 * 10)%Q.
      apply Qmult_le_compat_r; [|discriminate].
      apply inject_Z_le_iff. exact H. }
  eexists n, _. split; [exact Hp|]. split; [exact Hn|]. simpl. split; [|split].
  - rewrite H490. lia.
  - intros Hlt. assert (f < 49) as Hf49.
    { destruct (Z.lt_ge_cases f 49) as [H|H]; [exact H|]. exfalso.
      apply (Qlt_not_le _ _ Hlt). apply H490. lia. }
    apply Qlt_shift_div_r; [exact Hnq|].
    assert (n = f + 1) as -> by lia.
    rewrite Qmult_comm. exact Hhi.
  - intros H10. apply Qle_shift_div_l; [exact Hnq|].
    assert (1 <= f) as Hf1.
    { assert (inject_Z 1 < inject_Z (f + 1))%Q as H2.
      { apply Qmult_lt_r with (z := 10%Q); [reflexivity|].
        eapply Qle_lt_trans; [|exact Hhi]. exact H10. }
      pose proof (proj1 (inject_Z_lt_iff _ _) H2). lia. }
    apply Qle_trans with (inject_Z (2 * f) * 5)%Q.
    + rewrite Qmult_comm. apply Qmult_le_compat_r; [|discriminate].
      apply inject_Z_le_iff. lia.
    + eapply Qle_trans; [|exact Hlo].
      rewrite inject_Z_mult. apply Qle_lteq. right.
      unfold inject_Z at 1. ring.
Qed.

Lemma worker_pool_bounds_witness :
  let t := mkLoadTester "" 125 60 100 TestStats_new 100 in
  ((0 < rps t)%Q /\ (rps t < 490)%Q /\ (10 <= rps t)%Q)
  /\ exists n t',
       plan_workers t = Ok (n, t') /\ n = 13
       /\ (rps t' < 10)%Q /\ (5 <= rps t')%Q.
Proof.
  intros t.
  assert (0 < rps t)%Q as Hr by reflexivity.
  assert (rps t < 490)%Q as H1 by reflexivity.
  assert (10 <= rps t)%Q as H2 by discriminate.
  split; [repeat split; assumption|].
  destruct (worker_pool_bounds t Hr) as (n & t' & Hp & _ & _ & Hlt & Hge).
  exists n, t'. split; [exact Hp|].
  split; [injection Hp as <- _; reflexivity|].
  split; [apply Hlt, H1 | apply Hge, H2].
Defined.



(** * Properties of the intent generator *)

Module IntentGeneratorFacts.
Import IntentGenerator.

(** ** The random library *)

Lemma py_getitem_nth {A : Type} (l : list A) (i : Z) (dflt : A) :
  0 <= i < len l -> py_getitem l i = Ok (nth (Z.to_nat i) l dflt).
Proof.
  intros Hi. destruct (py_getitem_in_range l i Hi) as (x & Hx & Hn).
  rewrite Hx. f_equal. symmetry. apply nth_error_nth. exact Hn.
Qed.

Lemma py_getitem_last {A : Type} (l : list A) (dflt : A) :
  0 < len l -> py_getitem l (-1) = Ok (nth (Z.to_nat (len l - 1)) l dflt).
Proof.
  intros Hl. unfold py_getitem.
  change (-1 <? 0) with true. cbv iota.
  replace (len l + -1) with (len l - 1) by lia.
  destruct (len l - 1 <? 0) eqn:E; [apply Z.ltb_lt in E; lia|].
  destruct (nth_error l (Z.to_nat (len l - 1))) as [x|] eqn:N.
  - f_equal. symmetry. apply nth_error_nth. exact N.
  - apply nth_error_None in N. unfold len in *. lia.
Qed.

(** The search of [bisect] in an ascending list ends at the first index,
    below the bound [hi], whose element exceeds [x]. *)
Lemma bisect_loop_spec (a : list Q) (x : Q) (top : Z) :
  (forall i j, 0 <= i <= j -> j < len a ->
               (nth (Z.to_nat i) a 0 <= nth (Z.to_nat j) a 0)%Q) ->
  top <= len a ->
  forall (fuel : nat) (lo hi : Z),
    0 <= lo <= hi -> hi <= top -> (Z.to_nat (hi - lo) <= fuel)%nat ->
    (forall j, 0 <= j < lo -> (nth (Z.to_nat j) a 0 <= x)%Q) ->
    (forall j, hi <= j < top -> (x < nth (Z.to_nat j) a 0)%Q) ->
    exists r, bisect_loop fuel a x lo hi = Ok r
      /\ lo <= r <= hi
      /\ (forall j, 0 <= j < r -> (nth (Z.to_nat j) a 0 <= x)%Q)
      /\ (forall j, r <= j < top -> (x < nth (Z.to_nat j) a 0)%Q).
Proof.
  intros Hsorted Htop.
  induction fuel as [|fuel IH]; intros lo hi Hlo Hhi Hfuel Hbelow Habove.
  - exists lo. simpl. split; [reflexivity|]. assert (hi = lo) as -> by lia.
    split; [lia|]. split; assumption.
  - simpl. destruct (lo <? hi) eqn:E.
    + apply Z.ltb_lt in E.
      assert (lo <= (lo + hi) / 2 < hi) as Hmid.
      { split; [apply Z.div_le_lower_bound; lia
               | apply Z.div_lt_upper_bound; lia]. }
      rewrite (py_getitem_nth a ((lo + hi) / 2) 0%Q) by lia. simpl.
      destruct (Qlt_le_dec x (nth (Z.to_nat ((lo + hi) / 2)) a 0%Q)) as [Hlt|Hle].
      * destruct (IH lo ((lo + hi) / 2)) as (r & Hr & Hr1 & Hr2 & Hr3);
          [lia | lia | lia | exact Hbelow | |].
        -- intros j Hj. destruct (Z.lt_ge_cases j hi) as [Hjh|Hjh].
           ++ eapply Qlt_le_trans; [exact Hlt|]. apply Hsorted; lia.
           ++ apply Habove. lia.
        -- exists r. split; [exact Hr|]. split; [lia|]. split; assumption.
      * destruct (IH ((lo + hi) / 2 + 1) hi) as (r & Hr & Hr1 & Hr2 & Hr3);
          [lia | lia | lia | | exact Habove |].
        -- intros j Hj. eapply Qle_trans; [|exact Hle]. apply Hsorted; lia.
        -- exists r. split; [exact Hr|]. split; [lia|]. split; assumption.
    + apply Z.ltb_ge in E. exists lo. split; [reflexivity|].
      assert (hi = lo) as -> by lia. split; [lia|]. split; assumption.
Qed.


Lemma ascending_nth (a : list Q) :
  StronglySorted Qle a ->
  forall i j, 0 <= i <= j -> j < len a ->
              (nth (Z.to_nat i) a 0 <= nth (Z.to_nat j) a 0)%Q.
Proof.
  intros Hs i j Hij Hj.
  assert (Z.to_nat j < length a)%nat as Hj' by (unfold len in Hj; lia).
  assert (Z.to_nat i < length a)%nat as Hi' by lia.
  apply (sorted_nth_mono a Hs (Z.to_nat i) (Z.to_nat j)); [lia| |];
    apply nth_error_nth'; assumption.
Qed.

(** [random.choices] with weights, on ascending cumulative weights with a
    total above 0: the entry chosen is the first one, the last apart, whose
    cumulative weight exceeds the draw scaled by the total. *)
Lemma choices_weighted_spec {A : Type} (population : list A) (weights : list Q)
    (u : Q) (dflt : A) :
  let cum := accumulate weights in
  let total := nth (Z.to_nat (len cum - 1)) cum 0%Q in
  len cum = len population -> 0 < len population ->
  StronglySorted Qle cum -> (0 < total)%Q ->
  exists i,
    0 <= i <= len population - 1
    /\ choices_weighted population weights u
       = Ok (nth (Z.to_nat i) population dflt)
    /\ (forall j, 0 <= j < i -> (nth (Z.to_nat j) cum 0 <= u * total)%Q)
    /\ (forall j, i <= j < len population - 1 ->
                  (u * total < nth (Z.to_nat j) cum 0)%Q).
Proof.
  intros cum total Hlen Hpos Hsorted Htotal.
  unfold choices_weighted. fold cum. rewrite Hlen, Z.eqb_refl. simpl negb.
  cbv iota. rewrite (py_getitem_last cum 0%Q) by lia. fold total. simpl.
  destruct (Qle_bool total 0) eqn:E.
  { apply Qle_bool_iff in E. exfalso. apply (Qlt_not_le _ _ Htotal E). }
  destruct (bisect_loop_spec cum (u * total)%Q (len population - 1)
              (ascending_nth cum Hsorted) ltac:(lia)
              (Z.to_nat (len population - 1 - 0)) 0 (len population - 1)
              ltac:(lia) ltac:(lia) ltac:(lia)
              ltac:(intros; lia) ltac:(intros; lia))
    as (i & Hi & Hr & Hbelow & Habove).
  exists i. split; [lia|]. unfold bisect. rewrite Hi. simpl.
  split; [apply py_getitem_nth; lia|]. split; assumption.
Qed.

Lemma profile_cumulative_weights :
  StronglySorted Qle (accumulate (map weight USER_PROFILES)).
Proof. repeat constructor; discriminate. Qed.

Lemma pair_cumulative_weights :
  StronglySorted Qle (accumulate (map (fun p => snd p) TRADING_PAIRS)).
Proof. repeat constructor; discriminate. Qed.

Ltac weights_case Hbelow Habove k :=
  try (pose proof (Hbelow (k - 1) ltac:(lia)) as Hb; simpl in Hb);
  try (pose proof (Habove k ltac:(lia)) as Ha; simpl in Ha);
  simpl;
  repeat match goal with
         | |- context [Qlt_le_dec ?a ?b] => destruct (Qlt_le_dec a b)
         end;
  try reflexivity; exfalso; lra.

Lemma profile_is_chosen (u : Q) :
  exists p, select_user_profile u = Ok p /\ In p USER_PROFILES.
Proof.
  destruct (choices_weighted_spec USER_PROFILES (map weight USER_PROFILES) u
              (mkProfile "" 0 (0, 0)%Q (0, 0)%Q (0, 0)))
    as (i & Hi & Hsel & _);
    [reflexivity | reflexivity | apply profile_cumulative_weights
     | reflexivity |].
  eexists. split; [exact Hsel|]. apply nth_In.
  change (len USER_PROFILES - 1) with 2 in Hi.
  change (length USER_PROFILES) with 3%nat. lia.
Qed.

Lemma pair_is_chosen (u : Q) :
  exists pair, select_trading_pair u = Ok pair
    /\ exists w, In (pair, w) TRADING_PAIRS.
Proof.
  destruct (choices_weighted_spec TRADING_PAIRS
              (map (fun p => snd p) TRADING_PAIRS) u ("", "", 0%Q))
    as (i & Hi & Hsel & _);
    [reflexivity | reflexivity | apply pair_cumulative_weights
     | reflexivity |].
  unfold select_trading_pair. cbv zeta. rewrite Hsel.
  unfold mbind, result_bind.
  eexists. split; [reflexivity|].
  exists (snd (nth (Z.to_nat i) TRADING_PAIRS ("", "", 0%Q))).
  rewrite <- !surjective_pairing. apply nth_In.
  change (len TRADING_PAIRS - 1) with 6 in Hi.
  change (length TRADING_PAIRS) with 7%nat. lia.
Qed.

(** X18: the profile of an intent follows the weights of the table: a draw below
    0.7 gives the retail profile, a draw from 0.7 and below 0.9 the trader,
    any other draw the whale. *)
Theorem profile_follows_weights (u : Q) :
  exists p,
    select_user_profile u = Ok p /\ In p USER_PROFILES
    /\ name p = (if Qlt_le_dec u (7 # 10) then "retail"
                 else if Qlt_le_dec u (9 # 10) then "trader" else "whale").
Proof.
  destruct (choices_weighted_spec USER_PROFILES (map weight USER_PROFILES) u
              (mkProfile "" 0 (0, 0)%Q (0, 0)%Q (0, 0)))
    as (i & Hi & Hsel & Hbelow & Habove);
    [reflexivity | reflexivity | apply profile_cumulative_weights
     | reflexivity |].
  eexists. split; [exact Hsel|].
  change (len USER_PROFILES - 1) with 2 in *.
  assert (i = 0 \/ i = 1 \/ i = 2) as [ -> | [ -> | -> ] ] by lia.
  - split; [simpl; tauto|]. weights_case Hbelow Habove 0.
  - split; [simpl; tauto|]. weights_case Hbelow Habove 1.
  - split; [simpl; tauto|]. weights_case Hbelow Habove 2.
Qed.

(** X19: the trading pair of an intent follows the weights of the table: the
    draw is compared with the cumulative weights 0.25, 0.45, 0.65, 0.80, 0.90
    and 0.95, in the order of the table. *)
Theorem pair_follows_weights (u : Q) :
  exists pair,
    select_trading_pair u = Ok pair
    /\ (exists w, In (pair, w) TRADING_PAIRS)
    /\ pair = (if Qlt_le_dec u (25 # 100) then ("ATOM", "OSMO")
               else if Qlt_le_dec u (45 # 100) then ("OSMO", "ATOM")
               else if Qlt_le_dec u (65 # 100) then ("ATOM", "USDC")
               else if Qlt_le_dec u (80 # 100) then ("USDC", "ATOM")
               else if Qlt_le_dec u (90 # 100) then ("NTRN", "ATOM")
               else if Qlt_le_dec u (95 # 100) then ("ATOM", "NTRN")
               else ("OSMO", "USDC")).
Proof.
  destruct (choices_weighted_spec TRADING_PAIRS
              (map (fun p => snd p) TRADING_PAIRS) u ("", "", 0%Q))
    as (i & Hi & Hsel & Hbelow & Habove);
    [reflexivity | reflexivity | apply pair_cumulative_weights
     | reflexivity |].
  unfold select_trading_pair. rewrite Hsel. simpl.
  eexists. split; [reflexivity|].
  change (len TRADING_PAIRS - 1) with 6 in *.
  assert (i = 0 \/ i = 1 \/ i = 2 \/ i = 3 \/ i = 4 \/ i = 5 \/ i = 6)
    as [ -> | [ -> | [ -> | [ -> | [ -> | [ -> | -> ] ] ] ] ] ] by lia.
  - split; [eexists; simpl; tauto|]. weights_case Hbelow Habove 0.
  - split; [eexists; simpl; tauto|]. weights_case Hbelow Habove 1.
  - split; [eexists; simpl; tauto|]. weights_case Hbelow Habove 2.
  - split; [eexists; simpl; tauto|]. weights_case Hbelow Habove 3.
  - split; [eexists; simpl; tauto|]. weights_case Hbelow Habove 4.
  - split; [eexists; simpl; tauto|]. weights_case Hbelow Habove 5.
  - split; [eexists; simpl; tauto|]. weights_case Hbelow Habove 6.
Qed.

(** ** Addresses *)

Lemma unit_draw_index (u : Q) (n : Z) :
  unit_draw u -> 0 < n -> 0 <= Qfloor (u * py_float n) < n.
Proof.
  intros [H0 H1] Hn.
  assert (0 < py_float n)%Q as Hn'
    by (change 0%Q with (inject_Z 0); apply inject_Z_lt_iff, Hn).
  split.
  - change 0 with (Qfloor 0). apply Qfloor_resp_le.
    apply Qmult_le_0_compat; [exact H0 | apply Qlt_le_weak, Hn'].
  - apply inject_Z_lt_iff. eapply Qle_lt_trans; [apply Qfloor_le|].
    unfold py_float in *.
    assert (u * inject_Z n < 1 * inject_Z n)%Q
      by (apply Qmult_lt_compat_r; assumption).
    lra.
Qed.

Lemma choices_uniform_cons {A : Type} (population : list A) (u : Q)
    (us : list Q) :
  choices_uniform population (u :: us)
  = (x ← py_getitem population (Qfloor (u * py_float (len population)));
     rest ← choices_uniform population us;
     Ok (x :: rest)).
Proof. reflexivity. Qed.

Lemma choices_uniform_spec {A : Type} (population : list A) (us : list Q) :
  0 < len population -> Forall unit_draw us ->
  exists xs, choices_uniform population us = Ok xs
    /\ length xs = length us /\ Forall (fun x => In x population) xs.
Proof.
  intros Hpos. induction 1 as [|u us Hu _ (xs & Hxs & Hlen & Hall)].
  - exists []. repeat split; constructor.
  - destruct (py_getitem_in_range population
                (Qfloor (u * py_float (len population)))
                (unit_draw_index u _ Hu Hpos)) as (x & Hx & Hn).
    rewrite choices_uniform_cons, Hx. simpl. rewrite Hxs. simpl.
    exists (x :: xs).
    split; [reflexivity|]. split; [simpl; congruence|].
    constructor; [eapply nth_error_In, Hn | exact Hall].
Qed.

Lemma join_chars_length (chars : list ascii) :
  String.length (join_chars chars) = length chars.
Proof. induction chars as [|c chars IH]; simpl; congruence. Qed.

Lemma append_length (s s' : string) :
  String.length (String.append s s') = (String.length s + String.length s')%nat.
Proof.
  induction s as [|a s IH]; [reflexivity|].
  rewrite append_cons. simpl. rewrite IH. reflexivity.
Qed.

Lemma address_digits (us : list Q) :
  length us = 38%nat -> Forall unit_draw us ->
  exists digits,
    generate_address us = Ok (String.append "cosmos1" (join_chars digits))
    /\ length digits = 38%nat
    /\ Forall (fun c => In c hex_digits) digits.
Proof.
  intros Hlen Hall. unfold generate_address.
  rewrite firstn_all2 by lia.
  destruct (choices_uniform_spec hex_digits us ltac:(reflexivity) Hall)
    as (digits & Hd & Hl & Hin).
  rewrite Hd. simpl. exists digits. split; [reflexivity|].
  split; [congruence | exact Hin].
Qed.

(** X20: an address made from 38 draws of the random source is ["cosmos1"]
    followed by 38 hexadecimal digits, 45 characters in all. *)
Theorem address_shape (us : list Q) :
  length us = 38%nat -> Forall unit_draw us ->
  exists digits,
    generate_address us = Ok (String.append "cosmos1" (join_chars digits))
    /\ length digits = 38%nat
    /\ Forall (fun c => In c hex_digits) digits
    /\ String.length (String.append "cosmos1" (join_chars digits)) = 45%nat.
Proof.
  intros Hlen Hall. unfold generate_address.
  rewrite firstn_all2 by lia.
  destruct (choices_uniform_spec hex_digits us ltac:(reflexivity) Hall)
    as (digits & Hd & Hl & Hin).
  rewrite Hd. simpl. exists digits. split; [reflexivity|].
  split; [congruence|]. split; [exact Hin|].
  rewrite append_length, join_chars_length, Hl, Hlen. reflexivity.
Qed.

(** ** Intents *)

Lemma pair_tokens (a b : string) (w : Q) :
  In (a, b, w) TRADING_PAIRS ->
  a <> b
  /\ exists tin tout,
       token_lookup TOKENS a = Ok tin /\ token_lookup TOKENS b = Ok tout
       /\ (0 < price_usd tin)%Q /\ (price_usd tin <= 95 # 10)%Q
       /\ (0 < price_usd tout)%Q /\ (price_usd tout <= 95 # 10)%Q.
Proof.
  simpl. intros H.
  repeat (destruct H as [H|H];
          [injection H as <- <- <-; split; [discriminate|];
           eexists _, _; repeat split; (reflexivity || discriminate)|]).
  destruct H.
Qed.

Lemma profile_ranges (p : user_profile) :
  In p USER_PROFILES ->
  (10 <= fst (amount_range p))%Q
  /\ (fst (amount_range p) < snd (amount_range p))%Q
  /\ (1 # 10 <= fst (slippage_tolerance p))%Q
  /\ (fst (slippage_tolerance p) < snd (slippage_tolerance p))%Q
  /\ (snd (slippage_tolerance p) <= 2)%Q
  /\ 15 <= fst (timeout p) /\ fst (timeout p) <= snd (timeout p)
  /\ snd (timeout p) <= 300.
Proof.
  simpl. intros H.
  repeat (destruct H as [H|H];
          [subst p; simpl; repeat split; (reflexivity || discriminate)|]).
  destruct H.
Qed.

Lemma uniform_range (a b u : Q) :
  (a < b)%Q -> unit_draw u -> (a <= uniform a b u)%Q /\ (uniform a b u < b)%Q.
Proof. unfold uniform, unit_draw. intros Hab [H0 H1]. split; nra. Qed.

Lemma deviation_factor (dev u : Q) :
  (- (1) < dev)%Q -> (dev < 1)%Q -> unit_draw u ->
  (0 < 1 + dev * uniform (- (1)) 1 u)%Q.
Proof. unfold uniform, unit_draw. intros H1 H2 [H3 H4]. nra. Qed.

Lemma choice_in_range {A : Type} (seq : list A) (r : Z) :
  0 <= r < len seq -> exists x, choice seq r = Ok x /\ In x seq.
Proof.
  intros Hr. destruct (py_getitem_in_range seq r Hr) as (x & Hx & Hn).
  exists x. split; [exact Hx | eapply nth_error_In, Hn].
Qed.

Ltac bind_step H :=
  rewrite H; unfold mbind at 1, result_bind at 1; cbv beta iota.

Section IntentFacts.

Variable isoformat : Q -> string.

(** What [generate_intent] returns on draws the random library can make and
    a price deviation between -1 and 1. *)
Lemma generate_intent_result (timestamp : option Q) (dev : Q) (d : draws) :
  valid_draws d -> (- (1) < dev)%Q -> (dev < 1)%Q ->
  exists a b w p tin tout digits mf st mh usd pin pout,
    select_trading_pair (pair_draw d) = Ok (a, b)
    /\ In (a, b, w) TRADING_PAIRS
    /\ select_user_profile (profile_draw d) = Ok p /\ In p USER_PROFILES
    /\ token_lookup TOKENS a = Ok tin /\ token_lookup TOKENS b = Ok tout
    /\ length digits = 38%nat
    /\ In mf [50; 75; 80; 90; 100]
    /\ In st ["eager"; "all_or_nothing"; "price_based"] /\ In mh [2; 3; 4]
    /\ usd = uniform (fst (amount_range p)) (snd (amount_range p)) (usd_draw d)
    /\ pin = (price_usd tin
              * (1 + dev * uniform (- (1)) 1 (input_deviation_draw d)))%Q
    /\ pout = (price_usd tout
               * (1 + dev * uniform (- (1)) 1 (output_deviation_draw d)))%Q
    /\ (0 < pin)%Q /\ (0 < pout)%Q
    /\ generate_intent isoformat timestamp dev d
       = Ok (VDict
          [("id", VStr (String.append "intent_" (uuid4 d)));
           ("user_address",
            VStr (String.append "cosmos1" (join_chars digits)));
           ("input", VDict [("chain_id", VStr (chain tin));
                            ("denom", VStr a);
                            ("amount", VInt (py_int (usd / pin * 1000000)))]);
           ("output",
            VDict [("chain_id", VStr (chain tout));
                   ("denom", VStr b);
                   ("min_amount",
                    VInt (py_int
                      (py_float (py_int (usd / pout * 1000000))
                       * (1 - uniform (fst (slippage_tolerance p))
                                      (snd (slippage_tolerance p))
                                      (slippage_draw d) / 100))))]);
           ("fill_config",
            VDict [("allow_partial",
                    VBool (if Qlt_le_dec (3 # 10) (allow_partial_draw d)
                           then true else false));
                   ("min_fill_percent", VInt mf);
                   ("strategy", VStr st)]);
           ("constraints",
            VDict [("max_hops", VInt mh);
                   ("allowed_venues", VList []);
                   ("excluded_venues", VList []);
                   ("max_slippage_bps",
                    VInt (py_int
                      (uniform (fst (slippage_tolerance p))
                               (snd (slippage_tolerance p))
                               (slippage_draw d) / 100 * 10000)))]);
           ("timeout_seconds", VInt (fst (timeout p) + timeout_draw d));
           ("created_at",
            VStr (String.append
                    (isoformat match timestamp with
                               | Some ts => ts
                               | None => utcnow d
                               end) "Z"));
           ("metadata",
            VDict [("profile", VStr (name p));
                   ("usd_value", VFloat (py_round2 usd));
                   ("expected_output",
                    VInt (py_int (usd / pout * 1000000)))])]).
Proof.
  intros (Hu1 & Hu2 & Hu3 & Hu4 & Hu5 & Hu6 & Hu7 & Hlen & Haddr & Htime
          & Hmf & Hst & Hmh) Hd1 Hd2.
  destruct (pair_is_chosen (pair_draw d)) as ([a b] & Hpair & [w Hin]).
  destruct (profile_is_chosen (profile_draw d)) as (p & Hprof & Hp).
  destruct (pair_tokens a b w Hin)
    as (_ & tin & tout & Htin & Htout & Hpi & _ & Hpo & _).
  destruct (profile_ranges p Hp) as (_ & _ & _ & _ & _ & Ht1 & Ht2 & _).
  destruct (address_digits (address_draws d) Hlen Haddr)
    as (digits & Hdig & Hdl & _).
  destruct (choice_in_range [50; 75; 80; 90; 100] (min_fill_draw d) Hmf)
    as (mf & Hmf1 & Hmf2).
  destruct (choice_in_range ["eager"; "all_or_nothing"; "price_based"]
              (strategy_draw d) Hst) as (st & Hst1 & Hst2).
  destruct (choice_in_range [2; 3; 4] (max_hops_draw d) Hmh)
    as (mh & Hmh1 & Hmh2).
  pose proof (deviation_factor dev _ Hd1 Hd2 Hu4) as Hf1.
  pose proof (deviation_factor dev _ Hd1 Hd2 Hu5) as Hf2.
  set (pin := (price_usd tin
               * (1 + dev * uniform (- (1)) 1 (input_deviation_draw d)))%Q).
  set (pout := (price_usd tout
                * (1 + dev * uniform (- (1)) 1 (output_deviation_draw d)))%Q).
  assert (0 < pin)%Q as Hpin by (unfold pin; nra).
  assert (0 < pout)%Q as Hpout by (unfold pout; nra).
  exists a, b, w, p, tin, tout, digits, mf, st, mh,
    (uniform (fst (amount_range p)) (snd (amount_range p)) (usd_draw d)),
    pin, pout.
  repeat (split; [first [eassumption | reflexivity]|]).
  unfold generate_intent. cbv zeta.
  bind_step Hpair. bind_step Hprof. bind_step Htin. bind_step Htout.
  fold pin pout.
  rewrite (py_truediv_nonzero _ pin) by (intros H; rewrite H in Hpin; discriminate).
  unfold mbind at 1, result_bind at 1; cbv beta iota.
  rewrite (py_truediv_nonzero _ pout) by (intros H; rewrite H in Hpout; discriminate).
  unfold mbind at 1, result_bind at 1; cbv beta iota.
  unfold randint.
  destruct (snd (timeout p) + 1 - fst (timeout p) <=? 0) eqn:E;
    [apply Z.leb_le in E; lia|].
  unfold mbind at 1, result_bind at 1; cbv beta iota.
  bind_step Hdig. bind_step Hmf1. bind_step Hst1. bind_step Hmh1.
  reflexivity.
Qed.

Lemma py_int_nonneg (x : Q) : (0 <= x)%Q -> 0 <= py_int x.
Proof.
  intros H. rewrite (py_int_floor x H). change 0 with (Qfloor 0).
  apply Qfloor_resp_le, H.
Qed.

Lemma py_int_mono (x y : Q) : (0 <= x)%Q -> (x <= y)%Q -> py_int x <= py_int y.
Proof.
  intros Hx Hxy. rewrite !py_int_floor; [apply Qfloor_resp_le, Hxy | | exact Hx].
  eapply Qle_trans; eassumption.
Qed.

Lemma py_int_below (x : Q) (n : Z) :
  (0 <= x)%Q -> (x < inject_Z n)%Q -> py_int x < n.
Proof.
  intros Hx Hn. rewrite (py_int_floor x Hx). apply inject_Z_lt_iff.
  eapply Qle_lt_trans; [apply Qfloor_le | exact Hn].
Qed.

Lemma py_truediv_by_zero (a b : Q) :
  (b == 0)%Q ->
  py_truediv a b
  = raise_cls ZeroDivisionError "ZeroDivisionError" "division by zero".
Proof.
  intros H. unfold py_truediv. apply Qeq_bool_iff in H. rewrite H. reflexivity.
Qed.

Lemma py_int_scaled_down (n : Z) (f : Q) :
  0 <= n -> (0 <= f)%Q -> (f <= 1)%Q -> 0 <= py_int (py_float n * f) <= n.
Proof.
  intros Hn Hf0 Hf1.
  assert (0 <= py_float n)%Q as Hn'
    by (change 0%Q with (inject_Z 0); apply inject_Z_le_iff, Hn).
  assert (0 <= py_float n * f)%Q as Hm
    by (apply Qmult_le_0_compat; assumption).
  split; [apply py_int_nonneg, Hm|].
  replace n with (py_int (py_float n)) at 2
    by (unfold py_int, py_float, inject_Z; simpl; apply Z.quot_1_r).
  apply py_int_mono; [exact Hm|].
  rewrite <- (Qmult_1_r (py_float n)) at 2.
  rewrite !(Qmult_comm (py_float n)).
  apply Qmult_le_compat_r; assumption.
Qed.

(** X21: on draws the random library can make and a price deviation between -1
    and 1, [generate_intent] raises nothing and returns a dictionary with
    its nine keys in the order of the source. *)
Theorem intent_keys (timestamp : option Q) (dev : Q) (d : draws) :
  valid_draws d -> (- (1) < dev)%Q -> (dev < 1)%Q ->
  exists intent,
    generate_intent isoformat timestamp dev d = Ok intent
    /\ keys intent
       = ["id"; "user_address"; "input"; "output"; "fill_config";
          "constraints"; "timeout_seconds"; "created_at"; "metadata"]
    /\ (exists v, getitem intent "input" = Ok v
                  /\ keys v = ["chain_id"; "denom"; "amount"])
    /\ (exists v, getitem intent "output" = Ok v
                  /\ keys v = ["chain_id"; "denom"; "min_amount"])
    /\ getitem intent "created_at"
       = Ok (VStr (String.append
                     (isoformat match timestamp with
                                | Some ts => ts
                                | None => utcnow d
                                end) "Z")).
Proof.
  intros Hv Hd1 Hd2.
  destruct (generate_intent_result timestamp dev d Hv Hd1 Hd2)
    as (a & b & w & p & tin & tout & digits & mf & st & mh & usd & pin & pout
        & _ & _ & _ & _ & _ & _ & _ & _ & _ & _ & _ & _ & _ & _ & _ & Hgen).
  eexists. split; [exact Hgen|]. split; [reflexivity|].
  split; [eexists; split; reflexivity|].
  split; [eexists; split; reflexivity | reflexivity].
Qed.

(** With a price deviation of 1 and the least deviation draw, the price of
    the input token is 0 and [generate_intent] divides by zero. *)
Lemma full_deviation_divides_by_zero (timestamp : option Q) (d : draws) :
  input_deviation_draw d = 0%Q ->
  exists e, generate_intent isoformat timestamp 1 d = Raise e
            /\ exn_cls e = ZeroDivisionError.
Proof.
  intros H0.
  destruct (pair_is_chosen (pair_draw d)) as ([a b] & Hpair & [w Hin]).
  destruct (profile_is_chosen (profile_draw d)) as (p & Hprof & Hp).
  destruct (pair_tokens a b w Hin)
    as (_ & tin & tout & Htin & Htout & _).
  unfold generate_intent. cbv zeta.
  bind_step Hpair. bind_step Hprof. bind_step Htin. bind_step Htout.
  rewrite H0.
  rewrite (py_truediv_by_zero _ (price_usd tin * (1 + 1 * uniform (- (1)) 1 0)))
    by (unfold uniform; ring).
  eexists. split; reflexivity.
Qed.

(** X22: the tokens of an intent: its input and output denominations differ, and
    the chain of each side is the chain of its denomination in [TOKENS]. *)
Theorem intent_tokens (timestamp : option Q) (dev : Q) (d : draws) :
  valid_draws d -> (- (1) < dev)%Q -> (dev < 1)%Q ->
  exists intent a b tin tout,
    generate_intent isoformat timestamp dev d = Ok intent
    /\ getitem2 intent "input" "denom" = Ok (VStr a)
    /\ getitem2 intent "output" "denom" = Ok (VStr b)
    /\ a <> b
    /\ token_lookup TOKENS a = Ok tin /\ token_lookup TOKENS b = Ok tout
    /\ getitem2 intent "input" "chain_id" = Ok (VStr (chain tin))
    /\ getitem2 intent "output" "chain_id" = Ok (VStr (chain tout)).
Proof.
  intros Hv Hd1 Hd2.
  destruct (generate_intent_result timestamp dev d Hv Hd1 Hd2)
    as (a & b & w & p & tin & tout & digits & mf & st & mh & usd & pin & pout
        & _ & Hin & _ & _ & Htin & Htout & _ & _ & _ & _ & _ & _ & _ & _ & _
        & Hgen).
  destruct (pair_tokens a b w Hin) as (Hab & _).
  eexists _, a, b, tin, tout. split; [exact Hgen|].
  repeat split; (reflexivity || assumption).
Qed.

(** X23: the numbers of an intent: the input amount is not negative, the least
    output asked for is between 0 and the expected output, the slippage is
    between 10 and 199 basis points, and the timeout between 15 and 300
    seconds. *)
Theorem intent_amounts (timestamp : option Q) (dev : Q) (d : draws) :
  valid_draws d -> (- (1) < dev)%Q -> (dev < 1)%Q ->
  exists intent amount min_amount expected bps seconds,
    generate_intent isoformat timestamp dev d = Ok intent
    /\ getitem2 intent "input" "amount" = Ok (VInt amount)
    /\ getitem2 intent "output" "min_amount" = Ok (VInt min_amount)
    /\ getitem2 intent "metadata" "expected_output" = Ok (VInt expected)
    /\ getitem2 intent "constraints" "max_slippage_bps" = Ok (VInt bps)
    /\ getitem intent "timeout_seconds" = Ok (VInt seconds)
    /\ 0 <= amount /\ 0 <= min_amount <= expected
    /\ 10 <= bps <= 199 /\ 15 <= seconds <= 300.
Proof.
  intros Hv Hd1 Hd2.
  destruct (generate_intent_result timestamp dev d Hv Hd1 Hd2)
    as (a & b & w & p & tin & tout & digits & mf & st & mh & usd & pin & pout
        & _ & _ & Hprof & Hp & _ & _ & _ & _ & _ & _ & Husd & _ & _ & Hpin
        & Hpout & Hgen).
  destruct Hv as (_ & _ & Hu3 & _ & _ & Hu6 & _ & _ & _ & Htime & _).
  destruct (profile_ranges p Hp) as (Ha1 & Ha2 & Hs1 & Hs2 & Hs3 & Ht1 & Ht2 & Ht3).
  destruct (uniform_range _ _ _ Ha2 Hu3) as [Husd1 _]. rewrite <- Husd in Husd1.
  destruct (uniform_range _ _ _ Hs2 Hu6) as [Hslip1 Hslip2].
  set (slip := uniform (fst (slippage_tolerance p))
                       (snd (slippage_tolerance p)) (slippage_draw d)) in *.
  specialize (Htime p Hprof).
  assert (0 <= 1 - slip / 100 /\ 1 - slip / 100 <= 1
          /\ 10 <= slip / 100 * 10000 /\ slip / 100 * 10000 < 200)%Q
    as (Hk1 & Hk2 & Hk3 & Hk4)
    by (clear - Hs1 Hs3 Hslip1 Hslip2;
        assert (slip / 100 == slip * (1 # 100))%Q as -> by reflexivity;
        repeat split; lra).
  assert (0 <= usd)%Q as Husd0 by (clear - Ha1 Husd1; lra).
  assert (0 <= usd / pin * 1000000)%Q as Hin0.
  { apply Qmult_le_0_compat; [|discriminate].
    apply Qle_shift_div_l; [exact Hpin|]. rewrite Qmult_0_l. exact Husd0. }
  assert (0 <= usd / pout * 1000000)%Q as Hout0.
  { apply Qmult_le_0_compat; [|discriminate].
    apply Qle_shift_div_l; [exact Hpout|]. rewrite Qmult_0_l. exact Husd0. }
  pose proof (py_int_nonneg _ Hout0) as He0.
  set (expected := py_int (usd / pout * 1000000)) in *.
  assert (0 <= py_float expected)%Q as He0'
    by (change 0%Q with (inject_Z 0); apply inject_Z_le_iff, He0).
  clearbody slip expected.
  eexists _, _, _, _, _, _. split; [exact Hgen|].
  repeat (split; [reflexivity|]).
  split; [apply py_int_nonneg, Hin0|]. split; [|split]; split.
  - apply py_int_nonneg. apply Qmult_le_0_compat; assumption.
  - replace expected with (py_int (py_float expected)) at 2
      by (unfold py_int, py_float, inject_Z; simpl; apply Z.quot_1_r).
    assert (0 <= py_float expected * (1 - slip / 100))%Q as Hm0
      by (apply Qmult_le_0_compat; assumption).
    apply py_int_mono; [exact Hm0|].
    rewrite <- (Qmult_1_r (py_float expected)) at 2.
    rewrite !(Qmult_comm (py_float expected)).
    apply Qmult_le_compat_r; assumption.
  - change 10 with (py_int 10). apply py_int_mono; [discriminate | exact Hk3].
  - assert (py_int (slip / 100 * 10000) < 200); [|lia].
    apply py_int_below; [|exact Hk4].
    eapply Qle_trans; [|exact Hk3]. discriminate.
  - lia.
  - lia.
Qed.

(** X24: the payload of a worker: the three deletions find their keys, and the
    payload keeps the six other keys of the intent, in their order and with
    their values. *)
Theorem worker_payload_keys (d : draws) :
  valid_draws d ->
  exists intent payload,
    generate_intent isoformat None 0 d = Ok intent
    /\ worker_payload intent = Ok payload
    /\ keys payload
       = ["user_address"; "input"; "output"; "fill_config"; "constraints";
          "timeout_seconds"]
    /\ forall k, In k (keys payload) -> getitem payload k = getitem intent k.
Proof.
  intros Hv.
  destruct (generate_intent_result None 0 d Hv ltac:(reflexivity)
              ltac:(reflexivity))
    as (a & b & w & p & tin & tout & digits & mf & st & mh & usd & pin & pout
        & _ & _ & _ & _ & _ & _ & _ & _ & _ & _ & _ & _ & _ & _ & _ & Hgen).
  eexists _, _. split; [exact Hgen|]. split; [reflexivity|].
  split; [reflexivity|].
  intros k Hk. simpl in Hk.
  repeat (destruct Hk as [<-|Hk]; [reflexivity|]). destruct Hk.
Qed.

(** A dictionary without one of the three keys makes the worker raise. *)
Lemma worker_payload_needs_its_keys :
  exists e, worker_payload (VDict [("id", VStr "intent_1")]) = Raise e
            /\ exn_type_name e = "KeyError" /\ exn_str e = "metadata".
Proof. eexists. repeat split. Qed.

(** X25: the two intents of [generate_matching_pair] are opposed: the input
    token and chain of the second are the output token and chain of the
    first, and the other way round; the second asks for no more than the
    first offers. *)
Theorem matching_pair_is_opposed (p : pair_draws) :
  valid_draws (first_draws p) -> valid_draws (second_draws p) ->
  unit_draw (input_factor_draw p) -> unit_draw (output_factor_draw p) ->
  exists intent1 intent2 a b ca cb amount1 min1 amount2 min2,
    generate_matching_pair isoformat p = Ok (intent1, intent2)
    /\ keys intent2 = keys intent1
    /\ getitem2 intent1 "input" "denom" = Ok (VStr a)
    /\ getitem2 intent1 "output" "denom" = Ok (VStr b)
    /\ getitem2 intent2 "input" "denom" = Ok (VStr b)
    /\ getitem2 intent2 "output" "denom" = Ok (VStr a)
    /\ a <> b
    /\ getitem2 intent1 "input" "chain_id" = Ok (VStr ca)
    /\ getitem2 intent1 "output" "chain_id" = Ok (VStr cb)
    /\ getitem2 intent2 "input" "chain_id" = Ok (VStr cb)
    /\ getitem2 intent2 "output" "chain_id" = Ok (VStr ca)
    /\ getitem2 intent1 "input" "amount" = Ok (VInt amount1)
    /\ getitem2 intent1 "output" "min_amount" = Ok (VInt min1)
    /\ getitem2 intent2 "input" "amount" = Ok (VInt amount2)
    /\ getitem2 intent2 "output" "min_amount" = Ok (VInt min2)
    /\ amount2 = py_int (py_float min1
                         * uniform (9 # 10) (11 # 10) (input_factor_draw p))
    /\ 0 <= min2 <= amount1
    /\ getitem intent2 "created_at" = getitem intent1 "created_at".
Proof.
  intros Hv1 Hv2 Hu1 Hu2.
  destruct (generate_intent_result (Some (pair_utcnow p)) 0 (first_draws p) Hv1
              ltac:(reflexivity) ltac:(reflexivity))
    as (a & b & w & p1 & tin & tout & digits & mf & st & mh & usd & pin & pout
        & _ & Hin & _ & Hp & _ & _ & _ & _ & _ & _ & Husd & _ & _ & Hpin & _
        & Hgen1).
  destruct (generate_intent_result (Some (pair_utcnow p)) 0 (second_draws p)
              Hv2 ltac:(reflexivity) ltac:(reflexivity))
    as (a' & b' & w' & p2 & tin' & tout' & digits' & mf' & st' & mh' & usd'
        & pin' & pout'
        & _ & _ & _ & _ & _ & _ & _ & _ & _ & _ & _ & _ & _ & _ & _ & Hgen2).
  destruct (pair_tokens a b w Hin) as (Hab & _).
  destruct (profile_ranges p1 Hp) as (Ha1 & Ha2 & _).
  destruct Hv1 as (_ & _ & Hu3 & _).
  destruct (uniform_range _ _ _ Ha2 Hu3) as [Husd1 _]. rewrite <- Husd in Husd1.
  assert (0 <= usd)%Q as Husd0 by (clear - Ha1 Husd1; lra).
  assert (0 <= usd / pin * 1000000)%Q as Hin0.
  { apply Qmult_le_0_compat; [|discriminate].
    apply Qle_shift_div_l; [exact Hpin|]. rewrite Qmult_0_l. exact Husd0. }
  pose proof (py_int_nonneg _ Hin0) as Ham0.
  destruct (uniform_range (85 # 100) (95 # 100) _ ltac:(reflexivity) Hu2)
    as [Hf1 Hf2].
  unfold generate_matching_pair. cbv zeta.
  bind_step Hgen1. bind_step Hgen2.
  eexists _, _, a, b, _, _, _, _, _, _. split; [reflexivity|].
  repeat (split; [reflexivity || assumption|]).
  split; [|reflexivity].
  apply py_int_scaled_down; [exact Ham0| |].
  - eapply Qle_trans; [|exact Hf1]. discriminate.
  - apply Qlt_le_weak. eapply Qlt_le_trans; [exact Hf2|]. discriminate.
Qed.

(** ** Batches *)

Lemma lookup_store (d : list (string * value)) (k : string) (v : value) :
  lookup (store d k v) k = Some v.
Proof.
  induction d as [|[k' v'] d IH]; simpl.
  - rewrite String.eqb_refl. reflexivity.
  - destruct (String.eqb k' k) eqn:E; simpl.
    + rewrite String.eqb_refl. reflexivity.
    + rewrite E. exact IH.
Qed.

Lemma created_at_store (d : list (string * value)) (s : string) :
  exists x, setitem (VDict d) "created_at" (VStr s) = Ok x
            /\ created_at x = Ok s.
Proof.
  eexists. split; [reflexivity|].
  unfold created_at, getitem. rewrite lookup_store. reflexivity.
Qed.

Lemma generate_intent_dict (timestamp : option Q) (d : draws) :
  valid_draws d ->
  exists x s, generate_intent isoformat timestamp 0 d = Ok x
              /\ created_at x = Ok s.
Proof.
  intros Hv.
  destruct (generate_intent_result timestamp 0 d Hv ltac:(reflexivity)
              ltac:(reflexivity))
    as (a & b & w & p & tin & tout & digits & mf & st & mh & usd & pin & pout
        & _ & _ & _ & _ & _ & _ & _ & _ & _ & _ & _ & _ & _ & _ & _ & Hgen).
  eexists _, _. split; [exact Hgen | reflexivity].
Qed.

Lemma matching_pair_dicts (p : pair_draws) :
  valid_draws (first_draws p) -> valid_draws (second_draws p) ->
  exists d1 d2, generate_matching_pair isoformat p = Ok (VDict d1, VDict d2).
Proof.
  intros Hv1 Hv2.
  destruct (generate_intent_result (Some (pair_utcnow p)) 0 (first_draws p) Hv1
              ltac:(reflexivity) ltac:(reflexivity))
    as (a & b & w & p1 & tin & tout & digits & mf & st & mh & usd & pin & pout
        & _ & _ & _ & _ & _ & _ & _ & _ & _ & _ & _ & _ & _ & _ & _ & Hgen1).
  destruct (generate_intent_result (Some (pair_utcnow p)) 0 (second_draws p)
              Hv2 ltac:(reflexivity) ltac:(reflexivity))
    as (a' & b' & w' & p2 & tin' & tout' & digits' & mf' & st' & mh' & usd'
        & pin' & pout'
        & _ & _ & _ & _ & _ & _ & _ & _ & _ & _ & _ & _ & _ & _ & _ & Hgen2).
  unfold generate_matching_pair. cbv zeta.
  bind_step Hgen1. bind_step Hgen2.
  eexists _, _. reflexivity.
Qed.

Lemma timedelta_in_range (seconds : Q) :
  (- (86399999913600) <= seconds)%Q -> (seconds < 86400000000000)%Q ->
  timedelta seconds = Ok seconds.
Proof.
  intros H1 H2. unfold timedelta.
  rewrite (proj2 (Qle_bool_iff _ _) H1).
  destruct (Qle_bool 86400000000000 seconds) eqn:E; [|reflexivity].
  apply Qle_bool_iff in E. exfalso. apply (Qlt_not_le _ _ H2 E).
Qed.

Lemma datetime_add_in_range (d delta : Q) :
  (datetime_min <= d + delta)%Q -> (d + delta < datetime_end)%Q ->
  datetime_add d delta = Ok (d + delta)%Q.
Proof.
  intros H1 H2. unfold datetime_add. cbv zeta.
  rewrite (proj2 (Qle_bool_iff _ _) H1).
  destruct (Qle_bool datetime_end (d + delta)) eqn:E; [|reflexivity].
  apply Qle_bool_iff in E. exfalso. apply (Qlt_not_le _ _ H2 E).
Qed.

(** A draw of [uniform] is between its two ends, whatever their order. *)
Lemma uniform_between (a b u : Q) :
  unit_draw u ->
  ((a <= b)%Q -> (a <= uniform a b u)%Q /\ (uniform a b u <= b)%Q)
  /\ ((b <= a)%Q -> (b <= uniform a b u)%Q /\ (uniform a b u <= a)%Q).
Proof. unfold uniform, unit_draw. intros [H0 H1]. split; intros H; split; nra. Qed.

Lemma span_bounds (start : Q) (span : Z) :
  span_in_range start span ->
  (- (315537897600) <= inject_Z span)%Q /\ (inject_Z span <= 315537897600)%Q.
Proof.
  unfold span_in_range, datetime_min, datetime_end.
  intros (H1 & H2 & H3 & H4). split; lra.
Qed.

Lemma span_converts (start : Q) (span : Z) :
  span_in_range start span -> float_of_int span = Ok (py_float span).
Proof.
  intros H. destruct (span_bounds start span H) as [H1 H2].
  apply float_of_int_converts. unfold converts_to_float.
  change (- (315537897600))%Q with (inject_Z (- 315537897600)) in H1.
  change 315537897600%Q with (inject_Z 315537897600) in H2.
  pose proof (proj1 (inject_Z_le_iff _ _) H1) as H1'.
  pose proof (proj1 (inject_Z_le_iff _ _) H2) as H2'.
  assert (315537897600 < 2 ^ 1024 - 2 ^ 970) as Hbig by reflexivity.
  apply Z.le_lt_trans with 315537897600; [|exact Hbig].
  apply Z.abs_le. split; lia.
Qed.

(** The timestamp of a turn of [generate_batch]: in range, it is the start
    moved by the offset drawn. *)
Lemma offset_timestamp (start : Q) (span : Z) (u : Q) :
  span_in_range start span -> unit_draw u ->
  timedelta (uniform 0 (py_float span) u)
  = Ok (uniform 0 (py_float span) u)
  /\ datetime_add start (uniform 0 (py_float span) u)
     = Ok (start + uniform 0 (py_float span) u)%Q
  /\ (datetime_min + 1 <= start + uniform 0 (py_float span) u)%Q
  /\ (start + uniform 0 (py_float span) u + 6 <= datetime_end)%Q.
Proof.
  intros Hin Hu. destruct (span_bounds start span Hin) as [Hb1 Hb2].
  destruct (uniform_between 0 (py_float span) u Hu) as [Hup Hdown].
  unfold py_float in *.
  set (x := uniform 0 (inject_Z span) u) in *.
  destruct Hin as (H1 & H2 & H3 & H4).
  unfold datetime_min, datetime_end in *.
  assert ((0 <= x)%Q /\ (x <= inject_Z span)%Q
          \/ (inject_Z span <= x)%Q /\ (x <= 0)%Q) as Hx.
  { destruct (Qlt_le_dec (inject_Z span) 0) as [Hneg|Hpos].
    - right. apply Hdown, Qlt_le_weak, Hneg.
    - left. apply Hup, Hpos. }
  clearbody x.
  assert (datetime_min + 1 <= start + x)%Q as Hlo
    by (unfold datetime_min; destruct Hx as [[? ?]|[? ?]]; lra).
  assert (start + x + 6 <= datetime_end)%Q as Hhi
    by (unfold datetime_end; destruct Hx as [[? ?]|[? ?]]; lra).
  split; [|split; [|split; assumption]].
  - apply timedelta_in_range; destruct Hx as [[? ?]|[? ?]]; lra.
  - apply datetime_add_in_range;
      unfold datetime_min, datetime_end in *; lra.
Qed.

Lemma delay_timestamp (timestamp u : Q) :
  (datetime_min + 1 <= timestamp)%Q -> (timestamp + 6 <= datetime_end)%Q ->
  unit_draw u ->
  timedelta (uniform 0 5 u) = Ok (uniform 0 5 u)
  /\ datetime_add timestamp (uniform 0 5 u)
     = Ok (timestamp + uniform 0 5 u)%Q.
Proof.
  intros H1 H2 Hu.
  destruct (proj1 (uniform_between 0 5 u Hu) ltac:(discriminate)) as [H3 H4].
  set (x := uniform 0 5 u) in *. clearbody x.
  unfold datetime_min, datetime_end in *. split.
  - apply timedelta_in_range; lra.
  - apply datetime_add_in_range; unfold datetime_min, datetime_end; lra.
Qed.

Lemma matching_loop_spec (start : Q) (span : Z) (turns : list matched_turn) :
  span_in_range start span ->
  Forall valid_matched_turn turns ->
  forall intents,
  exists out,
    matching_loop isoformat start span turns intents = Ok (intents ++ out)
    /\ len out = 2 * len turns /\ Forall has_key out.
Proof.
  intros Hin.
  induction 1 as [|turn turns (Hu & Hv1 & Hv2 & _ & _ & Hd) _ IH];
    intros intents.
  - exists []. rewrite app_nil_r. repeat split; constructor.
  - destruct (matching_pair_dicts _ Hv1 Hv2) as (d1 & d2 & Hpair).
    destruct (offset_timestamp start span _ Hin Hu)
      as (Hdelta & Hstamp & Hlo & Hhi).
    destruct (delay_timestamp _ _ Hlo Hhi Hd) as (Hdelay & Hlater).
    simpl matching_loop. cbv zeta.
    bind_step (span_converts start span Hin).
    bind_step Hdelta. bind_step Hstamp. bind_step Hpair.
    set (s1 := String.append
                 (isoformat (start + uniform 0 (py_float span)
                                             (matched_offset_draw turn))) "Z").
    destruct (created_at_store d1 s1) as (x1 & Hx1 & Hk1).
    bind_step Hx1. bind_step Hdelay. bind_step Hlater.
    set (s2 := String.append
                 (isoformat (start + uniform 0 (py_float span)
                                             (matched_offset_draw turn)
                             + uniform 0 5 (matched_delay_draw turn))) "Z").
    destruct (created_at_store d2 s2) as (x2 & Hx2 & Hk2).
    bind_step Hx2.
    destruct (IH (intents ++ [x1; x2])) as (out & Hout & Hlen & Hkeys).
    exists (x1 :: x2 :: out). rewrite Hout, <- app_assoc.
    split; [reflexivity|]. split.
    + unfold len in *. simpl length. lia.
    + repeat constructor; [exists s1 | exists s2 |]; assumption.
Qed.

Lemma remaining_loop_spec (start : Q) (span : Z) (turns : list single_turn) :
  span_in_range start span ->
  Forall valid_single_turn turns ->
  forall intents,
  exists out,
    remaining_loop isoformat start span turns intents = Ok (intents ++ out)
    /\ len out = len turns /\ Forall has_key out.
Proof.
  intros Hin.
  induction 1 as [|turn turns (Hu & Hv) _ IH]; intros intents.
  - exists []. rewrite app_nil_r. repeat split; constructor.
  - destruct (offset_timestamp start span _ Hin Hu)
      as (Hdelta & Hstamp & _ & _).
    destruct (generate_intent_dict
                (Some (start + uniform 0 (py_float span)
                                       (single_offset_draw turn))%Q)
                _ Hv) as (x & s & Hx & Hk).
    simpl remaining_loop. cbv zeta.
    bind_step (span_converts start span Hin).
    bind_step Hdelta. bind_step Hstamp. bind_step Hx.
    destruct (IH (intents ++ [x])) as (out & Hout & Hlen & Hkeys).
    exists (x :: out). rewrite Hout, <- app_assoc.
    split; [reflexivity|]. split.
    + unfold len in *. simpl length. lia.
    + constructor; [exists s; exact Hk | exact Hkeys].
Qed.

Lemma keyed_spec (xs : list value) :
  Forall has_key xs ->
  exists ks, keyed xs = Ok ks /\ map snd ks = xs
             /\ Forall (fun kx => created_at (snd kx) = Ok (fst kx)) ks.
Proof.
  induction 1 as [|x xs [s Hs] _ (ks & Hks & Hmap & Hall)].
  - exists []. repeat split; constructor.
  - exists ((s, x) :: ks). simpl keyed. bind_step Hs. bind_step Hks.
    split; [reflexivity|]. split; [simpl; congruence|].
    constructor; assumption.
Qed.

Lemma keyed_of_pairs (ks : list (string * value)) :
  Forall (fun kx => created_at (snd kx) = Ok (fst kx)) ks ->
  keyed (map snd ks) = Ok ks.
Proof.
  induction 1 as [|[k x] ks Hk _ IH]; [reflexivity|].
  simpl map. simpl keyed. simpl in Hk. bind_step Hk. bind_step IH.
  reflexivity.
Qed.

Lemma insert_keyed_perm (kx : string * value) (l : list (string * value)) :
  Permutation (insert_keyed kx l) (kx :: l).
Proof.
  induction l as [|ky l IH]; simpl; [apply Permutation_refl|].
  destruct (String.ltb (fst ky) (fst kx)); [|apply Permutation_refl].
  eapply perm_trans; [apply perm_skip, IH | apply perm_swap].
Qed.

Lemma sort_keyed_perm (l : list (string * value)) :
  Permutation (sort_keyed l) l.
Proof.
  induction l as [|kx l IH]; simpl; [apply perm_nil|].
  eapply perm_trans; [apply insert_keyed_perm | apply perm_skip, IH].
Qed.

Lemma ltb_leb (a b : string) : String.ltb a b = true -> String.leb a b = true.
Proof.
  unfold String.ltb, String.leb. destruct (String.compare a b); congruence.
Qed.

Lemma not_ltb_leb (a b : string) :
  String.ltb b a = false -> String.leb a b = true.
Proof.
  unfold String.ltb, String.leb. rewrite (String.compare_antisym a b).
  destruct (String.compare b a); simpl; congruence.
Qed.

Lemma insert_keyed_sorted (kx : string * value) (l : list (string * value)) :
  Sorted (fun a b => String.leb (fst a) (fst b) = true) l ->
  Sorted (fun a b => String.leb (fst a) (fst b) = true) (insert_keyed kx l).
Proof.
  induction 1 as [|ky l Hl IH Hhd]; simpl.
  - repeat constructor.
  - destruct (String.ltb (fst ky) (fst kx)) eqn:E.
    + constructor; [exact IH|].
      destruct l as [|kz l]; simpl.
      * constructor. apply ltb_leb, E.
      * destruct (String.ltb (fst kz) (fst kx)).
        -- constructor. inversion Hhd; assumption.
        -- constructor. apply ltb_leb, E.
    + constructor; [constructor; assumption|].
      constructor. apply not_ltb_leb, E.
Qed.

Lemma sort_keyed_sorted (l : list (string * value)) :
  Sorted (fun a b => String.leb (fst a) (fst b) = true) (sort_keyed l).
Proof.
  induction l as [|kx l IH]; simpl; [constructor|].
  apply insert_keyed_sorted, IH.
Qed.

Lemma sorted_map_fst (l : list (string * value)) :
  Sorted (fun a b => String.leb (fst a) (fst b) = true) l ->
  Sorted (fun a b => String.leb a b = true) (map fst l).
Proof.
  induction 1 as [|kx l _ IH Hhd]; simpl; [constructor|].
  constructor; [exact IH|]. destruct Hhd; simpl; constructor; assumption.
Qed.

Lemma matching_count_bound (count : Z) (ratio : Q) :
  0 <= count -> (0 <= ratio)%Q -> (ratio <= 1)%Q ->
  0 <= 2 * py_int (py_float count * ratio / 2) <= count.
Proof.
  intros Hc Hr0 Hr1.
  assert (0 <= py_float count)%Q as Hc'
    by (change 0%Q with (inject_Z 0); apply inject_Z_le_iff, Hc).
  assert (py_float count * ratio / 2 == py_float count * ratio * (1 # 2))%Q
    as Hdiv by reflexivity.
  assert (0 <= py_float count * ratio)%Q as Hm
    by (apply Qmult_le_0_compat; assumption).
  assert (py_float count * ratio <= py_float count)%Q as Hm'.
  { rewrite <- (Qmult_1_r (py_float count)) at 2.
    rewrite !(Qmult_comm (py_float count)).
    apply Qmult_le_compat_r; assumption. }
  assert (0 <= py_float count * ratio / 2)%Q as H0
    by (rewrite Hdiv; clear - Hm; lra).
  pose proof (py_int_nonneg _ H0) as Hn.
  split; [lia|].
  assert (inject_Z (2 * py_int (py_float count * ratio / 2))
          <= inject_Z count)%Q as H;
    [|exact (proj1 (inject_Z_le_iff _ _) H)].
  rewrite inject_Z_mult. rewrite (py_int_floor _ H0).
  pose proof (Qfloor_le (py_float count * ratio / 2)) as Hf.
  rewrite Hdiv in Hf at 2. unfold py_float in *.
  change (inject_Z 2) with 2%Q.
  clear - Hf Hm'. lra.
Qed.

Lemma range_valid {A : Type} (f : nat -> A) (P : A -> Prop) (n : Z) :
  (forall i, P (f i)) -> Forall P (map f (range n)).
Proof.
  intros H. apply List.Forall_forall. intros x Hx. apply in_map_iff in Hx.
  destruct Hx as (i & <- & _). apply H.
Qed.

Lemma range_len (n : Z) : len (range n) = Z.max 0 n.
Proof. unfold len, range. rewrite length_seq. lia. Qed.

(** What [generate_batch] returns on draws the random library can make, for
    a count in the range of a float and timestamps in the range of dates. *)
Lemma generate_batch_result (count : Z) (ratio : Q) (span : Z) (start : Q)
    (matched : nat -> matched_turn) (singles : nat -> single_turn) :
  converts_to_float count ->
  span_in_range start span ->
  (forall i, valid_matched_turn (matched i)) ->
  (forall i, valid_single_turn (singles i)) ->
  exists ks,
    generate_batch isoformat count ratio span start matched singles
    = Ok (map snd (sort_keyed ks))
    /\ len ks = Z.max count
                  (2 * Z.max 0 (py_int (py_float count * ratio / 2)))
    /\ Forall (fun kx => created_at (snd kx) = Ok (fst kx)) ks.
Proof.
  intros Hc Hin Hm Hs. unfold generate_batch.
  bind_step (float_of_int_converts count Hc). cbv zeta.
  set (mc := py_int (py_float count * ratio / 2)).
  destruct (matching_loop_spec start span (map matched (range mc)) Hin
              (range_valid matched _ mc Hm) [])
    as (out1 & Hout1 & Hlen1 & Hkeys1).
  simpl app in Hout1. bind_step Hout1.
  destruct (remaining_loop_spec start span
              (map singles (range (count - len out1))) Hin
              (range_valid singles _ _ Hs) out1)
    as (out2 & Hout2 & Hlen2 & Hkeys2).
  bind_step Hout2.
  destruct (keyed_spec (out1 ++ out2)) as (ks & Hks & Hmap & Hall).
  { apply Forall_app. split; assumption. }
  bind_step Hks. exists ks. split; [reflexivity|]. split; [|exact Hall].
  assert (len ks = len (out1 ++ out2)) as ->.
  { rewrite <- Hmap. unfold len. rewrite length_map. reflexivity. }
  rewrite len_app, Hlen1, Hlen2.
  assert (len (map matched (range mc)) = Z.max 0 mc) as ->
    by (unfold len; rewrite length_map; apply range_len).
  assert (len (map singles (range (count - len out1)))
          = Z.max 0 (count - len out1)) as ->
    by (unfold len at 1; rewrite length_map; apply range_len).
  rewrite Hlen1.
  assert (len (map matched (range mc)) = Z.max 0 mc) as ->
    by (unfold len; rewrite length_map; apply range_len).
  lia.
Qed.

Lemma count_converts (count : Z) :
  0 <= count <= 2 ^ 53 -> converts_to_float count.
Proof.
  intros [H0 H1]. unfold converts_to_float. rewrite Z.abs_eq by exact H0.
  assert (2 ^ 53 < 2 ^ 1024 - 2 ^ 970) as Hbig by reflexivity.
  eapply Z.le_lt_trans; eassumption.
Qed.

(** X26: for a count between 0 and [2^53], a matching ratio between 0 and 1,
    timestamps in the range of dates and draws the random library can make,
    [generate_batch] raises nothing and returns exactly [count] intents. *)
Theorem batch_size (count : Z) (ratio : Q) (span : Z) (start : Q)
    (matched : nat -> matched_turn) (singles : nat -> single_turn) :
  0 <= count <= 2 ^ 53 ->
  (0 <= ratio)%Q -> (ratio <= 1)%Q ->
  span_in_range start span ->
  (forall i, valid_matched_turn (matched i)) ->
  (forall i, valid_single_turn (singles i)) ->
  exists intents,
    generate_batch isoformat count ratio span start matched singles
    = Ok intents
    /\ len intents = count.
Proof.
  intros Hc Hr0 Hr1 Hin Hm Hs.
  destruct (generate_batch_result count ratio span start matched singles
              (count_converts count Hc) Hin Hm Hs) as (ks & Hgen & Hlen & _).
  eexists. split; [exact Hgen|].
  assert (len (map snd (sort_keyed ks)) = len ks) as Hl.
  { unfold len. rewrite length_map.
    rewrite (Permutation_length (sort_keyed_perm ks)). reflexivity. }
  rewrite Hl, Hlen.
  pose proof (matching_count_bound count ratio (proj1 Hc) Hr0 Hr1). lia.
Qed.

(** X27: under the same conditions the intents of a batch are in the order of
    their [created_at] strings: each key is at most the next one. *)
Theorem batch_is_sorted (count : Z) (ratio : Q) (span : Z) (start : Q)
    (matched : nat -> matched_turn) (singles : nat -> single_turn) :
  0 <= count <= 2 ^ 53 ->
  (0 <= ratio)%Q -> (ratio <= 1)%Q ->
  span_in_range start span ->
  (forall i, valid_matched_turn (matched i)) ->
  (forall i, valid_single_turn (singles i)) ->
  exists intents created,
    generate_batch isoformat count ratio span start matched singles
    = Ok intents
    /\ batch_keys intents = Ok created
    /\ length created = length intents
    /\ Sorted (fun a b => String.leb a b = true) created.
Proof.
  intros Hc _ _ Hin Hm Hs.
  destruct (generate_batch_result count ratio span start matched singles
              (count_converts count Hc) Hin Hm Hs) as (ks & Hgen & _ & Hall).
  assert (Forall (fun kx => created_at (snd kx) = Ok (fst kx)) (sort_keyed ks))
    as Hall'.
  { eapply Permutation_Forall; [symmetry; apply sort_keyed_perm | exact Hall]. }
  eexists _, _. split; [exact Hgen|].
  unfold batch_keys. rewrite (keyed_of_pairs _ Hall').
  unfold mbind, result_bind. split; [reflexivity|].
  split; [rewrite !length_map; reflexivity|].
  apply sorted_map_fst, sort_keyed_sorted.
Qed.

End IntentFacts.

(** ** The profile counts of [main] *)

Lemma profile_counts_loop_spec (intents : list value) :
  Forall (fun x => exists s, getitem2 x "metadata" "profile" = Ok (VStr s))
         intents ->
  forall counts,
  exists m,
    profile_counts_loop intents counts = Ok m
    /\ dict_values_sum m = dict_values_sum counts + len intents
    /\ forall k, dict_get m k
                 = dict_get counts k + len (with_profile k intents).
Proof.
  induction 1 as [|x intents [s Hs] _ IH]; intros counts.
  - exists counts. split; [reflexivity|]. unfold len. simpl.
    split; [lia | intros k; lia].
  - simpl profile_counts_loop. bind_step Hs.
    destruct (IH (<[s := default 0 (counts !! s) + 1]> counts))
      as (m & Hm & Hsum & Hkey).
    exists m. split; [exact Hm|]. split.
    + rewrite Hsum.
      change (default 0 (counts !! s)) with (dict_get counts s).
      rewrite dict_values_sum_increment. unfold len. simpl length. lia.
    + intros k. rewrite Hkey.
      change (default 0 (counts !! s)) with (dict_get counts s).
      rewrite dict_get_increment. unfold with_profile. simpl List.filter.
      rewrite Hs. destruct (String.eqb s k); unfold len; simpl length; lia.
Qed.

(** X28: the profile counts of [main] sum to the number of intents, each
    profile counted as often as it occurs. *)
Theorem profile_counts_total (intents : list value) :
  Forall (fun x => exists s, getitem2 x "metadata" "profile" = Ok (VStr s))
         intents ->
  exists m,
    profile_counts intents = Ok m
    /\ dict_values_sum m = len intents
    /\ forall k, dict_get m k = len (with_profile k intents).
Proof.
  intros H. destruct (profile_counts_loop_spec intents H ∅)
    as (m & Hm & Hsum & Hkey).
  exists m. split; [exact Hm|]. split.
  - rewrite Hsum, dict_values_sum_empty. lia.
  - intros k. rewrite Hkey. unfold dict_get. rewrite lookup_empty. simpl. lia.
Qed.

(** ** Runs of the generator *)

Lemma half_is_unit_draw : unit_draw (1 # 2).
Proof. split; [discriminate | reflexivity]. Defined.

Lemma halves_are_unit_draws (n : nat) : Forall unit_draw (repeat (1 # 2)%Q n).
Proof.
  apply List.Forall_forall. intros x Hx. apply repeat_spec in Hx. subst x.
  exact half_is_unit_draw.
Defined.

Lemma sample_draws_valid : valid_draws sample_draws.
Proof.
  unfold valid_draws, sample_draws.
  cbn [pair_draw profile_draw usd_draw input_deviation_draw
       output_deviation_draw slippage_draw allow_partial_draw address_draws
       timeout_draw min_fill_draw strategy_draw max_hops_draw].
  do 7 (split; [exact half_is_unit_draw|]).
  split; [reflexivity|]. split; [apply halves_are_unit_draws|].
  split.
  - intros p Hp. vm_compute in Hp. injection Hp as <-. simpl.
    split; [discriminate | reflexivity].
  - repeat split; discriminate || reflexivity.
Defined.

Lemma address_shape_witness :
  length (address_draws sample_draws) = 38%nat
  /\ Forall unit_draw (address_draws sample_draws)
  /\ exists digits,
       generate_address (address_draws sample_draws)
       = Ok (String.append "cosmos1" (join_chars digits))
       /\ length digits = 38%nat.
Proof.
  assert (length (address_draws sample_draws) = 38%nat) as Hl by reflexivity.
  assert (Forall unit_draw (address_draws sample_draws)) as Hu
    by apply halves_are_unit_draws.
  split; [exact Hl|]. split; [exact Hu|].
  destruct (address_shape _ Hl Hu) as (digits & H1 & H2 & _).
  exists digits. split; assumption.
Defined.

Lemma intent_keys_witness :
  valid_draws sample_draws
  /\ exists intent,
       generate_intent sample_isoformat None 0 sample_draws = Ok intent
       /\ keys intent
          = ["id"; "user_address"; "input"; "output"; "fill_config";
             "constraints"; "timeout_seconds"; "created_at"; "metadata"].
Proof.
  split; [exact sample_draws_valid|].
  destruct (intent_keys sample_isoformat None 0 sample_draws
              sample_draws_valid eq_refl eq_refl) as (intent & H1 & H2 & _).
  exists intent. split; assumption.
Defined.

Lemma intent_tokens_witness :
  valid_draws sample_draws
  /\ exists intent a b,
       generate_intent sample_isoformat None 0 sample_draws = Ok intent
       /\ getitem2 intent "input" "denom" = Ok (VStr a)
       /\ getitem2 intent "output" "denom" = Ok (VStr b)
       /\ a <> b.
Proof.
  split; [exact sample_draws_valid|].
  destruct (intent_tokens sample_isoformat None 0 sample_draws
              sample_draws_valid eq_refl eq_refl)
    as (intent & a & b & tin & tout & H1 & H2 & H3 & H4 & _).
  exists intent, a, b. repeat split; assumption.
Defined.

Lemma intent_amounts_witness :
  valid_draws sample_draws
  /\ exists intent min_amount expected,
       generate_intent sample_isoformat None 0 sample_draws = Ok intent
       /\ getitem2 intent "output" "min_amount" = Ok (VInt min_amount)
       /\ getitem2 intent "metadata" "expected_output" = Ok (VInt expected)
       /\ 0 <= min_amount <= expected.
Proof.
  split; [exact sample_draws_valid|].
  destruct (intent_amounts sample_isoformat None 0 sample_draws
              sample_draws_valid eq_refl eq_refl)
    as (intent & amount & min_amount & expected & bps & seconds
        & H1 & _ & H3 & H4 & _ & _ & _ & H8 & _).
  exists intent, min_amount, expected. repeat split; assumption || apply H8.
Defined.

Lemma worker_payload_keys_witness :
  valid_draws sample_draws
  /\ exists intent payload,
       generate_intent sample_isoformat None 0 sample_draws = Ok intent
       /\ worker_payload intent = Ok payload
       /\ keys payload
          = ["user_address"; "input"; "output"; "fill_config"; "constraints";
             "timeout_seconds"].
Proof.
  split; [exact sample_draws_valid|].
  destruct (worker_payload_keys sample_isoformat sample_draws
              sample_draws_valid) as (intent & payload & H1 & H2 & H3 & _).
  exists intent, payload. repeat split; assumption.
Defined.

Lemma matching_pair_is_opposed_witness :
  let p := mkPairDraws 1700000000 sample_draws sample_draws (1 # 2) (1 # 2) in
  valid_draws (first_draws p)
  /\ exists intent1 intent2 a b,
       generate_matching_pair sample_isoformat p = Ok (intent1, intent2)
       /\ getitem2 intent1 "input" "denom" = Ok (VStr a)
       /\ getitem2 intent2 "output" "denom" = Ok (VStr a)
       /\ getitem2 intent1 "output" "denom" = Ok (VStr b)
       /\ getitem2 intent2 "input" "denom" = Ok (VStr b).
Proof.
  intros p. split; [exact sample_draws_valid|].
  destruct (matching_pair_is_opposed sample_isoformat p sample_draws_valid
              sample_draws_valid half_is_unit_draw half_is_unit_draw)
    as (i1 & i2 & a & b & ca & cb & a1 & m1 & a2 & m2
        & H1 & _ & H3 & H4 & H5 & H6 & _).
  exists i1, i2, a, b. repeat split; assumption.
Defined.

Lemma sample_turns_valid :
  (forall i, valid_matched_turn (sample_matched i))
  /\ (forall i, valid_single_turn (sample_single i)).
Proof.
  split; intros i.
  - split; [exact half_is_unit_draw|].
    split; [exact sample_draws_valid|]. split; [exact sample_draws_valid|].
    repeat split; discriminate || reflexivity.
  - split; [split; [discriminate | reflexivity] | exact sample_draws_valid].
Defined.

Lemma sample_span_in_range : span_in_range 1700000000 60.
Proof. repeat split; discriminate. Defined.

Lemma batch_size_witness :
  (0 <= 4 <= 2 ^ 53 /\ (0 <= 1 # 2)%Q /\ (1 # 2 <= 1)%Q
   /\ span_in_range 1700000000 60)
  /\ (forall i, valid_matched_turn (sample_matched i))
  /\ (forall i, valid_single_turn (sample_single i))
  /\ exists intents,
       generate_batch sample_isoformat 4 (1 # 2) 60 1700000000
                      sample_matched sample_single = Ok intents
       /\ len intents = 4.
Proof.
  destruct sample_turns_valid as [Hm Hs].
  assert (0 <= 4 <= 2 ^ 53) as Hc by (split; discriminate).
  assert (0 <= 1 # 2)%Q as Hr0 by discriminate.
  assert (1 # 2 <= 1)%Q as Hr1 by discriminate.
  split; [repeat split; assumption || exact sample_span_in_range|].
  split; [exact Hm|]. split; [exact Hs|].
  exact (batch_size sample_isoformat 4 (1 # 2) 60 1700000000
           sample_matched sample_single Hc Hr0 Hr1 sample_span_in_range
           Hm Hs).
Defined.

Lemma batch_is_sorted_witness :
  (0 <= 4 <= 2 ^ 53 /\ (0 <= 1 # 2)%Q /\ (1 # 2 <= 1)%Q
   /\ span_in_range 1700000000 60)
  /\ (forall i, valid_matched_turn (sample_matched i))
  /\ (forall i, valid_single_turn (sample_single i))
  /\ exists intents created,
       generate_batch sample_isoformat 4 (1 # 2) 60 1700000000
                      sample_matched sample_single = Ok intents
       /\ batch_keys intents = Ok created
       /\ Sorted (fun a b => String.leb a b = true) created.
Proof.
  destruct sample_turns_valid as [Hm Hs].
  assert (0 <= 4 <= 2 ^ 53) as Hc by (split; discriminate).
  assert (0 <= 1 # 2)%Q as Hr0 by discriminate.
  assert (1 # 2 <= 1)%Q as Hr1 by discriminate.
  split; [repeat split; assumption || exact sample_span_in_range|].
  split; [exact Hm|]. split; [exact Hs|].
  destruct (batch_is_sorted sample_isoformat 4 (1 # 2) 60 1700000000
              sample_matched sample_single Hc Hr0 Hr1 sample_span_in_range
              Hm Hs)
    as (intents & created & H1 & H2 & _ & H4).
  exists intents, created. repeat split; assumption.
Defined.

(** Out of the range of dates the batch raises: a time span of ten million
    million seconds takes the first timestamp past the year 9999. *)
Example batch_past_the_last_date :
  exists e,
    generate_batch sample_isoformat 1 0 (10 ^ 13) 1700000000
                   sample_matched sample_single = Raise e
    /\ exn_type_name e = "OverflowError"
    /\ exn_str e = "date value out of range".
Proof. eexists. split; [vm_compute; reflexivity|]. split; reflexivity. Qed.

Lemma profile_counts_total_witness :
  let intents := [VDict [("metadata", VDict [("profile", VStr "retail")])];
                  VDict [("metadata", VDict [("profile", VStr "whale")])];
                  VDict [("metadata", VDict [("profile", VStr "retail")])]] in
  Forall (fun x => exists s, getitem2 x "metadata" "profile" = Ok (VStr s))
         intents
  /\ exists m, profile_counts intents = Ok m /\ dict_values_sum m = 3
               /\ dict_get m "retail" = 2.
Proof.
  intros intents.
  assert (Forall (fun x => exists s,
                    getitem2 x "metadata" "profile" = Ok (VStr s)) intents)
    as H by (repeat constructor; eexists; reflexivity).
  split; [exact H|].
  destruct (profile_counts_total intents H) as (m & H1 & H2 & H3).
  exists m. split; [exact H1|]. split; [exact H2 | apply H3].
Defined.

End IntentGeneratorFacts.
